(** * CatLearn tutorial notebooks: ML-NEB and k-fold cross-validation

    The two notebooks of the repository are scripts that drive external
    libraries (ASE, CatLearn, numpy, matplotlib).  They are embedded here as
    programs of a small monad whose effects are the ones the notebooks have:
    calls into the outside world, exceptions, and a store of Python list
    objects (lists are shared, mutable objects in Python, and the
    cross-validation loop copies and pops them).

    The outside world is a parameter: an oracle that answers every call with
    a value or raises.  What a run of a notebook did is read off its trace,
    the sequence of calls it made together with their outcomes.

    Conventions of the embedding:
    - a code cell is a definition; the names it reads from earlier cells are
      its arguments, the names it binds are its result, and a notebook is
      its cells run from top to bottom;
    - a call is named as the notebook writes it, with its positional and
      keyword arguments in the order written;
    - the lists that a notebook copies or mutates live in the store; a list
      display that is only passed on is written as its contents, and so is
      the dict that [gp_predict] fills and returns;
    - iterating over a library object is one call that yields its items;
    - floats are binary64 numbers (Rocq's primitive floats). *)

From Stdlib Require Import ZArith Floats Uint63.
From stdpp Require Import base option list strings.

Set Warnings "-inexact-float,-register-all".
Local Open Scope string_scope.
Local Open Scope list_scope.
Local Open Scope Z_scope.

(** ** Python values *)

Definition loc := nat.

(** A list exists in two forms: [VRef r] is a list object of the notebook,
    held in the store at [r]; [VList vs] is the contents of a list as it
    crosses the border to a library (an argument passed, a result
    returned).  [VArr rows] is a numpy array seen as the sequence of its
    entries along axis 0.  [VObj] is any library object the notebooks treat
    as opaque (an Atoms object, an optimizer, a figure). *)
Inductive value : Type :=
| VNone
| VBool (b : bool)
| VInt (z : Z)
| VFloat (x : float)
| VStr (s : string)
| VTuple (vs : list value)
| VList (vs : list value)
| VDict (kvs : list (string * value))
| VArr (rows : list value)
| VRef (r : loc)
| VObj (id : nat).

Inductive exn : Type :=
| IndexError
| KeyError
| TypeError
| ValueError
| AttributeError
| ZeroDivisionError
| SystemError
| LibError (what : string).

(** ** Calls into the outside world

    [fn] is the callee as the notebook writes it ("MLNEB",
    "neb_catlearn.run", "plt.plot"); for a method call [recv] is the object
    the method is called on.  Operations of the Python data model on opaque
    objects are calls of the corresponding builtin: [a.x] is
    [getattr(a, 'x')], [a[i]] is [getitem(a, i)], and so on. *)
Record call : Type := Call {
  fn : string;
  recv : option value;
  args : list value;
  kwargs : list (string * value)
}.

Definition outcome : Type := exn + value.
Definition event : Type := call * outcome.
Definition oracle : Type := list event -> call -> outcome.

Record state : Type := State {
  store : list (list value);
  trace : list event
}.

Definition init : state := State [] [].

(** ** The script monad *)

Inductive script (A : Type) : Type :=
| Ret (a : A)
| Throw (e : exn)
| Lib (c : call) (k : value -> script A)
| New (l : list value) (k : loc -> script A)
| Get (r : loc) (k : list value -> script A)
| Put (r : loc) (l : list value) (k : script A)
| Try (body : script value) (handler : exn -> script value)
      (k : value -> script A).

Arguments Ret {A} a.
Arguments Throw {A} e.
Arguments Lib {A} c k.
Arguments New {A} l k.
Arguments Get {A} r k.
Arguments Put {A} r l k.
Arguments Try {A} body handler k.

Fixpoint bind {A B : Type} (p : script A) (f : A -> script B) : script B :=
  match p with
  | Ret a => f a
  | Throw e => Throw e
  | Lib c k => Lib c (fun v => bind (k v) f)
  | New l k => New l (fun r => bind (k r) f)
  | Get r k => Get r (fun l => bind (k l) f)
  | Put r l k => Put r l (bind k f)
  | Try b h k => Try b h (fun v => bind (k v) f)
  end.

#[global] Instance script_ret : MRet script := @Ret.
#[global] Instance script_bind : MBind script := fun A B f p => bind p f.

Definition log (c : call) (o : outcome) (s : state) : state :=
  State (store s) (trace s ++ [(c, o)]).

Definition alloc (l : list value) (s : state) : state :=
  State (store s ++ [l]) (trace s).

Definition write (r : loc) (l : list value) (s : state) : state :=
  State (<[r := l]> (store s)) (trace s).

(** A run threads the state through the script.  A call is answered by the
    oracle, which sees the trace so far, and is logged with its outcome; an
    exception ends the run unless a [Try] is around it. *)
Fixpoint run {A : Type} (lib : oracle) (p : script A) (s : state)
  : state * (exn + A) :=
  match p with
  | Ret a => (s, inr a)
  | Throw e => (s, inl e)
  | Lib c k =>
      match lib (trace s) c with
      | inl e => (log c (inl e) s, inl e)
      | inr v => run lib (k v) (log c (inr v) s)
      end
  | New l k => run lib (k (length (store s))) (alloc l s)
  | Get r k =>
      match store s !! r with
      | Some l => run lib (k l) s
      | None => (s, inl SystemError)
      end
  | Put r l k => run lib k (write r l s)
  | Try b h k =>
      match run lib b s with
      | (s1, inr v) => run lib (k v) s1
      | (s1, inl e) =>
          match run lib (h e) s1 with
          | (s2, inr v) => run lib (k v) s2
          | (s2, inl e') => (s2, inl e')
          end
      end
  end.

Fixpoint for_ {A : Type} (l : list A) (body : A -> script unit) : script unit :=
  match l with
  | [] => Ret tt
  | a :: l' => bind (body a) (fun _ => for_ l' body)
  end.

Fixpoint map_ {A B : Type} (f : A -> script B) (l : list A) : script (list B) :=
  match l with
  | [] => Ret []
  | a :: l' => bind (f a) (fun b => bind (map_ f l') (fun bs => Ret (b :: bs)))
  end.

(** ** Python builtins

    What the notebooks use of the language itself is modelled here; every
    case the model does not cover is handed to the outside world as a call
    of the builtin, so that nothing is assumed about it. *)

Definition ext (f : string) (a : list value) (kw : list (string * value))
  : script value :=
  Lib (Call f None a kw) Ret.

Definition meth (f : string) (obj : value) (a : list value)
    (kw : list (string * value)) : script value :=
  Lib (Call f (Some obj) a kw) Ret.

(** A library result that the notebook binds as a list becomes a list object
    of the store; a list object passed to a library is passed by its
    contents. *)
Definition intern (v : value) : script value :=
  match v with
  | VList l => New l (fun r => Ret (VRef r))
  | _ => Ret v
  end.

Definition extern (v : value) : script value :=
  match v with
  | VRef r => Get r (fun l => Ret (VList l))
  | _ => Ret v
  end.

(** Position of index [i] in a sequence of length [n]: negative indices
    count from the end, [None] is out of range. *)
Definition py_index (n : nat) (i : Z) : option nat :=
  let j := if i <? 0 then i + Z.of_nat n else i in
  if (0 <=? j) && (j <? Z.of_nat n) then Some (Z.to_nat j) else None.

Definition seq_item (l : list value) (i : Z) : script value :=
  match py_index (length l) i with
  | Some j => match l !! j with
              | Some x => Ret x
              | None => Throw IndexError
              end
  | None => Throw IndexError
  end.

Fixpoint assoc (k : string) (kvs : list (string * value)) : option value :=
  match kvs with
  | [] => None
  | (k', v) :: kvs' => if String.eqb k k' then Some v else assoc k kvs'
  end.

(** [d[k] = v] on a dict: the entry is replaced in place or added last. *)
Fixpoint dict_set (k : string) (v : value) (kvs : list (string * value))
  : list (string * value) :=
  match kvs with
  | [] => [(k, v)]
  | (k', v') :: kvs' =>
      if String.eqb k k' then (k, v) :: kvs' else (k', v') :: dict_set k v kvs'
  end.

(** [v[i]] *)
Definition py_getitem (v i : value) : script value :=
  match v, i with
  | VRef r, VInt z => Get r (fun l => seq_item l z)
  | VList l, VInt z | VTuple l, VInt z | VArr l, VInt z => seq_item l z
  | VDict kvs, VStr k =>
      match assoc k kvs with
      | Some x => Ret x
      | None => Throw KeyError
      end
  | _, _ => ext "getitem" [v; i] []
  end.

(** [len(v)] *)
Definition py_len (v : value) : script value :=
  match v with
  | VRef r => Get r (fun l => Ret (VInt (Z.of_nat (length l))))
  | VList l | VTuple l | VArr l => Ret (VInt (Z.of_nat (length l)))
  | VDict kvs => Ret (VInt (Z.of_nat (length kvs)))
  | _ => ext "len" [v] []
  end.

(** The items that iterating over [v] yields.  For an opaque object the
    world enumerates them. *)
Definition py_iter (v : value) : script (list value) :=
  match v with
  | VRef r => Get r Ret
  | VList l | VTuple l | VArr l => Ret l
  | _ => Lib (Call "iter" None [v] [])
           (fun w => match w with
                     | VList l | VTuple l => Ret l
                     | _ => Throw TypeError
                     end)
  end.

(** [a, b = v] *)
Definition py_unpack2 (v : value) : script (value * value) :=
  bind (py_iter v) (fun items =>
    match items with
    | [a; b] => Ret (a, b)
    | _ => Throw ValueError
    end).

(** [range(n)] as the list of its items. *)
Definition py_range (n : value) : script (list value) :=
  match n with
  | VInt z => Ret (map (fun i => VInt (Z.of_nat i)) (seq 0 (Z.to_nat z)))
  | _ => bind (ext "range" [n] []) py_iter
  end.

Definition py_getattr (v : value) (name : string) : script value :=
  ext "getattr" [v; VStr name] [].

Definition py_setattr (v : value) (name : string) (x : value) : script unit :=
  bind (ext "setattr" [v; VStr name; x] []) (fun _ => Ret tt).

(** *** Numbers

    Python floats are IEEE 754 binary64 numbers, as Rocq's primitive floats
    are.  An integer of magnitude up to 2^53 is a float exactly, and on
    such integers the arithmetic that mixes integers and floats is the
    arithmetic of floats; what Python does with a larger integer
    (rounding, exact comparison, OverflowError) is not modelled and is left
    to the world. *)
Inductive num : Type :=
| NInt (z : Z)
| NFloat (x : float).

Definition num_of (v : value) : option num :=
  match v with
  | VBool b => Some (NInt (if b then 1 else 0))
  | VInt z => Some (NInt z)
  | VFloat x => Some (NFloat x)
  | _ => None
  end.

Definition exact (z : Z) : bool := Z.abs z <=? 2 ^ 53.

(** The float of an exact integer. *)
Definition float_of_Z (z : Z) : float :=
  if z <? 0 then PrimFloat.opp (PrimFloat.of_uint63 (Uint63.of_Z (- z)))
  else PrimFloat.of_uint63 (Uint63.of_Z z).

Definition to_float (n : num) : option float :=
  match n with
  | NInt z => if exact z then Some (float_of_Z z) else None
  | NFloat x => Some x
  end.

Definition is_zero (n : num) : bool :=
  match n with
  | NInt z => z =? 0
  | NFloat x => PrimFloat.eqb x PrimFloat.zero
  end.

(** [a + b] *)
Definition py_add (a b : value) : script value :=
  match num_of a, num_of b with
  | Some (NInt x), Some (NInt y) => Ret (VInt (x + y))
  | Some x, Some y =>
      match to_float x, to_float y with
      | Some fx, Some fy => Ret (VFloat (PrimFloat.add fx fy))
      | _, _ => ext "add" [a; b] []
      end
  | _, _ => ext "add" [a; b] []
  end.

(** [a / b]: true division, which raises on a zero divisor. *)
Definition py_truediv (a b : value) : script value :=
  match num_of a, num_of b with
  | Some x, Some y =>
      if is_zero y then Throw ZeroDivisionError
      else match to_float x, to_float y with
           | Some fx, Some fy => Ret (VFloat (PrimFloat.div fx fy))
           | _, _ => ext "truediv" [a; b] []
           end
  | _, _ => ext "truediv" [a; b] []
  end.

(** [a > b] *)
Definition py_gt (a b : value) : script value :=
  match num_of a, num_of b with
  | Some (NInt x), Some (NInt y) => Ret (VBool (y <? x))
  | Some x, Some y =>
      match to_float x, to_float y with
      | Some fx, Some fy => Ret (VBool (PrimFloat.ltb fy fx))
      | _, _ => ext "gt" [a; b] []
      end
  | _, _ => ext "gt" [a; b] []
  end.

(** [float(v)] *)
Definition py_float (v : value) : script value :=
  match num_of v with
  | Some n =>
      match to_float n with
      | Some x => Ret (VFloat x)
      | None => ext "float" [v] []
      end
  | None => ext "float" [v] []
  end.

(** [sum(v)]: the items are added from the left, starting from the
    integer 0. *)
Fixpoint sum_from (acc : value) (items : list value) : script value :=
  match items with
  | [] => Ret acc
  | x :: items' => bind (py_add acc x) (fun acc' => sum_from acc' items')
  end.

Definition py_sum (v : value) : script value :=
  bind (py_iter v) (sum_from (VInt 0)).

(** *** List methods

    On a list object they act on the store.  None, booleans, numbers,
    strings and tuples have none of these methods, and a numpy array has
    neither [pop] nor [append]: the attribute lookup raises before
    anything is called.  On any other value the method call is the
    business of the object.  [name] is the receiver as the notebook writes
    it. *)

(** [v.copy()]: a new list object with the same items (a shallow copy). *)
Definition list_copy (name : string) (v : value) : script value :=
  match v with
  | VRef r => Get r (fun l => New l (fun r' => Ret (VRef r')))
  | VNone | VBool _ | VInt _ | VFloat _ | VStr _ | VTuple _ => Throw AttributeError
  | _ => meth (name ++ ".copy") v [] []
  end.

(** [v.pop(i)]: removes the item at [i] from the list object and returns
    it.  A boolean index is the integer 0 or 1; an index that is no integer
    raises TypeError. *)
Definition list_pop (name : string) (v i : value) : script value :=
  match v with
  | VRef r =>
      match i with
      | VInt z =>
          Get r (fun l =>
            match py_index (length l) z with
            | Some j => match l !! j with
                        | Some x => Put r (delete j l) (Ret x)
                        | None => Throw IndexError
                        end
            | None => Throw IndexError
            end)
      | VBool b =>
          Get r (fun l =>
            match l !! (if b then 1 else 0)%nat with
            | Some x => Put r (delete (if b then 1 else 0)%nat l) (Ret x)
            | None => Throw IndexError
            end)
      | VNone | VFloat _ | VStr _ | VTuple _ | VList _ | VDict _ | VRef _ =>
          Throw TypeError
      | _ => meth (name ++ ".pop") v [i] []
      end
  | VNone | VBool _ | VInt _ | VFloat _ | VStr _ | VTuple _ | VArr _ =>
      Throw AttributeError
  | _ => meth (name ++ ".pop") v [i] []
  end.

(** [v.append(x)] *)
Definition list_append (name : string) (v x : value) : script unit :=
  match v with
  | VRef r => Get r (fun l => Put r (l ++ [x]) (Ret tt))
  | VNone | VBool _ | VInt _ | VFloat _ | VStr _ | VTuple _ | VArr _ =>
      Throw AttributeError
  | _ => bind (meth (name ++ ".append") v [x] []) (fun _ => Ret tt)
  end.

(** ** numpy

    [np.concatenate(arrays, axis=0)] joins the arrays along their first
    axis, in the order given.  It raises ValueError when there is no array
    to concatenate, and when the arrays differ in their number of
    dimensions or in their shape beyond the first axis.  The result holds
    the entries of the arrays as they are when all arrays have the same
    kind of entries; with kinds mixed numpy converts the entries, which is
    not modelled.

    The world of a run is the oracle with this function fixed where its
    result is known: for a list of arrays whose entries are booleans,
    integers, floats or strings and whose shapes can be read off.  Every
    other call of [np.concatenate] stays with the oracle: another axis, an
    array-like that is not an array, an array with an axis of length 0
    (its shape beyond that axis is not visible in its rows), arrays of
    other objects, arrays of mixed kinds. *)
Inductive kind : Type :=
| KBool
| KInt
| KFloat
| KStr.

#[global] Instance kind_eq_dec : EqDecision kind.
Proof. solve_decision. Defined.

(** The kind of the entries of an array and its shape; a scalar has the
    empty shape. *)
Fixpoint form (v : value) : option (kind * list nat) :=
  match v with
  | VBool _ => Some (KBool, [])
  | VInt _ => Some (KInt, [])
  | VFloat _ => Some (KFloat, [])
  | VStr _ => Some (KStr, [])
  | VArr rows =>
      match rows with
      | [] => None
      | r :: rs =>
          match form r with
          | Some (k, sh) =>
              if forallb (fun r' => bool_decide (form r' = Some (k, sh))) rs
              then Some (k, length rows :: sh)
              else None
          | None => None
          end
      end
  | _ => None
  end.

(** The kind of an array and its shape beyond the first axis. *)
Definition array_form (v : value) : option (kind * list nat) :=
  match v with
  | VArr _ =>
      match form v with
      | Some (k, _ :: sh) => Some (k, sh)
      | _ => None
      end
  | _ => None
  end.

Definition rows_of (v : value) : option (list value) :=
  match v with
  | VArr rows => Some rows
  | _ => None
  end.

Definition np_concatenate (lib : oracle) (h : list event) (c : call) : outcome :=
  match args c, kwargs c with
  | [VList l], [(axis, VInt 0)] =>
      if String.eqb axis "axis" then
        match l with
        | [] => inl ValueError
        | a :: l' =>
            match array_form a, mapM array_form l', mapM rows_of l with
            | Some (k, sh), Some forms, Some rows =>
                if forallb (fun f : kind * list nat => bool_decide (f.2 = sh)) forms then
                  if forallb (fun f : kind * list nat => bool_decide (f.1 = k)) forms
                  then inr (VArr (concat rows))
                  else lib h c
                else inl ValueError
            | _, _, _ => lib h c
            end
        end
      else lib h c
  | _, _ => lib h c
  end.

Definition world (lib : oracle) : oracle :=
  fun h c =>
    if String.eqb (fn c) "np.concatenate" then np_concatenate lib h c
    else lib h c.

(** Arrays, given by their rows, that [np.concatenate] joins: they have
    entries of one kind and the same shape beyond the first axis. *)
Definition alike (R : list (list value)) : Prop :=
  exists k sh, Forall (fun rows => array_form (VArr rows) = Some (k, sh)) R.

(** ** Helpers shared by the notebooks *)

(** [from m import a, b] and [import m as n] *)
Definition import_from (m : string) (names : list string) : script value :=
  ext "import" [VStr m] [("names", VTuple (map VStr names))].

Definition import_as (m : string) (alias : string) : script value :=
  ext "import" [VStr m] [("as", VStr alias)].

(** ['template'.format(a, ...)] and [print(v)] *)
Definition fmt (template : string) (a : list value) : script value :=
  meth "str.format" (VStr template) a [].

Definition print (v : value) : script unit :=
  ext "print" [v] [];; mret tt.

(** * The ML-NEB tutorial (src/unnamed/part_000)

    One definition per code cell, in the order of the notebook.  A cell
    takes the names it reads from earlier cells as arguments and returns
    the names it binds. *)
Module MLNEB_tutorial.

(** Keyword arguments of the four [MLNEB(...)] constructions. *)
Definition mlneb_kwargs (ase_calculator : value) (n_images : Z) (restart : bool)
  : list (string * value) :=
  [("start", VStr "initial.traj");
   ("end", VStr "final.traj");
   ("ase_calc", ase_calculator);
   ("n_images", VInt n_images);
   ("interpolation", VStr "idpp");
   ("restart", VBool restart)].

(** [ase_calculator = EMT()] *)
Definition cell_calculator : script value :=
  import_from "ase.calculators.emt" ["EMT"];;
  ext "EMT" [] [].

(** The slab with its adsorbate; [mask = [atom.tag > 1 for atom in slab]]
    fixes the second and third layers. *)
Definition cell_slab : script value :=
  import_from "ase.build" ["fcc100"; "add_adsorbate"];;
  import_from "ase.constraints" ["FixAtoms"];;
  slab ← ext "fcc100" [VStr "Al"] [("size", VTuple [VInt 2; VInt 2; VInt 3])];
  ext "add_adsorbate" [slab; VStr "Au"; VFloat 1.7; VStr "hollow"] [];;
  meth "slab.center" slab [] [("axis", VInt 2); ("vacuum", VFloat 4.0)];;
  atoms ← py_iter slab;
  mask ← map_ (fun atom => tag ← py_getattr atom "tag"; py_gt tag (VInt 1)) atoms;
  constraint ← ext "FixAtoms" [] [("mask", VList mask)];
  meth "slab.set_constraint" slab [constraint] [];;
  mret slab.

(** [slab.set_calculator(ase_calculator)] *)
Definition cell_set_calculator (slab ase_calculator : value) : script unit :=
  meth "slab.set_calculator" slab [ase_calculator] [];;
  mret tt.

(** Relaxation of the two end-points; between them the adatom is moved by
    half a cell: [slab[-1].x += slab.get_cell()[0, 0] / 2]. *)
Definition cell_endpoints (slab : value) : script unit :=
  import_from "ase.optimize" ["BFGS"];;
  qn ← ext "BFGS" [slab] [("trajectory", VStr "initial.traj")];
  meth "qn.run" qn [] [("fmax", VFloat 0.01)];;
  atom ← py_getitem slab (VInt (-1));
  x ← py_getattr atom "x";
  cell ← meth "slab.get_cell" slab [] [];
  c00 ← py_getitem cell (VTuple [VInt 0; VInt 0]);
  d ← py_truediv c00 (VInt 2);
  x' ← py_add x d;
  py_setattr atom "x" x';;
  qn ← ext "BFGS" [slab] [("trajectory", VStr "final.traj")];
  meth "qn.run" qn [] [("fmax", VFloat 0.01)];;
  mret tt.

(** Section 1, "How to run ML-NEB". *)
Definition cell_run (ase_calculator : value) : script unit :=
  import_from "catlearn.optimize.mlneb" ["MLNEB"];;
  neb_catlearn ← ext "MLNEB" [] (mlneb_kwargs ase_calculator 7 false);
  meth "neb_catlearn.run" neb_catlearn []
    [("fmax", VFloat 0.05); ("trajectory", VStr "ML-NEB.traj")];;
  mret tt.

(** Section 2, "Plot ML-NEB results". *)
Definition cell_plot : script unit :=
  import_from "catlearn.optimize.tools" ["plotneb"];;
  ext "plotneb" [] [("trajectory", VStr "ML-NEB.traj"); ("view_path", VBool true)];;
  mret tt.

(** Section 3, "Restarting ML-NEB": first a run that stops after five
    steps, *)
Definition cell_unconverged (ase_calculator : value) : script unit :=
  neb_catlearn ← ext "MLNEB" [] (mlneb_kwargs ase_calculator 7 false);
  meth "neb_catlearn.run" neb_catlearn []
    [("fmax", VFloat 0.05); ("trajectory", VStr "ML-NEB.traj"); ("steps", VInt 5)];;
  mret tt.

(** then the restart from evaluated_structures.traj ("select restart=True
    in the MLNEB class"), *)
Definition cell_restart (ase_calculator : value) : script unit :=
  neb_catlearn ← ext "MLNEB" [] (mlneb_kwargs ase_calculator 7 true);
  meth "neb_catlearn.run" neb_catlearn []
    [("fmax", VFloat 0.05); ("trajectory", VStr "ML-NEB.traj")];;
  mret tt.

(** and a second restart with more images and tighter convergence. *)
Definition cell_restart_more (ase_calculator : value) : script unit :=
  neb_catlearn ← ext "MLNEB" [] (mlneb_kwargs ase_calculator 21 true);
  meth "neb_catlearn.run" neb_catlearn []
    [("fmax", VFloat 0.02); ("unc_convergence", VFloat 0.025);
     ("trajectory", VStr "ML-NEB.traj")];;
  mret tt.

(** The last cell plots the path once more. *)
Definition cell_plot_again : script unit :=
  ext "plotneb" [] [("trajectory", VStr "ML-NEB.traj"); ("view_path", VBool true)];;
  mret tt.

Definition notebook : script unit :=
  ase_calculator ← cell_calculator;
  slab ← cell_slab;
  cell_set_calculator slab ase_calculator;;
  cell_endpoints slab;;
  cell_run ase_calculator;;
  cell_plot;;
  cell_unconverged ase_calculator;;
  cell_restart ase_calculator;;
  cell_restart_more ase_calculator;;
  cell_plot_again.

End MLNEB_tutorial.

(** * The k-fold cross-validation tutorial
      (src/tutorials/07_cross_validation/k_fold_cv.ipynb)

    The lists that the notebook copies or mutates are list objects of the
    store: [targets], [fsplit], [tsplit], the copies [fcopy] and [tcopy],
    and [y].  Lists that are only built and passed on are written as their
    contents. *)
Module KFold_tutorial.

(** The number of folds that the notebook asks of [k_fold]. *)
Definition nsplit : Z := 5.

Definition cell_imports : script unit :=
  ext "%matplotlib" [VStr "inline"] [];;
  ext "import" [VStr "os"] [];;
  import_as "numpy" "np";;
  import_as "matplotlib.pyplot" "plt";;
  import_from "ase.ga.data" ["DataConnection"];;
  import_from "catlearn.featurize.setup" ["FeatureGenerator"];;
  import_from "catlearn.cross_validation" ["k_fold"];;
  import_from "catlearn.cross_validation.k_fold_cv" ["write_split"; "read_split"];;
  import_from "catlearn.regression" ["RidgeRegression"; "GaussianProcess"];;
  import_from "catlearn.regression.cost_function" ["get_error"];;
  mret tt.

(** Data setup: the atoms of the database, their feature matrix, and the
    target vector collected by the loop
    [targets.append(a.info['key_value_pairs']['raw_score'])]. *)
Definition cell_data : script (value * value) :=
  gadb ← ext "DataConnection" [VStr "../../data/gadb.db"] [];
  all_cand ← meth "gadb.get_all_relaxed_candidates" gadb []
                [("use_extinct", VBool false)];
  n ← py_len all_cand;
  s ← fmt "Loaded {} atoms objects" [n];
  print s;;
  fgen ← ext "FeatureGenerator" [] [];
  vec ← py_getattr fgen "eigenspectrum_vec";
  features ← meth "fgen.return_vec" fgen [all_cand; VList [vec]] [];
  shape ← ext "np.shape" [features] [];
  s ← fmt "Generated {} feature matrix" [shape];
  print s;;
  targets ← New [] (fun r => Ret (VRef r));
  cands ← py_iter all_cand;
  for_ cands (fun a =>
    info ← py_getattr a "info";
    pairs ← py_getitem info (VStr "key_value_pairs");
    score ← py_getitem pairs (VStr "raw_score");
    list_append "targets" targets score);;
  t ← extern targets;
  shape ← ext "np.shape" [t] [];
  s ← fmt "Generated {} target vector" [shape];
  print s;;
  mret (features, targets).

(** [for index in range(len(split)): print(... np.shape(split[index]))] *)
Definition print_shapes (split : value) : script unit :=
  n ← py_len split;
  indices ← py_range n;
  for_ indices (fun index =>
    subset ← py_getitem split index;
    shape ← ext "np.shape" [subset] [];
    s ← fmt "    subset {0} has shape {1}" [index; shape];
    print s).

(** Subset generation: [fsplit, tsplit = k_fold(features=features,
    targets=targets, nsplit=5)]. *)
Definition cell_split (features targets : value) : script (value * value) :=
  t ← extern targets;
  r ← ext "k_fold" [] [("features", features); ("targets", t); ("nsplit", VInt nsplit)];
  '(a, b) ← py_unpack2 r;
  fsplit ← intern a;
  tsplit ← intern b;
  n ← py_len fsplit;
  s ← fmt "k_fold has generated {} subsets of features." [n];
  print s;;
  print_shapes fsplit;;
  n ← py_len tsplit;
  s ← fmt (String (Ascii.ascii_of_nat 10)
                  "k_fold has generated {} subsets of targets.") [n];
  print s;;
  print_shapes tsplit;;
  mret (fsplit, tsplit).

(** The split is written to kfoldSave.json and read back. *)
Definition cell_save (fsplit tsplit : value) : script unit :=
  f ← extern fsplit;
  t ← extern tsplit;
  ext "write_split" []
    [("features", f); ("targets", t); ("fname", VStr "kfoldSave");
     ("fformat", VStr "json")];;
  r ← ext "read_split" [] [("fname", VStr "kfoldSave"); ("fformat", VStr "json")];
  py_unpack2 r;;
  mret tt.

(** [gp_predict], the prediction function the notebook defines. *)
Definition gp_predict (train_features train_targets test_features test_targets : value)
  : script value :=
  let data := [] in
  let kdict :=
    VList [VDict [("type", VStr "gaussian"); ("width", VFloat 1.0);
                  ("scaling", VFloat 1.0); ("dimension", VStr "single")]] in
  gp ← ext "GaussianProcess" []
         [("train_fp", train_features); ("train_target", train_targets);
          ("kernel_list", kdict); ("regularization", VFloat 1e-2);
          ("optimize_hyperparameters", VBool true); ("scale_data", VBool true)];
  pred ← meth "gp.predict" gp [] [("test_fp", test_features)];
  prediction ← py_getitem pred (VStr "prediction");
  errors ← ext "get_error" [prediction; test_targets] [];
  rmse ← py_getitem errors (VStr "rmse_average");
  let data := dict_set "result" rmse data in
  size ← py_len train_targets;
  let data := dict_set "size" size data in
  mret (VDict data).

(** One pass of the cross-validation loop, for the subset [index]: first
    the test sets are popped from copies of the split and what remains is
    concatenated into the training sets, *)
Definition compose_sets (fsplit tsplit index : value)
  : script (value * value * value * value) :=
  fcopy ← list_copy "fsplit" fsplit;
  tcopy ← list_copy "tsplit" tsplit;
  ftest ← list_pop "fcopy" fcopy index;
  ttest ← list_pop "tcopy" tcopy index;
  arrays ← extern fcopy;
  fcopy ← ext "np.concatenate" [arrays] [("axis", VInt 0)];
  arrays ← extern tcopy;
  tcopy ← ext "np.concatenate" [arrays] [("axis", VInt 0)];
  mret (fcopy, tcopy, ftest, ttest).

(** then the error of the prediction is appended to [y]. *)
Definition fold (fsplit tsplit y index : value) : script unit :=
  '(fcopy, tcopy, ftest, ttest) ← compose_sets fsplit tsplit index;
  data ← gp_predict fcopy tcopy ftest ttest;
  result ← py_getitem data (VStr "result");
  list_append "y" y result.

(** Cross-validation: [x, y = list(range(len(fsplit))), []] and the loop
    over [x]. *)
Definition cell_cv (fsplit tsplit : value) : script (value * value) :=
  n ← py_len fsplit;
  indices ← py_range n;
  y ← New [] (fun r => Ret (VRef r));
  for_ indices (fold fsplit tsplit y);;
  mret (VList indices, y).

(** Prediction analysis: the plot and the averaged error
    [sum(y)/float(len(y))]. *)
Definition cell_analysis (x y : value) : script unit :=
  ext "plt.figure" [VInt 0] [];;
  errors ← extern y;
  ext "plt.plot" [x; errors; VStr "-"] [];;
  ext "plt.xlabel" [VStr "Data Subset"] [];;
  ext "plt.ylabel" [VStr "Average Error"] [];;
  total ← py_sum y;
  n ← py_len y;
  count ← py_float n;
  mean ← py_truediv total count;
  s ← fmt "Averaged error: {}" [mean];
  print s.

Definition cell_cleanup : script unit :=
  ext "os.remove" [VStr "kfoldSave.json"] [];;
  mret tt.

Definition cell_show : script unit :=
  ext "plt.show" [] [];;
  mret tt.

Definition notebook : script unit :=
  cell_imports;;
  '(features, targets) ← cell_data;
  '(fsplit, tsplit) ← cell_split features targets;
  cell_save fsplit tsplit;;
  '(x, y) ← cell_cv fsplit tsplit;
  cell_analysis x y;;
  cell_cleanup;;
  cell_show.

(** The cross-validation cell followed by the analysis cell. *)
Definition cv_report (fsplit tsplit : value) : script unit :=
  '(x, y) ← cell_cv fsplit tsplit;
  cell_analysis x y.

End KFold_tutorial.

(** * Reading a run *)

(** The calls of a trace that [key] selects, in order. *)
Definition obs {X : Type} (key : call -> option X) (tr : list event) : list X :=
  omap (fun ev => key ev.1) tr.

(** What was seen of a run follows the expectation when a finished run shows
    all of it and a run ended by an exception shows an initial part. *)
Definition follows {X A : Type} (seen : list X) (r : exn + A) (expected : list X)
  : Prop :=
  match r with
  | inr _ => seen = expected
  | inl _ => seen `prefix_of` expected
  end.

(** [emits key L p]: whatever the world answers and from whatever state,
    the calls of [p] that [key] selects follow [L]. *)
Definition emits {X A : Type} (key : call -> option X) (L : list X) (p : script A)
  : Prop :=
  forall lib s,
    exists new, trace (run lib p s).1 = trace s ++ new /\
                follows (obs key new) (run lib p s).2 L.

(** [sat P p]: every call that [p] can make satisfies [P], and [p] contains
    no exception handler. *)
Fixpoint sat {A : Type} (P : call -> Prop) (p : script A) : Prop :=
  match p with
  | Ret _ | Throw _ => True
  | Lib c k => P c /\ forall v, sat P (k v)
  | New _ k => forall r, sat P (k r)
  | Get _ k => forall l, sat P (k l)
  | Put _ _ k => sat P k
  | Try _ _ _ => False
  end.

(** [confined W p]: [p] writes only to the list objects in [W] and to those
    it creates itself. *)
Fixpoint confined {A : Type} (W : list loc) (p : script A) : Prop :=
  match p with
  | Ret _ | Throw _ => True
  | Lib _ k => forall v, confined W (k v)
  | New _ k => forall r, confined (r :: W) (k r)
  | Get _ k => forall l, confined W (k l)
  | Put r _ k => r ∈ W /\ confined W k
  | Try _ _ _ => False
  end.

Definition raised (ev : event) : Prop :=
  match ev.2 with
  | inl _ => True
  | inr _ => False
  end.

Definition any_call : call -> Prop := fun _ => True.

(** The calls that the model of the builtins can make on its own. *)
Definition builtins : list string :=
  ["getitem"; "len"; "iter"; "range"; "getattr"; "setattr";
   "add"; "truediv"; "gt"; "float"].

Definition builtin (c : call) : Prop :=
  fn c ∈ builtins /\ recv c = None /\ kwargs c = [].

Definition kw_names (c : call) : list string := map fst (kwargs c).

(** A run in which no exception is caught: a call that raises is the last
    event of the trace and its exception is the result of the run. *)
Definition uncaught {A : Type} (res : state * (exn + A)) : Prop :=
  forall c e, (c, inl e) ∈ trace res.1 ->
    res.2 = inl e /\
    exists old, trace res.1 = old ++ [(c, inl e)] /\
                Forall (fun ev => ~ raised ev) old.

(** * What the specification speaks about *)

(** ** The interface to MLNEB

    The keyword parameters of a construction [MLNEB(...)] and of a call
    [neb_catlearn.run(...)], by name. *)
Inductive interface : Type :=
| Construct (names : list string)
| RunWith (names : list string).

Definition mlneb_interface (c : call) : option interface :=
  if String.eqb (fn c) "MLNEB" then Some (Construct (kw_names c))
  else if String.eqb (fn c) "neb_catlearn.run" then Some (RunWith (kw_names c))
  else None.

(** The parameters as the specification lists them, *)
Definition spec_construct_names : list string :=
  ["start"; "end"; "n_images"; "interpolation"; "restart"].

Definition spec_run_names : list string :=
  ["fmax"; "steps"; "unc_convergence"; "trajectory"].

Definition spec_interface (i : interface) : Prop :=
  match i with
  | Construct names => forall k, k ∈ names <-> k ∈ spec_construct_names
  | RunWith names => forall k, k ∈ names -> k ∈ spec_run_names
  end.

(** and as the notebook passes them: the calculator is a parameter too. *)
Definition construct_names : list string :=
  ["start"; "end"; "ase_calc"; "n_images"; "interpolation"; "restart"].

Definition code_interface (i : interface) : Prop :=
  match i with
  | Construct names => names = construct_names
  | RunWith names => forall k, k ∈ names -> k ∈ spec_run_names
  end.

Definition interface_calls : list interface :=
  [Construct construct_names; RunWith ["fmax"; "trajectory"];
   Construct construct_names; RunWith ["fmax"; "trajectory"; "steps"];
   Construct construct_names; RunWith ["fmax"; "trajectory"];
   Construct construct_names; RunWith ["fmax"; "unc_convergence"; "trajectory"]].

(** ** Restarting *)

Definition restart_flag (c : call) : option (option value) :=
  if String.eqb (fn c) "MLNEB" then Some (assoc "restart" (kwargs c)) else None.

(** A call has to do with restarting when it has a parameter [restart]. *)
Definition about_restart (c : call) : bool :=
  bool_decide ("restart" ∈ kw_names c).

Definition restart_only (c : call) : Prop :=
  about_restart c = true -> fn c = "MLNEB".

(** ** Files

    The parameters of the library calls that name a file: [trajectory],
    [start] and [end] (ASE optimizers, MLNEB, plotneb), [fname] with its
    format [fformat] (write_split and read_split write and read
    fname.fformat), and the argument of DataConnection and of os.remove. *)
Definition strings_of (v : value) : list string :=
  match v with
  | VStr s => [s]
  | _ => []
  end.

Definition kw_string (k : string) (c : call) : list string :=
  match assoc k (kwargs c) with
  | Some (VStr s) => [s]
  | _ => []
  end.

Definition files_of (c : call) : list string :=
  kw_string "trajectory" c ++ kw_string "start" c ++ kw_string "end" c ++
  match assoc "fname" (kwargs c), assoc "fformat" (kwargs c) with
  | Some (VStr f), Some (VStr e) => [(f ++ "." ++ e)%string]
  | _, _ => []
  end ++
  (if String.eqb (fn c) "DataConnection" || String.eqb (fn c) "os.remove"
   then flat_map strings_of (args c) else []).

Definition artifacts (c : call) : option (list string) :=
  match files_of c with
  | [] => None
  | files => Some files
  end.

Definition ends_with (suffix s : string) : bool :=
  let n := String.length s in
  let k := String.length suffix in
  (k <=? n)%nat && String.eqb (String.substring (n - k) k s) suffix.

(** The artifacts of the specification: trajectory files, results_neb.csv,
    evaluated_structures.traj and JSON files. *)
Definition spec_artifact (path : string) : bool :=
  ends_with ".traj" path || String.eqb path "results_neb.csv" ||
  String.eqb path "evaluated_structures.traj" || ends_with ".json" path.

Definition mlneb_files : list (list string) :=
  [["initial.traj"]; ["final.traj"];
   ["initial.traj"; "final.traj"]; ["ML-NEB.traj"]; ["ML-NEB.traj"];
   ["initial.traj"; "final.traj"]; ["ML-NEB.traj"];
   ["initial.traj"; "final.traj"]; ["ML-NEB.traj"];
   ["initial.traj"; "final.traj"]; ["ML-NEB.traj"]; ["ML-NEB.traj"]].

Definition kfold_files : list (list string) :=
  [["../../data/gadb.db"]; ["kfoldSave.json"]; ["kfoldSave.json"];
   ["kfoldSave.json"]].

(** ** The order of the ML-NEB script *)
Inductive milestone : Type :=
| BuildSlab
| Relax (trajectory : option value)
| Optimise (fmax : option value)
| Instantiate
| RunNEB
| Plot.

Definition milestone_of (c : call) : option milestone :=
  if String.eqb (fn c) "fcc100" then Some BuildSlab
  else if String.eqb (fn c) "BFGS" then Some (Relax (assoc "trajectory" (kwargs c)))
  else if String.eqb (fn c) "qn.run" then Some (Optimise (assoc "fmax" (kwargs c)))
  else if String.eqb (fn c) "MLNEB" then Some Instantiate
  else if String.eqb (fn c) "neb_catlearn.run" then Some RunNEB
  else if String.eqb (fn c) "plotneb" then Some Plot
  else None.

Definition endpoints_relaxed : list milestone :=
  [BuildSlab;
   Relax (Some (VStr "initial.traj")); Optimise (Some (VFloat 0.01));
   Relax (Some (VStr "final.traj")); Optimise (Some (VFloat 0.01))].

Definition script_order : list milestone :=
  endpoints_relaxed ++
  [Instantiate; RunNEB; Plot;
   Instantiate; RunNEB; Instantiate; RunNEB; Instantiate; RunNEB; Plot].

(** * Runs of the notebooks *)

Definition mlneb_run (lib : oracle) : state * (exn + unit) :=
  run (world lib) MLNEB_tutorial.notebook init.

Definition kfold_run (lib : oracle) : state * (exn + unit) :=
  run (world lib) KFold_tutorial.notebook init.

(** A world in which no call raises. *)
Definition returns (lib : oracle) : Prop :=
  forall h c, exists v, lib h c = inr v.

(** What the ML-NEB notebook needs of the world to run to its end: no
    call raises, [fcc100] returns an object, and iterating over an object
    yields a list of items. *)
Definition mlneb_world (lib : oracle) : Prop :=
  returns lib /\
  (forall h c, fn c = "fcc100" -> exists id, lib h c = inr (VObj id)) /\
  (forall h c, fn c = "iter" -> exists items, lib h c = inr (VList items)).

(** ** The calls of a straight piece of script

    A plan lists the calls of a script in order, each as a function of the
    values that the calls before it have returned.  A trace plays a plan
    when it consists of the calls of the plan, in order and on those
    values, up to the first call that raises and, when none raises, to the
    end of the plan. *)
Definition plan : Type := list (list value -> call).

Fixpoint plays (p : plan) (made : list value) (new : list event)
    (stop : option exn) : Prop :=
  match p, new with
  | [], [] => stop = None
  | next :: p', (c, inr v) :: new' =>
      c = next made /\ plays p' (made ++ [v]) new' stop
  | next :: _, [(c, inl e)] => c = next made /\ stop = Some e
  | _, _ => False
  end.

Definition raised_in {A : Type} (r : exn + A) : option exn :=
  match r with
  | inl e => Some e
  | inr _ => None
  end.

(** [only_calls lib p s P]: the run of [p] from [s] leaves the store as it
    is and adds to the trace exactly the calls of the plan [P]. *)
Definition only_calls {A : Type} (lib : oracle) (p : script A) (s : state) (P : plan)
  : Prop :=
  exists new,
    (run lib p s).1 = State (store s) (trace s ++ new) /\
    plays P [] new (raised_in (run lib p s).2).

(** The callees of the notebooks, as the cells write them, and the
    builtins.  The methods of [fsplit], [tsplit] and their copies are
    callees when [k_fold] returns something else than lists. *)
Definition mlneb_callees : list string :=
  ["import"; "EMT"; "fcc100"; "add_adsorbate"; "slab.center"; "FixAtoms";
   "slab.set_constraint"; "slab.set_calculator"; "BFGS"; "qn.run";
   "slab.get_cell"; "MLNEB"; "neb_catlearn.run"; "plotneb"] ++ builtins.

Definition kfold_callees : list string :=
  ["%matplotlib"; "import"; "DataConnection"; "gadb.get_all_relaxed_candidates";
   "str.format"; "print"; "FeatureGenerator"; "fgen.return_vec"; "np.shape";
   "k_fold"; "write_split"; "read_split";
   "fsplit.copy"; "tsplit.copy"; "fcopy.pop"; "tcopy.pop"; "np.concatenate";
   "GaussianProcess"; "gp.predict"; "get_error";
   "plt.figure"; "plt.plot"; "plt.xlabel"; "plt.ylabel"; "os.remove"; "plt.show"]
  ++ builtins.

Definition calls_of (names : list string) (c : call) : Prop := fn c ∈ names.

(** A world in which nothing raises: [k_fold] splits into the subsets
    [F] and [T], every fold has the error [err], and every other call
    returns a new object. *)
Definition demo (F T : list (list value)) (err : float) : oracle :=
  fun h c =>
    if String.eqb (fn c) "iter" then inr (VList [VObj 1; VObj 2])
    else if String.eqb (fn c) "k_fold" then
      inr (VTuple [VList (map VArr F); VList (map VArr T)])
    else if String.eqb (fn c) "gp.predict" then
      inr (VDict [("prediction", VArr [])])
    else if String.eqb (fn c) "get_error" then
      inr (VDict [("rmse_average", VFloat err)])
    else inr (VObj (length h)).

Definition three_features : list (list value) :=
  [[VInt 1; VInt 2]; [VInt 3]; [VInt 4; VInt 5]].

Definition three_targets : list (list value) :=
  [[VFloat 0.1; VFloat 0.2]; [VFloat 0.3]; [VFloat 0.4; VFloat 0.5]].

Definition three_folds : oracle := demo three_features three_targets 0.5.

(** A script that catches what its call raises, and a world in which every
    call raises: the notebooks contain nothing of this kind. *)
Definition guarded : script value :=
  Try (ext "MLNEB" [] []) (fun _ => Ret VNone) Ret.

Definition failing : oracle := fun _ _ => inl (LibError "failed").

(** * The cross-validation loop *)

(** ** The sets of a fold

    What a fold hands to the regression: the training sets to
    [GaussianProcess], the test features to [gp.predict], the test targets
    to [get_error]. *)
Inductive fold_input : Type :=
| Train (features targets : option value)
| TestFeatures (features : option value)
| TestTargets (targets : option value).

Definition fold_inputs (c : call) : option fold_input :=
  if String.eqb (fn c) "GaussianProcess" then
    Some (Train (assoc "train_fp" (kwargs c)) (assoc "train_target" (kwargs c)))
  else if String.eqb (fn c) "gp.predict" then
    Some (TestFeatures (assoc "test_fp" (kwargs c)))
  else if String.eqb (fn c) "get_error" then
    Some (TestTargets (args c !! 1%nat))
  else None.

(** For the subsets [F] of features and [T] of targets, fold [i] tests on
    subset [i] and trains on the concatenation of the others. *)
Definition expected_fold (F T : list (list value)) (i : nat) : list fold_input :=
  [Train (Some (VArr (concat (delete i F)))) (Some (VArr (concat (delete i T))));
   TestFeatures (VArr <$> F !! i);
   TestTargets (VArr <$> T !! i)].

Definition test_features_of (x : fold_input) : option value :=
  match x with
  | TestFeatures v => v
  | _ => None
  end.

Definition test_targets_of (x : fold_input) : option value :=
  match x with
  | TestTargets v => v
  | _ => None
  end.

Definition train_features_of (x : fold_input) : option value :=
  match x with
  | Train v _ => v
  | _ => None
  end.

Definition train_targets_of (x : fold_input) : option value :=
  match x with
  | Train _ v => v
  | _ => None
  end.

(** The number of points of a set: its length along the first axis. *)
Definition points (v : value) : nat :=
  match v with
  | VArr rows => length rows
  | _ => 0
  end.

Definition indices (n : nat) : list value :=
  map (fun i => VInt (Z.of_nat i)) (seq 0 n).

(** ** What is concatenated *)

Definition concatenated (c : call) : option (list value) :=
  if String.eqb (fn c) "np.concatenate" then Some (args c) else None.

Definition expected_concatenations (fs ts : list value) (i : nat)
  : list (list value) :=
  [[VList (delete i fs)]; [VList (delete i ts)]].

(** The lists that the calls of a trace have returned, as such or in a
    tuple. *)
Definition lists_in (v : value) : list (list value) :=
  match v with
  | VList l => [l]
  | VTuple vs => flat_map (fun v => match v with VList l => [l] | _ => [] end) vs
  | _ => []
  end.

Definition returned_lists (tr : list event) : list (list value) :=
  flat_map (fun ev => match ev.2 with inr v => lists_in v | inl _ => [] end) tr.

(** "No composition of training and test sets is authored in the
    notebooks": what is concatenated is a list that a library returned. *)
Definition passed_on (tr : list event) : Prop :=
  forall before c o after l,
    tr = before ++ (c, o) :: after ->
    fn c = "np.concatenate" -> args c = [VList l] ->
    l ∈ returned_lists before.

(** ** The averaged error *)

(** The errors that [get_error] has returned, in order. *)
Definition errors_of (tr : list event) : list value :=
  omap (fun ev =>
          if String.eqb (fn ev.1) "get_error" then
            match ev.2 with
            | inr (VDict kvs) => assoc "rmse_average" kvs
            | _ => None
            end
          else None) tr.

(** What is formatted into "Averaged error: {}". *)
Definition averaged_error (c : call) : option (list value) :=
  if String.eqb (fn c) "str.format" then
    match recv c with
    | Some (VStr "Averaged error: {}") => Some (args c)
    | _ => None
    end
  else None.

(** [sum(y)/float(len(y))] on floats. *)
Definition mean_error (errs : list float) : float :=
  PrimFloat.div (fold_left PrimFloat.add errs (float_of_Z 0))
                (float_of_Z (Z.of_nat (length errs))).

(** What the loop needs of the libraries: no call raises, [gp.predict]
    returns a dict with a prediction, and [get_error] one with the average
    error, a float. *)
Definition regression_ok (lib : oracle) : Prop :=
  (forall h c, exists v, lib h c = inr v) /\
  (forall h c, fn c = "gp.predict" ->
     exists kvs p, lib h c = inr (VDict kvs) /\ assoc "prediction" kvs = Some p) /\
  (forall h c, fn c = "get_error" ->
     exists kvs x, lib h c = inr (VDict kvs) /\
                   assoc "rmse_average" kvs = Some (VFloat x)).

(** States in which [fsplit] is the list object 0 and [tsplit] the list
    object 1. *)
Definition split_state (F T : list (list value)) : state :=
  State [map VArr F; map VArr T] [].

Definition one_feature : list (list value) := [[VInt 1; VInt 2]].
Definition one_target : list (list value) := [[VFloat 0.1; VFloat 0.2]].

(** ** States of a fold *)

Definition concat_call (R : list (list value)) : call :=
  Call "np.concatenate" None [VList (map VArr R)] [("axis", VInt 0)].

(** The state after the copies of the split have been made, and after the
    subset [i] has been popped from both. *)
Definition copied (F T : list (list value)) (s : state) : state :=
  alloc (map VArr T) (alloc (map VArr F) s).

Definition popped (F T : list (list value)) (i : nat) (s : state) : state :=
  write (S (length (store s))) (map VArr (delete i T))
    (write (length (store s)) (map VArr (delete i F)) (copied F T s)).


(** * Further observations of the cells *)

(** [shows lib key L p s]: in the world [lib] and from the state [s], the
    calls of [p] that [key] selects follow [L]. *)
Definition shows {X A : Type} (lib : oracle) (key : call -> option X)
    (L : list X) (p : script A) (s : state) : Prop :=
  exists new, trace (run lib p s).1 = trace s ++ new /\
              follows (obs key new) (run lib p s).2 L.

(** The values that the calls of [f] have returned, in order. *)
Definition results_of (f : string) (tr : list event) : list value :=
  omap (fun ev : event => if String.eqb (fn ev.1) f then
                    match ev.2 with
                    | inr v => Some v
                    | inl _ => None
                    end
                  else None) tr.

(** ** The slab of the ML-NEB tutorial *)

(** The mask that [FixAtoms] gets. *)
Definition fixed_mask (c : call) : option (option value) :=
  if String.eqb (fn c) "FixAtoms" then Some (assoc "mask" (kwargs c)) else None.

(** The relaxations and, between them, the assignment to an attribute of
    an atom. *)
Inductive endpoint_step : Type :=
| Relaxation (trajectory : option value)
| Assign (object : option value) (attribute : option value) (x : option value).

Definition endpoint_steps (c : call) : option endpoint_step :=
  if String.eqb (fn c) "BFGS" then Some (Relaxation (assoc "trajectory" (kwargs c)))
  else if String.eqb (fn c) "setattr" then
    Some (Assign (args c !! 0%nat) (args c !! 1%nat) (args c !! 2%nat))
  else None.

(** Where a call of the ML-NEB notebook uses the calculator: the argument
    of [slab.set_calculator] and the parameter [ase_calc] of [MLNEB]. *)
Definition calculator_used (c : call) : option (option value) :=
  if String.eqb (fn c) "slab.set_calculator" then Some (args c !! 0%nat)
  else if String.eqb (fn c) "MLNEB" then Some (assoc "ase_calc" (kwargs c))
  else None.

(** Where a call uses the slab: as the receiver of its methods and as the
    first argument of [add_adsorbate] and of [BFGS]. *)
Definition slab_used (c : call) : option (option value) :=
  if String.eqb (fn c) "slab.center" || String.eqb (fn c) "slab.set_constraint"
     || String.eqb (fn c) "slab.set_calculator" || String.eqb (fn c) "slab.get_cell"
  then Some (recv c)
  else if String.eqb (fn c) "add_adsorbate" || String.eqb (fn c) "BFGS"
  then Some (args c !! 0%nat)
  else None.

(** A call other than [f] that, where [key] selects it, uses [v]. *)
Definition uses (f : string) (key : call -> option (option value)) (v : value)
    (c : call) : Prop :=
  fn c <> f /\ (key c = None \/ key c = Some (Some v)).

(** An object is made once and used as made: every use that [key]
    selects in the trace of a run is of the one value that the calls of [f]
    have returned.  Before that, nothing is made or used. *)
Definition made_once {A : Type} (f : string) (key : call -> option (option value))
    (res : state * (exn + A)) : Prop :=
  forall u, u ∈ obs key (trace res.1) ->
    exists v, results_of f (trace res.1) = [v] /\ u = Some v.

Definition unmade (f : string) (key : call -> option (option value)) (s : state)
  : Prop :=
  results_of f (trace s) = [] /\ obs key (trace s) = [].

(** The object that a call [neb_catlearn.run] runs. *)
Definition neb_run (c : call) : option (option value) :=
  if String.eqb (fn c) "neb_catlearn.run" then Some (recv c) else None.

(** The runs of a trace are in step with its constructions: each run is on
    the object constructed last, and a finished script has run every
    object it constructed. *)
Definition in_step {A : Type} (res : exn + A) (new : list event) : Prop :=
  match res with
  | inr _ => obs neb_run new = map Some (results_of "MLNEB" new)
  | inl _ =>
      obs neb_run new `prefix_of` map Some (results_of "MLNEB" new) /\
      (length (results_of "MLNEB" new) <= S (length (obs neb_run new)))%nat
  end.

Definition keeps_step {A : Type} (p : script A) : Prop :=
  forall lib s, exists new,
    trace (run lib p s).1 = trace s ++ new /\ in_step (run lib p s).2 new.

(** A world for the slab: iterating over it yields three atoms, the tag of
    an atom is its number, positions and cell entries are floats. *)
Definition layer (a : value) : Z :=
  match a with
  | VObj i => Z.of_nat i
  | _ => 0
  end.

Definition layered : oracle :=
  fun h c =>
    if String.eqb (fn c) "fcc100" then inr (VObj 0)
    else if String.eqb (fn c) "iter" then inr (VList [VObj 1; VObj 2; VObj 3])
    else if String.eqb (fn c) "getattr" then
      match args c with
      | [VObj i; VStr "tag"] => inr (VInt (Z.of_nat i))
      | _ => inr (VFloat 0.5)
      end
    else if String.eqb (fn c) "getitem" then
      match args c with
      | [_; VInt _] => inr (VObj 9)
      | _ => inr (VFloat 3.0)
      end
    else inr (VObj (length h)).

(** ** The prediction function *)

(** The calls of [gp_predict] on the training sets [a] and [b] and the test
    sets [c] and [d], when [GaussianProcess] returns [gp] and [gp.predict]
    a dict with the prediction [p]. *)
Definition gp_calls (a b c d gp p : value) : list call :=
  [Call "GaussianProcess" None []
     [("train_fp", a); ("train_target", b);
      ("kernel_list",
       VList [VDict [("type", VStr "gaussian"); ("width", VFloat 1.0);
                     ("scaling", VFloat 1.0); ("dimension", VStr "single")]]);
      ("regularization", VFloat 1e-2);
      ("optimize_hyperparameters", VBool true); ("scale_data", VBool true)];
   Call "gp.predict" (Some gp) [] [("test_fp", c)];
   Call "get_error" None [p; d] []].

(** A world whose predictions lack the key [prediction]. *)
Definition no_prediction : oracle :=
  fun h c =>
    if String.eqb (fn c) "gp.predict" then inr (VDict [("uncertainty", VArr [])])
    else inr (VObj (length h)).

(** ** The data of the cross-validation tutorial *)

(** A database with the candidates [cands]; [score] gives the raw score of
    a candidate, if it has one, and the feature matrix is the object 0. *)
Definition database (cands : list value) (score : value -> option value) : oracle :=
  fun h c =>
    if String.eqb (fn c) "gadb.get_all_relaxed_candidates" then inr (VList cands)
    else if String.eqb (fn c) "fgen.return_vec" then inr (VObj 0)
    else if String.eqb (fn c) "getattr" then
      match args c with
      | [a; VStr "info"] =>
          inr (VDict [("key_value_pairs",
                       VDict match score a with
                             | Some x => [("raw_score", x)]
                             | None => []
                             end)])
      | _ => inr (VObj (length h))
      end
    else inr (VObj (length h)).

Definition two_scores (a : value) : option value :=
  match a with
  | VObj 1 => Some (VFloat 0.25)
  | VObj 2 => Some (VFloat 0.75)
  | _ => None
  end.

Definition score_or_none (score : value -> option value) (a : value) : value :=
  default VNone (score a).

(** What the info of a candidate has to be for the loop over the
    candidates: a dict whose entry [key_value_pairs] is a dict. *)
Definition info_of (lib : oracle) (a : value) (score : option value) : Prop :=
  forall h, exists kvs kvs',
    lib h (Call "getattr" None [a; VStr "info"] []) = inr (VDict kvs) /\
    assoc "key_value_pairs" kvs = Some (VDict kvs') /\
    assoc "raw_score" kvs' = score.

(** ** The order of the cross-validation script *)
Inductive kfold_step : Type :=
| Load
| Split
| Save
| Restore
| PlotErrors
| Report
| Clean
| ShowPlot.

Definition kfold_step_of (c : call) : option kfold_step :=
  if String.eqb (fn c) "DataConnection" then Some Load
  else if String.eqb (fn c) "k_fold" then Some Split
  else if String.eqb (fn c) "write_split" then Some Save
  else if String.eqb (fn c) "read_split" then Some Restore
  else if String.eqb (fn c) "plt.plot" then Some PlotErrors
  else if String.eqb (fn c) "os.remove" then Some Clean
  else if String.eqb (fn c) "plt.show" then Some ShowPlot
  else match averaged_error c with
       | Some _ => Some Report
       | None => None
       end.

Definition reported : list kfold_step :=
  [Load; Split; Save; Restore; PlotErrors; Report].

Definition kfold_order : list kfold_step := reported ++ [Clean; ShowPlot].

(** ** What is plotted *)
Definition plotted (c : call) : option (list value) :=
  if String.eqb (fn c) "plt.plot" then Some (args c) else None.

(** ** The split *)

(** What [k_fold] is asked, and what [write_split] is given. *)
Definition split_request (c : call) : option (list (string * value)) :=
  if String.eqb (fn c) "k_fold" then Some (kwargs c) else None.

Definition saved (c : call) : option (list (string * value)) :=
  if String.eqb (fn c) "write_split" then Some (kwargs c) else None.

(** A world whose [k_fold] returns the subsets [F] and [T]. *)
Definition splits_into (lib : oracle) (F T : list (list value)) : Prop :=
  forall h c, fn c = "k_fold" ->
    lib h c = inr (VTuple [VList (map VArr F); VList (map VArr T)]).

(** ** The report of the subsets *)

(** A subset whose shape is asked of [np.shape], and the index that is
    formatted into the line "subset {0} has shape {1}". *)
Inductive report_step : Type :=
| Measured (subset : list value)
| Line (index : option value).

Definition report_steps (c : call) : option report_step :=
  if String.eqb (fn c) "np.shape" then Some (Measured (args c))
  else if String.eqb (fn c) "str.format" then
    match recv c with
    | Some (VStr "    subset {0} has shape {1}") => Some (Line (args c !! 0%nat))
    | _ => None
    end
  else None.

(** The report of the subsets [l], numbered from [i]. *)
Fixpoint report_from (i : nat) (l : list value) : list report_step :=
  match l with
  | [] => []
  | x :: l' => Measured [x] :: Line (Some (VInt (Z.of_nat i))) :: report_from (S i) l'
  end.

(** ** A world that behaves

    The database has the candidates [cands] with their scores, [k_fold]
    splits into [F] and [T], what [read_split] reads is what was written,
    and every fold has the error [err]. *)
Definition tidy (cands : list value) (score : value -> option value)
    (F T : list (list value)) (err : float) : oracle :=
  fun h c =>
    if String.eqb (fn c) "k_fold" || String.eqb (fn c) "read_split" then
      inr (VTuple [VList (map VArr F); VList (map VArr T)])
    else if String.eqb (fn c) "gp.predict" then
      inr (VDict [("prediction", VArr [])])
    else if String.eqb (fn c) "get_error" then
      inr (VDict [("rmse_average", VFloat err)])
    else database cands score h c.


(** * The notebooks as a whole *)

(** What the cross-validation notebook needs of the world to run to its
    end: the regression behaves, the database has the candidates [cands],
    each with the raw score [score], [k_fold] splits into the subsets [F]
    and [T], at least two and at most 2^53, as many of targets as of
    features, arrays that are alike, and [read_split] returns a pair. *)
Definition kfold_world (lib : oracle) (cands : list value) (score : value -> value)
    (F T : list (list value)) : Prop :=
  regression_ok lib /\
  (forall h c, fn c = "gadb.get_all_relaxed_candidates" -> lib h c = inr (VList cands)) /\
  (forall a, a ∈ cands -> info_of lib a (Some (score a))) /\
  splits_into lib F T /\
  (forall h c, fn c = "read_split" -> exists a b, lib h c = inr (VTuple [a; b])) /\
  length T = length F /\ (2 <= length F)%nat /\ Z.of_nat (length F) <= 2 ^ 53 /\
  alike F /\ alike T.

(** The files that the calls of the notebooks name. *)
Definition named_files : list string :=
  ["initial.traj"; "final.traj"; "ML-NEB.traj"; "../../data/gadb.db"; "kfoldSave.json"].

(** * Properties of runs *)

Lemma run_bind {A B} lib (p : script A) (f : A -> script B) s :
  run lib (bind p f) s =
  match run lib p s with
  | (s', inr a) => run lib (f a) s'
  | (s', inl e) => (s', inl e)
  end.
Proof.
  revert B f s. induction p; intros B f s; simpl; try done.
  - destruct (lib (trace s) c); auto.
  - destruct (store s !! r); auto.
  - destruct (run lib p s) as [s1 [e|v]]; [|auto].
    destruct (run lib (handler e) s1) as [s2 [e'|v]]; auto.
Qed.

Lemma obs_app {X} (key : call -> option X) tr1 tr2 :
  obs key (tr1 ++ tr2) = obs key tr1 ++ obs key tr2.
Proof. apply omap_app. Qed.

Lemma obs_cons {X} (key : call -> option X) ev tr :
  obs key (ev :: tr) = option_list (key ev.1) ++ obs key tr.
Proof. unfold obs. simpl. by destruct (key ev.1). Qed.

Lemma follows_prefix {X A} (seen : list X) (r : exn + A) L :
  follows seen r L -> seen `prefix_of` L.
Proof. destruct r; simpl; [done | by intros ->]. Qed.

(** ** Calls that satisfy a predicate *)

Lemma sat_impl {A} (P Q : call -> Prop) (p : script A) :
  (forall c, P c -> Q c) -> sat P p -> sat Q p.
Proof.
  intros HPQ.
  induction p as [A a|A e|A c k IH|A l k IH|A r k IH|A r l k IH|A b IHb h IHh k IHk];
    simpl; try done.
  - intros [Hc Hk]. split; [by apply HPQ|]. intros v. by apply IH.
  - intros Hk r. by apply IH.
  - intros Hk l. by apply IH.
Qed.

Lemma sat_bind {A B} P (p : script A) (f : A -> script B) :
  sat P p -> (forall a, sat P (f a)) -> sat P (bind p f).
Proof.
  intros Hp Hf.
  induction p as [A a|A e|A c k IH|A l k IH|A r k IH|A r l k IH|A b IHb h IHh k IHk];
    simpl in *; try done.
  - destruct Hp as [Hc Hk]. split; [done|]. intros v. by apply IH.
  - intros r. by apply IH.
  - intros l. by apply IH.
  - by apply IH.
Qed.

Lemma sat_for {A} P (l : list A) body :
  (forall a, sat P (body a)) -> sat P (for_ l body).
Proof. intros Hb. induction l; simpl; [done|]. apply sat_bind; auto. Qed.

Lemma sat_map {A B} P (f : A -> script B) l :
  (forall a, sat P (f a)) -> sat P (map_ f l).
Proof.
  intros Hf. induction l; simpl; [done|].
  apply sat_bind; [done|]. intros b. by apply sat_bind.
Qed.

(** Every event that a handler-free script adds to the trace is a call it
    makes, and a call that raises is the last one: the exception is the
    result of the run. *)
Lemma sat_run {A} P lib (p : script A) s :
  sat P p ->
  exists new, trace (run lib p s).1 = trace s ++ new /\
    Forall (fun ev => P ev.1) new /\
    match (run lib p s).2 with
    | inr _ => Forall (fun ev => ~ raised ev) new
    | inl e => forall c e', (c, inl e') ∈ new ->
                 e' = e /\ exists old, new = old ++ [(c, inl e')] /\
                                        Forall (fun ev => ~ raised ev) old
    end.
Proof.
  revert s. induction p as [A a|A e|A c k IH|A l k IH|A r k IH|A r l k IH|A b IHb h IHh k IHk];
    intros s Hs; simpl in *.
  - exists []. rewrite app_nil_r. by repeat split.
  - exists []. rewrite app_nil_r. split; [done|]. split; [constructor|].
    intros c e' Hin. by apply elem_of_nil in Hin.
  - destruct Hs as [Hc Hk]. destruct (lib (trace s) c) as [e|v] eqn:E; simpl.
    + exists [(c, inl e)]. split; [done|]. split; [by repeat constructor|].
      intros c' e' Hin. apply list_elem_of_singleton in Hin. injection Hin as -> ->.
      split; [done|]. by exists [].
    + destruct (IH v (log c (inr v) s) (Hk v)) as (new & Ht & HP & Hr).
      exists ((c, inr v) :: new). rewrite Ht. simpl. rewrite <- app_assoc.
      split; [done|]. split; [by constructor|].
      destruct (run lib (k v) (log c (inr v) s)).2 as [e|a].
      * intros c' e' Hin. apply elem_of_cons in Hin as [Hin|Hin]; [done|].
        destruct (Hr c' e' Hin) as (-> & old & -> & Hold).
        split; [done|]. exists ((c, inr v) :: old). split; [done|].
        constructor; [|done]. unfold raised. simpl. tauto.
      * constructor; [|done]. unfold raised. simpl. tauto.
  - apply (IH (length (store s)) (alloc l s) (Hs _)).
  - destruct (store s !! r) as [l|].
    + apply (IH l s (Hs _)).
    + exists []. rewrite app_nil_r. split; [done|]. split; [constructor|].
      intros c e' Hin. by apply elem_of_nil in Hin.
  - apply (IH (write r l s) Hs).
  - done.
Qed.

(** ** Calls selected by a key *)

Lemma emits_ret {X A} (key : call -> option X) (a : A) : emits key [] (Ret a).
Proof. intros lib s. exists []. simpl. by rewrite app_nil_r. Qed.

Lemma emits_throw {X A} (key : call -> option X) L e : emits key L (Throw e : script A).
Proof. intros lib s. exists []. simpl. rewrite app_nil_r. split; [done|]. apply prefix_nil. Qed.

Lemma emits_lib {X A} (key : call -> option X) L c (k : value -> script A) :
  (forall v, emits key L (k v)) ->
  emits key (option_list (key c) ++ L) (Lib c k).
Proof.
  intros Hk lib s. simpl. destruct (lib (trace s) c) as [e|v]; simpl.
  - exists [(c, inl e)]. split; [done|]. unfold obs. simpl.
    destruct (key c); simpl; [|apply prefix_nil].
    apply prefix_cons, prefix_nil.
  - destruct (Hk v lib (log c (inr v) s)) as (new & Ht & Hf).
    exists ((c, inr v) :: new). rewrite Ht. simpl. rewrite <- app_assoc.
    split; [done|]. unfold obs in *. simpl.
    destruct (run lib (k v) (log c (inr v) s)).2; simpl in *;
      destruct (key c); simpl; try done.
    + by apply prefix_cons.
    + by rewrite Hf.
Qed.

Lemma emits_bind {X A B} (key : call -> option X) L1 L2 L
    (p : script A) (f : A -> script B) :
  L = L1 ++ L2 ->
  emits key L1 p -> (forall a, emits key L2 (f a)) -> emits key L (bind p f).
Proof.
  intros -> Hp Hf lib s. rewrite run_bind.
  destruct (Hp lib s) as (new1 & Ht1 & Hf1).
  destruct (run lib p s) as [s1 [e|a]]; simpl in *.
  - exists new1. split; [done|]. by apply prefix_app_r.
  - destruct (Hf a lib s1) as (new2 & Ht2 & Hf2).
    exists (new1 ++ new2). rewrite Ht2, Ht1, <- app_assoc. split; [done|].
    rewrite obs_app, Hf1.
    destruct (run lib (f a) s1).2; simpl in *.
    + by apply prefix_app.
    + by rewrite Hf2.
Qed.

Lemma obs_silent {X} (key : call -> option X) new :
  Forall (fun ev => key ev.1 = None) new -> obs key new = [].
Proof.
  induction 1 as [|ev new Hev _ IH]; [done|].
  unfold obs in *. simpl. by rewrite Hev.
Qed.

Lemma emits_silent {X A} (key : call -> option X) (p : script A) :
  sat (fun c => key c = None) p -> emits key [] p.
Proof.
  intros Hs lib s. destruct (sat_run _ lib p s Hs) as (new & Ht & HP & _).
  exists new. split; [done|]. rewrite (obs_silent _ _ HP).
  destruct (run lib p s).2; simpl; [apply prefix_nil | done].
Qed.

Lemma emits_for {X A} (key : call -> option X) (l : list A) body :
  (forall a, emits key [] (body a)) -> emits key [] (for_ l body).
Proof.
  intros Hb. induction l; simpl; [apply emits_ret|].
  by apply (emits_bind key [] [] []).
Qed.

Lemma emits_new {X A} (key : call -> option X) L l (k : loc -> script A) :
  (forall r, emits key L (k r)) -> emits key L (New l k).
Proof. intros Hk lib s. apply (Hk (length (store s)) lib (alloc l s)). Qed.

Lemma emits_get {X A} (key : call -> option X) L r (k : list value -> script A) :
  (forall l, emits key L (k l)) -> emits key L (Get r k).
Proof.
  intros Hk lib s. simpl. destruct (store s !! r) as [l|]; [apply (Hk l lib s)|].
  exists []. simpl. rewrite app_nil_r. split; [done | apply prefix_nil].
Qed.

Lemma emits_put {X A} (key : call -> option X) L r l (k : script A) :
  emits key L k -> emits key L (Put r l k).
Proof. intros Hk lib s. apply (Hk lib (write r l s)). Qed.

Lemma emits_lib' {X A} (key : call -> option X) L L' c (k : value -> script A) :
  L = option_list (key c) ++ L' ->
  (forall v, emits key L' (k v)) -> emits key L (Lib c k).
Proof. intros ->. apply emits_lib. Qed.

Lemma emits_bind_silent {X A B} (key : call -> option X) L
    (p : script A) (f : A -> script B) :
  sat (fun c => key c = None) p ->
  (forall a, emits key L (f a)) -> emits key L (bind p f).
Proof. intros Hp Hf. apply (emits_bind key [] L L); [done | by apply emits_silent | done]. Qed.

Lemma run_bind_assoc {A B C} lib (p : script A) (g : A -> script B)
    (f : B -> script C) s :
  run lib (bind (bind p g) f) s = run lib (bind p (fun a => bind (g a) f)) s.
Proof.
  rewrite !run_bind. destruct (run lib p s) as [s1 [e|a]]; [done|].
  by rewrite run_bind.
Qed.

Lemma emits_assoc {X A B C} (key : call -> option X) L (p : script A)
    (g : A -> script B) (f : B -> script C) :
  emits key L (bind p (fun a => bind (g a) f)) -> emits key L (bind (bind p g) f).
Proof. intros H lib s. rewrite run_bind_assoc. apply H. Qed.

(** ** Writes *)

Lemma confined_mono {A} W W' (p : script A) :
  W ⊆ W' -> confined W p -> confined W' p.
Proof.
  revert W W'.
  induction p as [A a|A e|A c k IH|A l k IH|A r k IH|A r l k IH|A b IHb h IHh k IHk];
    simpl; intros W W' HW Hp; try done.
  - intros v. by apply (IH v W).
  - intros r. apply (IH r (r :: W)); [|done].
    intros x Hx. apply elem_of_cons in Hx as [->|Hx]; [left | right; by apply HW].
  - intros l. by apply (IH l W).
  - destruct Hp as [Hr Hk]. split; [by apply HW | by apply (IH W)].
Qed.

Lemma confined_bind {A B} W (p : script A) (f : A -> script B) :
  confined W p -> (forall W' a, W ⊆ W' -> confined W' (f a)) -> confined W (bind p f).
Proof.
  revert W.
  induction p as [A a|A e|A c k IH|A l k IH|A r k IH|A r l k IH|A b IHb h IHh k IHk];
    simpl; intros W Hp Hf; try done.
  - by apply Hf.
  - intros v. by apply IH.
  - intros r. apply IH; [done|]. intros W' a HW. apply Hf.
    intros x Hx. apply HW. by right.
  - intros l. by apply IH.
  - destruct Hp as [Hr Hk]. split; [done | by apply IH].
Qed.

(** A script leaves alone every list object that existed before the run
    and is not among those it may write to. *)
Lemma confined_run {A} lib W (p : script A) s r :
  confined W p -> (r < length (store s))%nat -> r ∉ W ->
  store (run lib p s).1 !! r = store s !! r.
Proof.
  revert W s. induction p as [A a|A e|A c k IH|A l k IH|A r' k IH|A r' l k IH|A b IHb h IHh k IHk];
    intros W s Hp Hr HW; simpl in *; try done.
  - destruct (lib (trace s) c) as [e|v]; [done|].
    by apply (IH v W (log c (inr v) s)).
  - rewrite (IH _ (length (store s) :: W)); simpl.
    + by apply lookup_app_l.
    + done.
    + rewrite length_app. simpl. lia.
    + apply not_elem_of_cons. split; [lia|done].
  - destruct (store s !! r'); [|done]. by apply (IH l W).
  - destruct Hp as [Hin Hk]. rewrite (IH W); simpl; try done.
    + apply list_lookup_insert_ne. intros ->. done.
    + by rewrite length_insert.
Qed.

(** ** The builtins make builtin calls only *)

Section Builtins.
Variable P : call -> Prop.
Hypothesis HP : forall c, builtin c -> P c.

Lemma builtin_call f a : f ∈ builtins -> P (Call f None a []).
Proof. intros Hf. by apply HP. Qed.

Ltac known :=
  simpl; try done;
  try (split; [apply builtin_call; unfold builtins; repeat constructor | try done]).

Lemma sat_seq_item l i : sat P (seq_item l i).
Proof. unfold seq_item. by repeat case_match. Qed.

Lemma sat_intern v : sat P (intern v).
Proof. by destruct v. Qed.

Lemma sat_extern v : sat P (extern v).
Proof. by destruct v. Qed.

Lemma sat_py_getitem v i : sat P (py_getitem v i).
Proof.
  unfold py_getitem.
  repeat case_match; known; intros; apply sat_seq_item.
Qed.

Lemma sat_py_len v : sat P (py_len v).
Proof. destruct v; known. Qed.

Lemma sat_py_iter v : sat P (py_iter v).
Proof. destruct v; known; intros w; by destruct w. Qed.

Lemma sat_py_unpack2 v : sat P (py_unpack2 v).
Proof.
  apply sat_bind; [apply sat_py_iter|].
  intros items. by repeat case_match.
Qed.

Lemma sat_py_range n : sat P (py_range n).
Proof.
  destruct n; simpl; try done;
    (split; [apply builtin_call; unfold builtins; repeat constructor|]);
    intros v; apply (sat_bind P (Ret v) py_iter); try done;
    intros; apply sat_py_iter.
Qed.

Lemma sat_py_getattr v name : sat P (py_getattr v name).
Proof. known. Qed.

Lemma sat_py_setattr v name x : sat P (py_setattr v name x).
Proof. known. Qed.

Lemma sat_py_add a b : sat P (py_add a b).
Proof. unfold py_add. repeat case_match; known. Qed.

Lemma sat_py_truediv a b : sat P (py_truediv a b).
Proof. unfold py_truediv. repeat case_match; known. Qed.

Lemma sat_py_gt a b : sat P (py_gt a b).
Proof. unfold py_gt. repeat case_match; known. Qed.

Lemma sat_py_float v : sat P (py_float v).
Proof. unfold py_float. repeat case_match; known. Qed.

Lemma sat_sum_from items : forall acc, sat P (sum_from acc items).
Proof.
  induction items as [|x items IH]; intros acc; simpl; [done|].
  apply sat_bind; [apply sat_py_add | done].
Qed.

Lemma sat_py_sum v : sat P (py_sum v).
Proof. apply sat_bind; [apply sat_py_iter | intros; apply sat_sum_from]. Qed.

Lemma sat_list_copy name v :
  (forall o, P (Call (name ++ ".copy") o [] [])) -> sat P (list_copy name v).
Proof. intros Hm. destruct v; simpl; done. Qed.

Lemma sat_list_pop name v i :
  (forall o a, P (Call (name ++ ".pop") o a [])) -> sat P (list_pop name v i).
Proof.
  intros Hm. unfold list_pop. repeat case_match; simpl; try done.
  all: intros l; by repeat case_match.
Qed.

Lemma sat_list_append name v x :
  (forall o a, P (Call (name ++ ".append") o a [])) -> sat P (list_append name v x).
Proof. intros Hm. destruct v; simpl; done. Qed.
End Builtins.

(** ** Tactics for the notebooks *)

Ltac head_of t :=
  lazymatch t with
  | ?f _ => head_of f
  | _ => t
  end.

Ltac unfold_script p :=
  let h := head_of p in
  first [ progress unfold mbind, script_bind, mret, script_ret
        | progress unfold h ].

(** [sat_with Hb tac]: every call of the script satisfies the predicate;
    [Hb] proves it for the builtin calls and [tac] for a concrete call. *)
Ltac sat_step Hb tac :=
  lazymatch goal with
  | |- True => exact I
  | |- sat _ (Ret _) => exact I
  | |- sat _ (Throw _) => exact I
  | |- sat _ (Lib _ _) => simpl; split; [ tac | intros ]
  | |- sat _ (New _ _) => simpl; intros
  | |- sat _ (Get _ _) => simpl; intros
  | |- sat _ (Put _ _ _) => simpl
  | |- sat _ (bind _ _) => apply sat_bind; [ | intros ]
  | |- sat _ (for_ _ _) => apply sat_for; intros
  | |- sat _ (map_ _ _) => apply sat_map; intros
  | |- sat _ (seq_item _ _) => apply sat_seq_item
  | |- sat _ (intern _) => apply sat_intern
  | |- sat _ (extern _) => apply sat_extern
  | |- sat _ (py_getitem _ _) => apply sat_py_getitem, Hb
  | |- sat _ (py_len _) => apply sat_py_len, Hb
  | |- sat _ (py_iter _) => apply sat_py_iter, Hb
  | |- sat _ (py_unpack2 _) => apply sat_py_unpack2, Hb
  | |- sat _ (py_range _) => apply sat_py_range, Hb
  | |- sat _ (py_getattr _ _) => apply sat_py_getattr, Hb
  | |- sat _ (py_setattr _ _ _) => apply sat_py_setattr, Hb
  | |- sat _ (py_add _ _) => apply sat_py_add, Hb
  | |- sat _ (py_truediv _ _) => apply sat_py_truediv, Hb
  | |- sat _ (py_gt _ _) => apply sat_py_gt, Hb
  | |- sat _ (py_float _) => apply sat_py_float, Hb
  | |- sat _ (py_sum _) => apply sat_py_sum, Hb
  | |- sat _ (list_copy _ _) => apply sat_list_copy; intros; tac
  | |- sat _ (list_pop _ _ _) => apply sat_list_pop; intros; tac
  | |- sat _ (list_append _ _ _) => apply sat_list_append; intros; tac
  | |- sat _ (let '(_, _) := ?x in _) => destruct x
  | |- sat _ ?p => unfold_script p
  end.

Ltac sat_with Hb tac := repeat sat_step Hb tac.

Lemma any_call_builtin : forall c, builtin c -> any_call c.
Proof. done. Qed.

Lemma mlneb_handler_free : sat any_call MLNEB_tutorial.notebook.
Proof. sat_with any_call_builtin ltac:(exact I). Qed.

Lemma kfold_handler_free : sat any_call KFold_tutorial.notebook.
Proof. sat_with any_call_builtin ltac:(exact I). Qed.

(** The builtins and the loops: in the notebooks they make no call that
    a key selects. *)
Ltac is_helper h :=
  lazymatch h with
  | @for_ => idtac
  | @map_ => idtac
  | intern => idtac
  | extern => idtac
  | py_getitem => idtac
  | py_len => idtac
  | py_iter => idtac
  | py_unpack2 => idtac
  | py_range => idtac
  | py_add => idtac
  | py_truediv => idtac
  | py_gt => idtac
  | py_float => idtac
  | py_sum => idtac
  | list_copy => idtac
  | list_pop => idtac
  | list_append => idtac
  end.

(** [emits_with Hb]: the calls selected by the key are the expected ones;
    [Hb] proves that the key selects no builtin call. *)
Ltac emits_step Hb :=
  lazymatch goal with
  | |- emits _ _ (Ret _) => apply emits_ret
  | |- emits _ _ (Throw _) => apply emits_throw
  | |- emits _ _ (Lib _ _) => eapply emits_lib'; [ cbv; reflexivity | intros ]
  | |- emits _ _ (New _ _) => apply emits_new; intros
  | |- emits _ _ (Get _ _) => apply emits_get; intros
  | |- emits _ _ (Put _ _ _) => apply emits_put
  | |- emits _ _ (bind (bind _ _) _) => apply emits_assoc
  | |- emits _ _ (bind (Ret _) _) => cbn [bind]
  | |- emits _ _ (bind (Lib _ _) _) => cbn [bind]
  | |- emits _ _ (bind (New _ _) _) => cbn [bind]
  | |- emits _ _ (bind (Get _ _) _) => cbn [bind]
  | |- emits _ _ (bind (Put _ _ _) _) => cbn [bind]
  | |- emits _ _ (bind (let '(_, _) := ?x in _) _) => destruct x
  | |- emits _ _ (let '(_, _) := ?x in _) => destruct x
  | |- emits _ _ (bind ?p _) =>
      let h := head_of p in
      tryif is_helper h
      then (apply emits_bind_silent; [ sat_with Hb ltac:(reflexivity) | intros ])
      else unfold_script p
  | |- emits _ _ ?p =>
      let h := head_of p in
      tryif is_helper h
      then (apply emits_silent; sat_with Hb ltac:(reflexivity))
      else unfold_script p
  end.

Ltac emits_with Hb := repeat emits_step Hb.

Ltac builtin_quiet :=
  intros [f r a kw] (Hf & Hr & Hk); simpl in *; subst; unfold builtins in Hf;
  repeat (apply elem_of_cons in Hf as [->|Hf]; [reflexivity|]);
  by apply elem_of_nil in Hf.

Lemma mlneb_interface_builtin : forall c, builtin c -> mlneb_interface c = None.
Proof. builtin_quiet. Qed.

Lemma mlneb_interface_emits : emits mlneb_interface interface_calls MLNEB_tutorial.notebook.
Proof. emits_with mlneb_interface_builtin. Qed.

Lemma kfold_interface_emits : emits mlneb_interface [] KFold_tutorial.notebook.
Proof. emits_with mlneb_interface_builtin. Qed.

(** ** Numbers *)

Lemma digits2_pos_bound p : 2 ^ (Zpos (digits2_pos p) - 1) <= Zpos p.
Proof.
  induction p as [p IH|p IH|]; cbn [digits2_pos].
  - rewrite Pos2Z.inj_succ.
    replace (Z.succ (Z.pos (digits2_pos p)) - 1)
      with (Z.succ (Z.pos (digits2_pos p) - 1)) by lia.
    rewrite Z.pow_succ_r by lia. lia.
  - rewrite Pos2Z.inj_succ.
    replace (Z.succ (Z.pos (digits2_pos p)) - 1)
      with (Z.succ (Z.pos (digits2_pos p) - 1)) by lia.
    rewrite Z.pow_succ_r by lia. lia.
  - simpl. lia.
Qed.

Lemma digits2_pos_iter p k :
  digits2_pos (Pos.iter xO p k) = (digits2_pos p + k)%positive.
Proof.
  induction k as [|k IH] using Pos.peano_ind.
  - simpl. lia.
  - rewrite Pos.iter_succ. cbn [digits2_pos]. rewrite IH. lia.
Qed.

(** A mantissa of 53 bits with an exponent in range is not rounded. *)
Lemma round_aux_canonical m e :
  Zpos (digits2_pos m) = 53 -> -1074 <= e <= 971 ->
  binary_round_aux prec emax false (Zpos m) e loc_Exact = S754_finite false m e.
Proof.
  intros Hd He.
  unfold binary_round_aux, shr_fexp, fexp, emin, prec, emax, Zdigits2.
  rewrite Hd. cbn [shr_record_of_loc].
  replace ((53 + e - 53) `max` (3 - 1024 - 53) - e) with 0 by lia.
  cbn [shr shr_m loc_of_shr_record round_nearest_even Zdigits2].
  rewrite Hd.
  replace ((53 + e - 53) `max` (3 - 1024 - 53) - e) with 0 by lia.
  cbn [shr shr_m].
  destruct (Z.leb_spec e (1024 - 53)); [done | lia].
Qed.

Lemma normalize_small p :
  Zpos p < 2 ^ 53 ->
  exists m e, binary_normalize prec emax (Zpos p) 0 false = S754_finite false m e.
Proof.
  intros Hp.
  assert (Hd : Zpos (digits2_pos p) <= 53).
  { pose proof (digits2_pos_bound p) as H1.
    destruct (Z.le_gt_cases (Zpos (digits2_pos p)) 53) as [H|H]; [done|].
    exfalso.
    assert (2 ^ 53 <= 2 ^ (Z.pos (digits2_pos p) - 1)) by (apply Z.pow_le_mono_r; lia).
    lia. }
  unfold binary_normalize, binary_round, shl_align, fexp, emin.
  change prec with 53. change emax with 1024.
  replace ((Z.pos (digits2_pos p) + 0 - 53) `max` (3 - 1024 - 53))
    with (Z.pos (digits2_pos p) - 53) by lia.
  destruct (Z.pos (digits2_pos p) - 53 - 0) as [|d|d] eqn:E; [|lia|].
  - eexists _, _. apply (round_aux_canonical p 0); lia.
  - eexists _, _. apply (round_aux_canonical (Pos.iter xO p d)); [|lia].
    rewrite digits2_pos_iter. lia.
Qed.

(** The float of a count from 1 to 2^53 is not zero. *)
Lemma float_of_Z_nonzero n :
  0 < n <= 2 ^ 53 -> PrimFloat.eqb (float_of_Z n) PrimFloat.zero = false.
Proof.
  intros Hn. destruct (Z.eq_dec n (2 ^ 53)) as [->|Hne]; [reflexivity|].
  unfold float_of_Z. destruct (Z.ltb_spec n 0); [lia|].
  rewrite FloatAxioms.eqb_spec, FloatAxioms.of_uint63_spec, Uint63.of_Z_spec.
  rewrite Z.mod_small by (change wB with (2 ^ 63); lia).
  destruct n as [|p|p]; [lia| |lia].
  destruct (normalize_small p) as (m & e & ->); [lia|]. reflexivity.
Qed.

Lemma exact_small n : 0 <= n <= 2 ^ 53 -> exact n = true.
Proof. intros Hn. unfold exact. apply Z.leb_le. lia. Qed.

(** ** Runs in a given world *)

Lemma run_lib {A} lib c (k : value -> script A) s v :
  lib (trace s) c = inr v ->
  run lib (Lib c k) s = run lib (k v) (log c (inr v) s).
Proof. intros H. simpl. by rewrite H. Qed.

Lemma world_other lib h c :
  String.eqb (fn c) "np.concatenate" = false -> world lib h c = lib h c.
Proof. intros H. unfold world. by rewrite H. Qed.

Lemma run_get {A} lib r l (k : list value -> script A) s :
  store s !! r = Some l -> run lib (Get r k) s = run lib (k l) s.
Proof. intros H. simpl. by rewrite H. Qed.

Lemma run_lib_cases {A} lib c (k : value -> script A) s
    (P : state * (exn + A) -> Prop) :
  (forall e, lib (trace s) c = inl e -> P (log c (inl e) s, inl e)) ->
  (forall v, lib (trace s) c = inr v -> P (run lib (k v) (log c (inr v) s))) ->
  P (run lib (Lib c k) s).
Proof. intros He Hv. cbn [run]. destruct (lib (trace s) c); auto. Qed.

Lemma run_bind_inr {A B} lib (p : script A) (f : A -> script B) s s' b :
  run lib (bind p f) s = (s', inr b) ->
  exists s1 a, run lib p s = (s1, inr a) /\ run lib (f a) s1 = (s', inr b).
Proof.
  rewrite run_bind. destruct (run lib p s) as [s1 [e|a]]; [done|]. eauto.
Qed.

Lemma shows_emits {X A} lib (key : call -> option X) L (p : script A) s :
  emits key L p -> shows lib key L p s.
Proof. intros H. apply H. Qed.

Lemma shows_lib {X A} lib (key : call -> option X) L L' c (k : value -> script A) s :
  L = option_list (key c) ++ L' ->
  (forall v, lib (trace s) c = inr v -> shows lib key L' (k v) (log c (inr v) s)) ->
  shows lib key L (Lib c k) s.
Proof.
  intros -> Hk. unfold shows. cbn [run].
  destruct (lib (trace s) c) as [e|v] eqn:E.
  - exists [(c, inl e)]. split; [done|]. rewrite obs_cons. cbn [fst snd follows].
    rewrite app_nil_r. by apply prefix_app_r.
  - destruct (Hk v eq_refl) as (new & Ht & Hf).
    exists ((c, inr v) :: new). rewrite Ht. cbn [log trace]. rewrite <- app_assoc.
    split; [done|]. rewrite obs_cons. cbn [fst].
    destruct (run lib (k v) (log c (inr v) s)).2; cbn [follows] in *.
    + by apply prefix_app.
    + by rewrite Hf.
Qed.

Lemma shows_bind {X A B} lib (key : call -> option X) L L1 L2
    (p : script A) (f : A -> script B) s :
  L = L1 ++ L2 ->
  shows lib key L1 p s ->
  (forall s' a, run lib p s = (s', inr a) -> shows lib key L2 (f a) s') ->
  shows lib key L (bind p f) s.
Proof.
  intros -> (new1 & Ht1 & Hf1) Hf. unfold shows. rewrite run_bind.
  destruct (run lib p s) as [s1 [e|a]]; simpl in *.
  - exists new1. split; [done|]. by apply prefix_app_r.
  - destruct (Hf s1 a eq_refl) as (new2 & Ht2 & Hf2).
    exists (new1 ++ new2). rewrite Ht2, Ht1, <- app_assoc. split; [done|].
    rewrite obs_app, Hf1.
    destruct (run lib (f a) s1).2; simpl in *.
    + by apply prefix_app.
    + by rewrite Hf2.
Qed.

(** [lib_step Hret]: in a world where no call raises, the run goes on
    with the value that the next call returns. *)
Ltac lib_step Hret :=
  lazymatch goal with
  | |- context [run (world ?lib) (Lib ?c ?k) ?s] =>
      let v := fresh "v" in
      let E := fresh "E" in
      destruct (Hret (trace s) c) as [v E];
      rewrite (run_lib (world lib) c k s v)
        by (rewrite world_other by reflexivity; exact E);
      cbv beta
  end.

(** * The notebooks *)

Lemma run_from_init {X A} (key : call -> option X) L (p : script A) lib :
  emits key L p ->
  follows (obs key (trace (run lib p init).1)) (run lib p init).2 L.
Proof. intros H. destruct (H lib init) as (new & -> & Hf). done. Qed.

Lemma follows_nil {X A} (seen : list X) (r : exn + A) : follows seen r [] -> seen = [].
Proof. intros H. apply follows_prefix in H. by apply prefix_nil_inv. Qed.

Lemma sat_from_init {A} P (p : script A) lib :
  sat P p -> Forall (fun ev => P ev.1) (trace (run lib p init).1).
Proof. intros H. by destruct (sat_run P lib p init H) as (new & -> & HP & _). Qed.

Lemma uncaught_from_init {A} (p : script A) lib :
  sat any_call p -> uncaught (run lib p init).
Proof.
  intros H c e Hin. destruct (sat_run _ lib p init H) as (new & Ht & _ & Hr).
  simpl in Ht. rewrite Ht in *.
  destruct (run lib p init).2 as [e0|a]; simpl.
  - destruct (Hr c e Hin) as (-> & old & -> & Hold). split; [done|]. by exists old.
  - exfalso. rewrite Forall_forall in Hr. by apply (Hr _ Hin).
Qed.

(** In a run without handlers every call but the last has returned. *)
Lemma returned_before {A} (res : state * (exn + A)) before ev after :
  uncaught res -> trace res.1 = before ++ ev :: after ->
  Forall (fun ev => ~ raised ev) before.
Proof.
  intros Hu Ht. apply Forall_forall. intros [c' [e'|v']] Hin; [|by intros []].
  destruct (Hu c' e') as (_ & old & Hold & Hnr).
  { rewrite Ht. apply elem_of_app. by left. }
  rewrite Ht in Hold.
  destruct after as [|ev' after _] using rev_ind.
  - apply app_inj_tail in Hold as [<- _].
    by apply Forall_forall with (x := (c', inl e')) in Hnr.
  - rewrite app_comm_cons, app_assoc in Hold.
    apply app_inj_tail in Hold as [<- _].
    apply Forall_app in Hnr as [Hnr _].
    by apply Forall_forall with (x := (c', inl e')) in Hnr.
Qed.

(** In the world [three_folds] both notebooks run to their end. *)
Example mlneb_completes : (mlneb_run three_folds).2 = inr tt.
Proof. vm_compute. reflexivity. Qed.

Example kfold_completes : (kfold_run three_folds).2 = inr tt.
Proof. vm_compute. reflexivity. Qed.

(** ** C1: the parameters of MLNEB *)

(** C1, as the specification states it, fails: the first construction
    [MLNEB(...)] of the notebook also passes the calculator, [ase_calc],
    which is not among the parameters that the specification lists. *)
Lemma C1_counterexample :
  ~ (forall lib, Forall spec_interface (obs mlneb_interface (trace (mlneb_run lib).1))).
Proof.
  intros H. specialize (H three_folds). vm_compute in H.
  apply Forall_cons in H as [H _].
  assert (Hin : "ase_calc" ∈ spec_construct_names).
  { apply H. unfold construct_names. repeat constructor. }
  unfold spec_construct_names in Hin.
  repeat (apply elem_of_cons in Hin as [Hin|Hin]; [discriminate|]).
  by apply elem_of_nil in Hin.
Qed.

(** C1, amended: in every run of the ML-NEB notebook the constructions
    [MLNEB(...)] and the calls [.run(...)] are, in this order, the eight
    of [interface_calls] (an initial part of them when an exception ends
    the run).  Each construction passes exactly start, end, ase_calc,
    n_images, interpolation and restart; each [.run] passes parameters
    among fmax, steps, unc_convergence and trajectory, and each of these
    four is passed by some [.run].  The cross-validation notebook makes no
    such call. *)
Theorem C1_mlneb_interface :
  forall lib,
    follows (obs mlneb_interface (trace (mlneb_run lib).1)) (mlneb_run lib).2
            interface_calls
    /\ obs mlneb_interface (trace (kfold_run lib).1) = []
    /\ Forall code_interface interface_calls
    /\ Forall (fun k => exists names, RunWith names ∈ interface_calls /\ k ∈ names)
              spec_run_names.
Proof.
  intros lib. split; [|split; [|split]].
  - apply run_from_init, mlneb_interface_emits.
  - eapply follows_nil, run_from_init, kfold_interface_emits.
  - unfold interface_calls, spec_run_names.
    repeat (constructor; [first [reflexivity | intros k Hk;
      repeat (apply elem_of_cons in Hk as [->|Hk]; [repeat constructor|]);
      by apply elem_of_nil in Hk]|]).
    constructor.
  - unfold spec_run_names, interface_calls.
    repeat constructor.
    + exists ["fmax"; "trajectory"]. split; repeat constructor.
    + exists ["fmax"; "trajectory"; "steps"]. split; repeat constructor.
    + exists ["fmax"; "unc_convergence"; "trajectory"]. split; repeat constructor.
    + exists ["fmax"; "trajectory"]. split; repeat constructor.
Qed.

(** ** C6: exceptions *)

(** C6: neither notebook contains an exception handler, and in every run
    a call that raises is the last event: its exception is the result of
    the run. *)
Theorem C6_exceptions_propagate :
  sat any_call MLNEB_tutorial.notebook
  /\ sat any_call KFold_tutorial.notebook
  /\ forall lib, uncaught (mlneb_run lib) /\ uncaught (kfold_run lib).
Proof.
  split; [apply mlneb_handler_free|]. split; [apply kfold_handler_free|].
  intros lib. split; apply uncaught_from_init.
  - apply mlneb_handler_free.
  - apply kfold_handler_free.
Qed.

(** With a handler the exception of a call is not the result of the run. *)
Example guarded_is_caught : ~ uncaught (run failing guarded init).
Proof.
  intros H.
  destruct (H (Call "MLNEB" None [] []) (LibError "failed")) as [E _].
  - vm_compute. repeat constructor.
  - vm_compute in E. discriminate.
Qed.


(** * The cross-validation loop *)

(** ** Steps of a run *)

Lemma py_index_nat n i :
  py_index n (Z.of_nat i) = if decide (i < n)%nat then Some i else None.
Proof.
  unfold py_index.
  destruct (Z.ltb_spec (Z.of_nat i) 0) as [H|H]; [lia|].
  destruct (Z.leb_spec 0 (Z.of_nat i)) as [_|H']; [|lia]. simpl.
  destruct (Z.ltb_spec (Z.of_nat i) (Z.of_nat n)) as [H1|H1];
    case_decide; try lia; by rewrite ?Nat2Z.id.
Qed.

Lemma run_list_copy lib name r l s :
  store s !! r = Some l ->
  run lib (list_copy name (VRef r)) s = (alloc l s, inr (VRef (length (store s)))).
Proof. intros H. simpl. by rewrite H. Qed.

Lemma run_list_pop lib name r l i s :
  store s !! r = Some l ->
  run lib (list_pop name (VRef r) (VInt (Z.of_nat i))) s =
  match l !! i with
  | Some x => (write r (delete i l) s, inr x)
  | None => (s, inl IndexError)
  end.
Proof.
  intros H. simpl. rewrite H, py_index_nat. case_decide as Hi.
  - destruct (lookup_lt_is_Some_2 l i Hi) as [x Hx]. by rewrite Hx.
  - by rewrite (lookup_ge_None_2 l i) by lia.
Qed.

Lemma run_extern lib r l s :
  store s !! r = Some l -> run lib (extern (VRef r)) s = (s, inr (VList l)).
Proof. intros H. simpl. by rewrite H. Qed.

(** ** Arrays that are alike *)

Lemma mapM_array_form R k sh :
  Forall (fun rows => array_form (VArr rows) = Some (k, sh)) R ->
  mapM array_form (map VArr R) = Some (map (fun _ => (k, sh)) R).
Proof.
  induction 1 as [|rows R Hr _ IH]; [done|].
  cbn [map mapM]. rewrite Hr, IH. done.
Qed.

Lemma mapM_rows_of R : mapM rows_of (map VArr R) = Some R.
Proof. induction R as [|rows R IH]; [done|]. cbn [map mapM rows_of]. by rewrite IH. Qed.

Lemma forallb_same {A B} (f : B -> bool) (b : B) (l : list A) :
  f b = true -> forallb f (map (fun _ => b) l) = true.
Proof. intros Hb. induction l as [|a l IH]; [done|]. simpl. by rewrite Hb, IH. Qed.

Lemma alike_delete i R : alike R -> alike (delete i R).
Proof. intros (k & sh & H). exists k, sh. by apply Forall_delete. Qed.

Lemma alike_take n R : alike R -> alike (take n R).
Proof. intros (k & sh & H). exists k, sh. by apply Forall_take. Qed.

Lemma three_features_alike : alike three_features.
Proof. exists KInt, []. repeat constructor. Qed.

Lemma three_targets_alike : alike three_targets.
Proof. exists KFloat, []. repeat constructor. Qed.

(** [np.concatenate] on arrays that are alike. *)
Lemma world_concatenate lib h R :
  alike R ->
  world lib h (concat_call R)
  = match R with
    | [] => inl ValueError
    | _ => inr (VArr (concat R))
    end.
Proof.
  intros (k & sh & HR). unfold world, np_concatenate, concat_call.
  cbn [fn args kwargs String.eqb Ascii.eqb Bool.eqb].
  destruct R as [|rows R]; [done|].
  apply Forall_cons in HR as [Hr HR]. cbn [map].
  rewrite Hr, (mapM_array_form R k sh HR).
  change (VArr rows :: map VArr R) with (map VArr (rows :: R)).
  rewrite mapM_rows_of, !forallb_same; [done | |]; by apply bool_decide_eq_true.
Qed.

Lemma run_concatenate lib R s :
  alike R ->
  run (world lib) (ext "np.concatenate" [VList (map VArr R)] [("axis", VInt 0)]) s =
  match R with
  | [] => (log (concat_call R) (inl ValueError) s, inl ValueError)
  | _ => (log (concat_call R) (inr (VArr (concat R))) s, inr (VArr (concat R)))
  end.
Proof.
  intros HR. unfold ext. cbn [run]. fold (concat_call R).
  rewrite (world_concatenate lib _ R HR). by destruct R.
Qed.

Lemma run_append lib name r l x s :
  store s !! r = Some l ->
  run lib (list_append name (VRef r) x) s = (write r (l ++ [x]) s, inr tt).
Proof. intros H. simpl. by rewrite H. Qed.

Lemma store_alloc_old l s r :
  (r < length (store s))%nat -> store (alloc l s) !! r = store s !! r.
Proof. intros H. simpl. by apply lookup_app_l. Qed.

Lemma store_alloc_new l s : store (alloc l s) !! length (store s) = Some l.
Proof. simpl. by rewrite lookup_app_r, Nat.sub_diag. Qed.

Lemma store_write_same r l s :
  (r < length (store s))%nat -> store (write r l s) !! r = Some l.
Proof. intros H. simpl. by apply list_lookup_insert_eq. Qed.

Lemma store_write_other r r' l s :
  r <> r' -> store (write r l s) !! r' = store s !! r'.
Proof. intros H. simpl. by apply list_lookup_insert_ne. Qed.

Lemma delete_map {A B} (f : A -> B) i (l : list A) :
  delete i (map f l) = map f (delete i l).
Proof.
  revert i. induction l as [|x l IH]; intros [|i]; simpl; try done.
  by rewrite <- IH.
Qed.

(** ** The composition of the sets of a fold *)

Section Compose.
Variables (lib : oracle) (rf rt : loc) (F T : list (list value)).

(** The copies and the pops: when both lists have a subset [i], the
    copies hold the other subsets and these are handed to
    [np.concatenate]. *)
Lemma compose_sets_popped s i :
  store s !! rf = Some (map VArr F) -> store s !! rt = Some (map VArr T) ->
  run (world lib) (KFold_tutorial.compose_sets (VRef rf) (VRef rt)
                     (VInt (Z.of_nat i))) s =
  match F !! i, T !! i with
  | None, _ => (copied F T s, inl IndexError)
  | Some Fi, None =>
      (write (length (store s)) (map VArr (delete i F)) (copied F T s), inl IndexError)
  | Some Fi, Some Ti =>
      run (world lib)
        (a ← ext "np.concatenate" [VList (map VArr (delete i F))] [("axis", VInt 0)];
         b ← ext "np.concatenate" [VList (map VArr (delete i T))] [("axis", VInt 0)];
         mret (a, b, VArr Fi, VArr Ti))
        (popped F T i s)
  end.
Proof.
  intros Hf Ht.
  assert (Hrf := lookup_lt_Some _ _ _ Hf). assert (Hrt := lookup_lt_Some _ _ _ Ht).
  unfold KFold_tutorial.compose_sets, mbind, script_bind, mret, script_ret.
  rewrite run_bind, (run_list_copy _ _ _ _ _ Hf). cbv beta iota.
  assert (Ht1 : store (alloc (map VArr F) s) !! rt = Some (map VArr T))
    by (by rewrite store_alloc_old).
  rewrite run_bind, (run_list_copy _ _ _ _ _ Ht1). cbv beta iota. fold (copied F T s).
  assert (Hn0 : store (copied F T s) !! length (store s) = Some (map VArr F)).
  { unfold copied. rewrite store_alloc_old; [apply store_alloc_new|].
    simpl. rewrite length_app. simpl. lia. }
  assert (Hn1 : store (copied F T s) !! length (store (alloc (map VArr F) s))
                = Some (map VArr T)) by apply store_alloc_new.
  rewrite run_bind, (run_list_pop _ _ _ _ _ _ Hn0), list_lookup_fmap.
  destruct (F !! i) as [Fi|] eqn:EF; cbn [fmap option_fmap option_map]; cbv beta iota; [|done].
  rewrite delete_map.
  set (s3 := write (length (store s)) (map VArr (delete i F)) (copied F T s)).
  assert (Hn1' : store s3 !! length (store (alloc (map VArr F) s))
                 = Some (map VArr T)).
  { unfold s3. rewrite store_write_other; [done|]. simpl. rewrite length_app. simpl. lia. }
  rewrite run_bind, (run_list_pop _ _ _ _ _ _ Hn1'), list_lookup_fmap.
  destruct (T !! i) as [Ti|] eqn:ET; cbn [fmap option_fmap option_map]; cbv beta iota; [|done].
  rewrite delete_map.
  assert (El : length (store (alloc (map VArr F) s)) = S (length (store s)))
    by (simpl; rewrite length_app; simpl; lia).
  rewrite El in *. fold s3. fold (popped F T i s).
  assert (Hp0 : store (popped F T i s) !! length (store s) = Some (map VArr (delete i F))).
  { unfold popped. rewrite store_write_other by lia. apply store_write_same.
    unfold copied. simpl. rewrite !length_app. simpl. lia. }
  assert (Hp1 : store (popped F T i s) !! S (length (store s))
                = Some (map VArr (delete i T))).
  { unfold popped. apply store_write_same. simpl.
    rewrite length_insert, !length_app. simpl. lia. }
  rewrite run_bind, (run_extern _ _ _ _ Hp0). cbv beta iota.
  rewrite !run_bind.
  destruct (run (world lib) (ext "np.concatenate" _ _) (popped F T i s))
    as [s4 [e|a]] eqn:E4; [done|].
  assert (Hp1' : store s4 !! S (length (store s)) = Some (map VArr (delete i T))).
  { unfold ext in E4. cbn [run] in E4.
    destruct (world lib _ _) in E4; [done|]. by injection E4 as <- _. }
  by rewrite run_bind, (run_extern _ _ _ _ Hp1').
Qed.

Hypotheses (HF : alike F) (HT : alike T).

Lemma compose_sets_run s i :
  store s !! rf = Some (map VArr F) -> store s !! rt = Some (map VArr T) ->
  run (world lib) (KFold_tutorial.compose_sets (VRef rf) (VRef rt)
                     (VInt (Z.of_nat i))) s =
  match F !! i, T !! i with
  | None, _ => (copied F T s, inl IndexError)
  | Some Fi, None =>
      (write (length (store s)) (map VArr (delete i F)) (copied F T s), inl IndexError)
  | Some Fi, Some Ti =>
      let a := VArr (concat (delete i F)) in
      let b := VArr (concat (delete i T)) in
      match delete i F, delete i T with
      | [], _ =>
          (log (concat_call (delete i F)) (inl ValueError) (popped F T i s),
           inl ValueError)
      | _, [] =>
          (log (concat_call (delete i T)) (inl ValueError)
             (log (concat_call (delete i F)) (inr a) (popped F T i s)),
           inl ValueError)
      | _, _ =>
          (log (concat_call (delete i T)) (inr b)
             (log (concat_call (delete i F)) (inr a) (popped F T i s)),
           inr (a, b, VArr Fi, VArr Ti))
      end
  end.
Proof.
  intros Hf Ht. rewrite (compose_sets_popped s i Hf Ht).
  destruct (F !! i) as [Fi|]; [|done]. destruct (T !! i) as [Ti|]; [|done].
  unfold mbind, script_bind, mret, script_ret.
  rewrite run_bind, run_concatenate by (by apply alike_delete). cbv zeta.
  destruct (delete i F) as [|rows R] eqn:ED; [done|]. cbv beta iota.
  rewrite run_bind, run_concatenate by (by apply alike_delete).
  by destruct (delete i T) as [|rows' R'] eqn:ED'.
Qed.
End Compose.

(** ** What a fold writes *)

Ltac confined_tac :=
  repeat first
    [ progress (cbn [confined bind list_copy list_pop list_append extern ext meth]; intros)
    | split
    | match goal with
      | |- _ ∈ _ => repeat constructor
      | |- context [match ?v with _ => _ end] => destruct v
      end ].

Lemma confined_seq_item W l i : confined W (seq_item l i).
Proof. unfold seq_item. by repeat case_match. Qed.

Lemma confined_py_getitem W v i : confined W (py_getitem v i).
Proof.
  unfold py_getitem. repeat case_match; simpl; try done; intros; apply confined_seq_item.
Qed.

Lemma confined_py_len W v : confined W (py_len v).
Proof. by destruct v. Qed.

Lemma gp_predict_confined W a b c d : confined W (KFold_tutorial.gp_predict a b c d).
Proof.
  unfold KFold_tutorial.gp_predict, mbind, script_bind, mret, script_ret.
  simpl. intros gp pred.
  apply confined_bind; [apply confined_py_getitem|]. intros W1 prediction _.
  simpl. intros errors.
  apply confined_bind; [apply confined_py_getitem|]. intros W2 rmse _.
  apply confined_bind; [apply confined_py_len|]. by intros W3 size _.
Qed.

Lemma fold_confined rf rt ry index :
  confined [ry] (KFold_tutorial.fold (VRef rf) (VRef rt) (VRef ry) index).
Proof.
  unfold KFold_tutorial.fold, KFold_tutorial.compose_sets,
    mbind, script_bind, mret, script_ret.
  confined_tac.
  all: apply confined_bind; [apply gp_predict_confined|]; intros W1 data HW.
  all: apply confined_bind; [apply confined_py_getitem|]; intros W2 result HW2.
  all: simpl; intros l'; split; [|done].
  all: apply HW2, HW; repeat constructor.
Qed.

(** A fold leaves every list object but its copies and [y] as it was. *)
Lemma fold_frame lib rf rt ry index s r :
  (r < length (store s))%nat -> r <> ry ->
  store (run lib (KFold_tutorial.fold (VRef rf) (VRef rt) (VRef ry) index) s).1 !! r
  = store s !! r.
Proof.
  intros Hr Hne. apply (confined_run lib [ry]); [apply fold_confined | done |].
  by intros ->%list_elem_of_singleton.
Qed.

Lemma confined_for {A} W (l : list A) body :
  (forall a, confined W (body a)) -> confined W (for_ l body).
Proof.
  intros Hb. induction l as [|a l IH]; simpl; [done|].
  apply confined_bind; [done|]. intros W' _ HW. by apply (confined_mono W).
Qed.

Lemma cell_cv_confined rf rt :
  confined [] (KFold_tutorial.cell_cv (VRef rf) (VRef rt)).
Proof.
  unfold KFold_tutorial.cell_cv, mbind, script_bind, mret, script_ret.
  simpl. intros l r.
  apply confined_bind; [|done].
  apply confined_for. intros index. apply fold_confined.
Qed.

(** ** C7: the split is left as it was *)

(** C7: whatever the libraries answer, and whether the loop completes or
    an exception ends it, after the cross-validation cell the list objects
    [fsplit] and [tsplit] hold the subsets they held before, in the same
    order: the loop pops from copies only. *)
Theorem C7_split_unchanged :
  forall lib s rf rt fs ts,
    store s !! rf = Some fs -> store s !! rt = Some ts ->
    store (run (world lib) (KFold_tutorial.cell_cv (VRef rf) (VRef rt)) s).1 !! rf
      = Some fs
    /\ store (run (world lib) (KFold_tutorial.cell_cv (VRef rf) (VRef rt)) s).1 !! rt
      = Some ts.
Proof.
  intros lib s rf rt fs ts Hf Ht. split.
  - rewrite <- Hf. apply (confined_run _ []); [apply cell_cv_confined | | apply not_elem_of_nil].
    by apply lookup_lt_Some in Hf.
  - rewrite <- Ht. apply (confined_run _ []); [apply cell_cv_confined | | apply not_elem_of_nil].
    by apply lookup_lt_Some in Ht.
Qed.

Lemma C7_witness :
  store (run (world three_folds) (KFold_tutorial.cell_cv (VRef 0%nat) (VRef 1%nat))
           (split_state three_features three_targets)).1 !! 0%nat
    = Some (map VArr three_features)
  /\ store (run (world three_folds) (KFold_tutorial.cell_cv (VRef 0%nat) (VRef 1%nat))
           (split_state three_features three_targets)).1 !! 1%nat
    = Some (map VArr three_targets).
Proof.
  apply (C7_split_unchanged three_folds (split_state three_features three_targets)
           0%nat 1%nat (map VArr three_features) (map VArr three_targets)); reflexivity.
Defined.

(** Popping from the list itself, instead of from a copy, loses the
    subset. *)
Example pop_without_copy :
  store (run (world three_folds) (list_pop "fsplit" (VRef 0%nat) (VInt 0))
           (split_state three_features three_targets)).1 !! 0%nat
  = Some (map VArr (delete 0%nat three_features)).
Proof. reflexivity. Qed.

(** ** Loops *)

Lemma for_map {A B} (g : A -> B) (l : list A) body :
  for_ (map g l) body = for_ l (fun a => body (g a)).
Proof. induction l as [|a l IH]; simpl; [done|]. by rewrite IH. Qed.

Lemma for_follows {X A} lib (key : call -> option X) (Inv : state -> Prop)
    (L : A -> list X) (body : A -> script unit) :
  (forall a s, Inv s ->
     Inv (run lib (body a) s).1 /\
     exists new, trace (run lib (body a) s).1 = trace s ++ new /\
                 follows (obs key new) (run lib (body a) s).2 (L a)) ->
  forall l s, Inv s ->
    Inv (run lib (for_ l body) s).1 /\
    exists new, trace (run lib (for_ l body) s).1 = trace s ++ new /\
                follows (obs key new) (run lib (for_ l body) s).2 (flat_map L l).
Proof.
  intros Hb l. induction l as [|a l IH]; intros s Hs; simpl.
  - split; [done|]. exists []. by rewrite app_nil_r.
  - rewrite run_bind. destruct (Hb a s Hs) as (Hi & new1 & Ht1 & Hf1).
    destruct (run lib (body a) s) as [s1 [e|u]]; simpl in *.
    + split; [done|]. exists new1. split; [done|]. by apply prefix_app_r.
    + destruct (IH s1 Hi) as (Hi2 & new2 & Ht2 & Hf2). split; [done|].
      exists (new1 ++ new2). rewrite Ht2, Ht1, <- app_assoc. split; [done|].
      rewrite obs_app, Hf1.
      destruct (run lib (for_ l body) s1).2; simpl in *.
      * by apply prefix_app.
      * by rewrite Hf2.
Qed.

(** ** The folds of the loop *)

Section Folds.
Context {X : Type} (key : call -> option X) (L : nat -> list X).
Variables (lib : oracle) (rf rt : loc) (F T : list (list value)).

(** What is shown of one fold carries over to the loop of the cell. *)
Lemma cell_cv_follows s :
  (forall i s y,
     store s !! rf = Some (map VArr F) -> store s !! rt = Some (map VArr T) ->
     exists new,
       trace (run (world lib) (KFold_tutorial.fold (VRef rf) (VRef rt) y
                                 (VInt (Z.of_nat i))) s).1 = trace s ++ new /\
       follows (obs key new)
         (run (world lib) (KFold_tutorial.fold (VRef rf) (VRef rt) y
                             (VInt (Z.of_nat i))) s).2 (L i)) ->
  store s !! rf = Some (map VArr F) -> store s !! rt = Some (map VArr T) ->
  exists new,
    trace (run (world lib) (KFold_tutorial.cell_cv (VRef rf) (VRef rt)) s).1
      = trace s ++ new /\
    follows (obs key new)
      (run (world lib) (KFold_tutorial.cell_cv (VRef rf) (VRef rt)) s).2
      (flat_map L (seq 0 (length F))).
Proof.
  intros Hfold Hf Ht.
  assert (Hrf := lookup_lt_Some _ _ _ Hf). assert (Hrt := lookup_lt_Some _ _ _ Ht).
  unfold KFold_tutorial.cell_cv, mbind, script_bind, mret, script_ret.
  cbn [bind py_len py_range run]. rewrite Hf.
  cbn [bind py_len py_range run]. rewrite length_map, Nat2Z.id, for_map, run_bind.
  set (ry := length (store s)).
  set (Inv := fun st : state =>
                store st !! rf = Some (map VArr F) /\ store st !! rt = Some (map VArr T)).
  destruct (for_follows (world lib) key Inv L
              (fun i => KFold_tutorial.fold (VRef rf) (VRef rt) (VRef ry)
                          (VInt (Z.of_nat i)))) with (l := seq 0 (length F))
              (s := alloc [] s) as (_ & new & Hn & Hfo).
  - intros i st [Hf' Ht']. split.
    + split.
      * rewrite <- Hf'. apply fold_frame; [by apply lookup_lt_Some in Hf' | unfold ry; lia].
      * rewrite <- Ht'. apply fold_frame; [by apply lookup_lt_Some in Ht' | unfold ry; lia].
    + by apply Hfold.
  - split; by rewrite store_alloc_old.
  - destruct (run (world lib) (for_ _ _) (alloc [] s)) as [s' [e|u]]; simpl in *;
      by exists new.
Qed.
End Folds.

Lemma fold_inputs_builtin : forall c, builtin c -> fold_inputs c = None.
Proof. builtin_quiet. Qed.

Lemma fold_rest_emits a b c d y :
  emits fold_inputs [Train (Some a) (Some b); TestFeatures (Some c); TestTargets (Some d)]
    (bind (KFold_tutorial.gp_predict a b c d) (fun data =>
       bind (py_getitem data (VStr "result")) (fun result =>
         list_append "y" y result))).
Proof. emits_with fold_inputs_builtin. Qed.

Lemma fold_inputs_follow lib rf rt F T i s y :
  alike F -> alike T ->
  store s !! rf = Some (map VArr F) -> store s !! rt = Some (map VArr T) ->
  exists new,
    trace (run (world lib) (KFold_tutorial.fold (VRef rf) (VRef rt) y
                              (VInt (Z.of_nat i))) s).1 = trace s ++ new /\
    follows (obs fold_inputs new)
      (run (world lib) (KFold_tutorial.fold (VRef rf) (VRef rt) y
                          (VInt (Z.of_nat i))) s).2 (expected_fold F T i).
Proof.
  intros HF HT Hf Ht. unfold KFold_tutorial.fold, mbind, script_bind.
  rewrite run_bind, (compose_sets_run lib rf rt F T HF HT s i Hf Ht).
  destruct (F !! i) as [Fi|] eqn:EF;
    [|exists []; simpl; rewrite app_nil_r; split; [done|apply prefix_nil]].
  destruct (T !! i) as [Ti|] eqn:ET;
    [|exists []; simpl; rewrite app_nil_r; split; [done|apply prefix_nil]].
  cbv zeta.
  destruct (delete i F) as [|rows R] eqn:ED.
  { eexists [_]. simpl. split; [done|apply prefix_nil]. }
  destruct (delete i T) as [|rows' R'] eqn:ED'.
  { eexists [_; _]. simpl. rewrite <- app_assoc. split; [done|apply prefix_nil]. }
  cbv beta iota.
  destruct (fold_rest_emits (VArr (concat (rows :: R))) (VArr (concat (rows' :: R')))
              (VArr Fi) (VArr Ti) y (world lib)
              (log (concat_call (rows' :: R')) (inr (VArr (concat (rows' :: R'))))
                 (log (concat_call (rows :: R)) (inr (VArr (concat (rows :: R))))
                    (popped F T i s)))) as (new & Hn & Hfo).
  eexists (_ :: _ :: new). split.
  - rewrite Hn. simpl. by rewrite <- !app_assoc.
  - unfold expected_fold. rewrite EF, ET, ED, ED'. exact Hfo.
Qed.

(** ** C4: the sets of the folds *)

Lemma lookups_of_seq {A B} (f : A -> B) (l0 l : list A) :
  omap (fun i => f <$> (l0 ++ l) !! i) (seq (length l0) (length l)) = map f l.
Proof.
  revert l0. induction l as [|x l IH]; intros l0; simpl; [done|].
  rewrite list_lookup_middle by done. simpl. f_equal.
  specialize (IH (l0 ++ [x])). rewrite <- app_assoc, length_app in IH. simpl in IH.
  by rewrite Nat.add_1_r in IH.
Qed.

Lemma test_features_of_folds F T l :
  omap test_features_of (flat_map (expected_fold F T) l)
  = omap (fun i => VArr <$> F !! i) l.
Proof.
  induction l as [|i l IH]; [done|].
  cbn [flat_map omap list_omap]. rewrite omap_app, IH. unfold expected_fold.
  by destruct (F !! i).
Qed.

Lemma test_targets_of_folds F T l :
  omap test_targets_of (flat_map (expected_fold F T) l)
  = omap (fun i => VArr <$> T !! i) l.
Proof.
  induction l as [|i l IH]; [done|].
  cbn [flat_map omap list_omap]. rewrite omap_app, IH. unfold expected_fold.
  by destruct (T !! i).
Qed.

Lemma training_size {A} (F : list (list A)) i Fi :
  F !! i = Some Fi ->
  length (concat (delete i F)) = (length (concat F) - length Fi)%nat.
Proof.
  intros Hi. rewrite <- (take_drop_middle F i Fi Hi) at 2.
  rewrite delete_take_drop, !concat_app, !length_app. simpl.
  rewrite length_app. lia.
Qed.

(** ** The errors of the folds *)

Lemma errors_of_app tr1 tr2 : errors_of (tr1 ++ tr2) = errors_of tr1 ++ errors_of tr2.
Proof. apply omap_app. Qed.

Lemma demo_regression_ok F T err : regression_ok (demo F T err).
Proof.
  split; [|split].
  - intros h c. unfold demo. repeat case_match; eauto.
  - intros h c Hc. unfold demo. rewrite Hc. simpl. eauto.
  - intros h c Hc. unfold demo. rewrite Hc. simpl. eauto.
Qed.

Section Errors.
Variable lib : oracle.
Hypothesis Hlib : regression_ok lib.

(** The regression of a fold and the append to [y]. *)
Lemma fold_rest_ok a rows c d ry ys s :
  store s !! ry = Some ys ->
  exists s' new x,
    run (world lib)
      (bind (KFold_tutorial.gp_predict a (VArr rows) c d) (fun data =>
         bind (py_getitem data (VStr "result")) (fun result =>
           list_append "y" (VRef ry) result))) s = (s', inr tt)
    /\ trace s' = trace s ++ new
    /\ errors_of new = [VFloat x]
    /\ obs averaged_error new = []
    /\ store s' = <[ry := ys ++ [VFloat x]]> (store s).
Proof.
  intros Hy. destruct Hlib as (Hret & Hpred & Herr).
  unfold KFold_tutorial.gp_predict, mbind, script_bind, mret, script_ret, ext, meth.
  cbn [bind].
  set (c1 := Call "GaussianProcess" _ _ _).
  destruct (Hret (trace s) c1) as [gp Egp].
  rewrite (run_lib _ _ _ _ gp) by (by rewrite world_other).
  set (c2 := Call "gp.predict" _ _ _).
  destruct (Hpred (trace (log c1 (inr gp) s)) c2 eq_refl) as (kvs & p & Ep & Ea).
  rewrite (run_lib _ _ _ _ (VDict kvs)) by (by rewrite world_other).
  cbn [py_getitem]. rewrite Ea. cbn [bind].
  set (c3 := Call "get_error" _ _ _).
  destruct (Herr (trace (log c2 (inr (VDict kvs)) (log c1 (inr gp) s))) c3 eq_refl)
    as (kvs' & x & Ee & Ex).
  rewrite (run_lib _ _ _ _ (VDict kvs')) by (by rewrite world_other).
  cbn [py_getitem]. rewrite Ex. cbn [bind py_len].
  exists (write ry (ys ++ [VFloat x])
            (log c3 (inr (VDict kvs')) (log c2 (inr (VDict kvs)) (log c1 (inr gp) s)))),
    [(c1, inr gp); (c2, inr (VDict kvs)); (c3, inr (VDict kvs'))], x.
  split; [|split; [|split; [|split]]].
  - simpl. by rewrite Hy.
  - simpl. by rewrite <- !app_assoc.
  - unfold errors_of. simpl. by rewrite Ex.
  - done.
  - done.
Qed.

Lemma fold_ok rf rt ry F T i ys s :
  alike F -> alike T ->
  store s !! rf = Some (map VArr F) -> store s !! rt = Some (map VArr T) ->
  store s !! ry = Some ys -> rf <> ry -> rt <> ry ->
  (i < length F)%nat -> length T = length F -> (2 <= length F)%nat ->
  exists s' new x,
    run (world lib) (KFold_tutorial.fold (VRef rf) (VRef rt) (VRef ry)
                       (VInt (Z.of_nat i))) s = (s', inr tt)
    /\ trace s' = trace s ++ new
    /\ errors_of new = [VFloat x]
    /\ obs averaged_error new = []
    /\ store s' !! ry = Some (ys ++ [VFloat x])
    /\ store s' !! rf = Some (map VArr F)
    /\ store s' !! rt = Some (map VArr T).
Proof.
  intros HaF HaT Hf Ht Hy Hfy Hty Hi HT Hn.
  destruct (lookup_lt_is_Some_2 F i Hi) as [Fi EF].
  destruct (lookup_lt_is_Some_2 T i) as [Ti ET]; [lia|].
  assert (Hry := lookup_lt_Some _ _ _ Hy).
  assert (HF := fold_frame (world lib) rf rt ry (VInt (Z.of_nat i)) s rf
                  (lookup_lt_Some _ _ _ Hf) Hfy).
  assert (HT' := fold_frame (world lib) rf rt ry (VInt (Z.of_nat i)) s rt
                  (lookup_lt_Some _ _ _ Ht) Hty).
  revert HF HT'.
  unfold KFold_tutorial.fold, mbind, script_bind.
  rewrite run_bind, (compose_sets_run lib rf rt F T HaF HaT s i Hf Ht), EF, ET.
  cbv zeta.
  assert (HdF : length (delete i F) = (length F - 1)%nat) by (apply length_delete; eauto).
  assert (HdT : length (delete i T) = (length T - 1)%nat) by (apply length_delete; eauto).
  destruct (delete i F) as [|rows R] eqn:ED; [simpl in HdF; lia|].
  destruct (delete i T) as [|rows' R'] eqn:ED'; [simpl in HdT; lia|].
  cbv beta iota.
  set (s2 := log _ _ (log _ _ (popped F T i s))).
  assert (Hy2 : store s2 !! ry = Some ys).
  { unfold s2, popped, copied. simpl.
    rewrite !list_lookup_insert_ne by lia.
    by rewrite !lookup_app_l by (rewrite ?length_app; simpl; lia). }
  destruct (fold_rest_ok (VArr (concat (rows :: R))) (concat (rows' :: R'))
              (VArr Fi) (VArr Ti) ry ys s2 Hy2)
    as (s' & new & x & Hrun & Htr & He & Ho & Hst).
  rewrite Hrun. simpl. intros HF HT'.
  exists s', ((concat_call (rows :: R), inr (VArr (concat (rows :: R))))
              :: (concat_call (rows' :: R'), inr (VArr (concat (rows' :: R'))))
              :: new), x.
  split; [done|]. split; [rewrite Htr; simpl; by rewrite <- !app_assoc|].
  split; [exact He|]. split; [by rewrite !obs_cons, Ho|].
  split; [|split].
  - rewrite Hst. apply list_lookup_insert_eq. by apply lookup_lt_Some in Hy2.
  - exact (eq_trans HF Hf).
  - exact (eq_trans HT' Ht).
Qed.

Lemma cv_loop_ok rf rt ry F T :
  alike F -> alike T ->
  rf <> ry -> rt <> ry -> length T = length F -> (2 <= length F)%nat ->
  forall l ys s,
    Forall (fun i => (i < length F)%nat) l ->
    store s !! rf = Some (map VArr F) -> store s !! rt = Some (map VArr T) ->
    store s !! ry = Some ys ->
    exists s' new errs,
      run (world lib)
        (for_ l (fun i => KFold_tutorial.fold (VRef rf) (VRef rt) (VRef ry)
                            (VInt (Z.of_nat i)))) s = (s', inr tt)
      /\ trace s' = trace s ++ new
      /\ errors_of new = map VFloat errs
      /\ length errs = length l
      /\ obs averaged_error new = []
      /\ store s' !! ry = Some (ys ++ map VFloat errs).
Proof.
  intros HaF HaT Hfy Hty HT Hn l.
  induction l as [|i l IH]; intros ys s Hl Hf Ht Hy.
  - exists s, [], []. simpl. by rewrite !app_nil_r.
  - apply Forall_cons in Hl as [Hi Hl].
    destruct (fold_ok rf rt ry F T i ys s HaF HaT Hf Ht Hy Hfy Hty Hi HT Hn)
      as (s1 & new1 & x & Hrun1 & Htr1 & He1 & Ho1 & Hy1 & Hf1 & Ht1).
    destruct (IH (ys ++ [VFloat x]) s1 Hl Hf1 Ht1 Hy1)
      as (s2 & new2 & errs & Hrun2 & Htr2 & He2 & Hlen & Ho2 & Hy2).
    exists s2, (new1 ++ new2), (x :: errs).
    cbn [for_]. rewrite run_bind, Hrun1, Hrun2.
    split; [done|]. split; [by rewrite Htr2, Htr1, <- app_assoc|].
    split; [by rewrite errors_of_app, He1, He2|].
    split; [simpl; by rewrite Hlen|].
    split; [by rewrite obs_app, Ho1, Ho2|].
    rewrite Hy2. by rewrite <- app_assoc.
Qed.

Lemma cell_cv_ok rf rt F T s :
  alike F -> alike T ->
  store s !! rf = Some (map VArr F) -> store s !! rt = Some (map VArr T) ->
  length T = length F -> (2 <= length F)%nat ->
  exists s' new errs,
    run (world lib) (KFold_tutorial.cell_cv (VRef rf) (VRef rt)) s
      = (s', inr (VList (indices (length F)), VRef (length (store s))))
    /\ trace s' = trace s ++ new
    /\ errors_of new = map VFloat errs
    /\ length errs = length F
    /\ obs averaged_error new = []
    /\ store s' !! length (store s) = Some (map VFloat errs).
Proof.
  intros HaF HaT Hf Ht HT Hn.
  assert (Hrf := lookup_lt_Some _ _ _ Hf). assert (Hrt := lookup_lt_Some _ _ _ Ht).
  unfold KFold_tutorial.cell_cv, mbind, script_bind, mret, script_ret.
  cbn [bind py_len py_range run]. rewrite Hf.
  cbn [bind py_len py_range run]. rewrite length_map, Nat2Z.id, for_map, run_bind.
  destruct (cv_loop_ok rf rt (length (store s)) F T) with
    (l := seq 0 (length F)) (ys := @nil value) (s := alloc [] s)
    as (s' & new & errs & Hrun & Htr & He & Hlen & Ho & Hy); try lia; try done.
  - apply Forall_forall. intros i Hi%elem_of_seq. lia.
  - by rewrite store_alloc_old.
  - by rewrite store_alloc_old.
  - apply store_alloc_new.
  - exists s', new, errs. rewrite Hrun. simpl.
    rewrite length_seq in Hlen. by repeat split.
Qed.

Lemma run_sum_floats lib' s errs : forall acc,
  run lib' (sum_from (VFloat acc) (map VFloat errs)) s
  = (s, inr (VFloat (fold_left PrimFloat.add errs acc))).
Proof.
  induction errs as [|e errs IH]; intros acc; simpl; [done|].
  apply IH.
Qed.

Lemma run_sum lib' s errs :
  errs <> [] ->
  run lib' (sum_from (VInt 0) (map VFloat errs)) s
  = (s, inr (VFloat (fold_left PrimFloat.add errs (float_of_Z 0)))).
Proof.
  destruct errs as [|e errs]; [done|]. intros _. simpl.
  apply run_sum_floats.
Qed.

(** The analysis cell on the errors [errs] that [y] holds. *)
Lemma analysis_ok x ry errs s :
  store s !! ry = Some (map VFloat errs) -> errs <> [] ->
  Z.of_nat (length errs) <= 2 ^ 53 ->
  exists s' new,
    run (world lib) (KFold_tutorial.cell_analysis x (VRef ry)) s = (s', inr tt)
    /\ trace s' = trace s ++ new
    /\ errors_of new = []
    /\ obs averaged_error new = [[VFloat (mean_error errs)]]
    /\ store s' = store s
    /\ map (fun ev : event => fn ev.1) new
       = ["plt.figure"; "plt.plot"; "plt.xlabel"; "plt.ylabel"; "str.format"; "print"].
Proof.
  intros Hy Hne Hnz. destruct Hlib as (Hret & _ & _).
  assert (Hpos : 0 < Z.of_nat (length errs)) by (destruct errs; [done | simpl; lia]).
  unfold KFold_tutorial.cell_analysis, print, fmt, mbind, script_bind, mret,
    script_ret, ext, meth.
  cbn [bind extern py_sum py_iter py_len].
  set (c1 := Call "plt.figure" _ _ _).
  destruct (Hret (trace s) c1) as [v1 E1].
  rewrite (run_lib _ _ _ _ v1) by (by rewrite world_other).
  rewrite (run_get _ ry (map VFloat errs)) by exact Hy.
  set (c2 := Call "plt.plot" _ _ _).
  destruct (Hret (trace (log c1 (inr v1) s)) c2) as [v2 E2].
  rewrite (run_lib _ _ _ _ v2) by (by rewrite world_other).
  set (c3 := Call "plt.xlabel" _ _ _).
  destruct (Hret (trace (log c2 (inr v2) (log c1 (inr v1) s))) c3) as [v3 E3].
  rewrite (run_lib _ _ _ _ v3) by (by rewrite world_other).
  set (c4 := Call "plt.ylabel" _ _ _).
  set (s3 := log c3 _ _).
  destruct (Hret (trace s3) c4) as [v4 E4].
  rewrite (run_lib _ _ _ _ v4) by (by rewrite world_other).
  set (s4 := log c4 _ _).
  rewrite (run_get _ ry (map VFloat errs)) by exact Hy. cbn [bind].
  rewrite run_bind, run_sum by done. cbv beta iota.
  rewrite (run_get _ ry (map VFloat errs)) by exact Hy.
  cbn [bind py_float num_of to_float].
  rewrite length_map, exact_small by lia. cbn [bind].
  unfold py_truediv. cbn [num_of is_zero to_float].
  rewrite float_of_Z_nonzero by lia. cbn [bind].
  fold (mean_error errs).
  set (c5 := Call "str.format" _ _ _).
  destruct (Hret (trace s4) c5) as [v5 E5].
  rewrite (run_lib _ _ _ _ v5) by (by rewrite world_other).
  set (c6 := Call "print" _ _ _).
  destruct (Hret (trace (log c5 (inr v5) s4)) c6) as [v6 E6].
  rewrite (run_lib _ _ _ _ v6) by (by rewrite world_other).
  eexists _, [(c1, inr v1); (c2, inr v2); (c3, inr v3); (c4, inr v4);
              (c5, inr v5); (c6, inr v6)].
  split; [reflexivity|]. split; [simpl; by rewrite <- !app_assoc|].
  by repeat split.
Qed.
End Errors.

(** ** C4: the sets of the folds *)

Lemma train_features_of_folds F T l :
  omap train_features_of (flat_map (expected_fold F T) l)
  = map (fun i => VArr (concat (delete i F))) l.
Proof.
  induction l as [|i l IH]; [done|].
  cbn [flat_map map]. by rewrite omap_app, IH.
Qed.

Lemma train_targets_of_folds F T l :
  omap train_targets_of (flat_map (expected_fold F T) l)
  = map (fun i => VArr (concat (delete i T))) l.
Proof.
  induction l as [|i l IH]; [done|].
  cbn [flat_map map]. by rewrite omap_app, IH.
Qed.

Lemma training_sizes {A} (l0 l : list (list A)) :
  map (fun i => length (concat (delete i (l0 ++ l)))) (seq (length l0) (length l))
  = map (fun x => (length (concat (l0 ++ l)) - length x)%nat) l.
Proof.
  revert l0. induction l as [|x l IH]; intros l0; [done|].
  cbn [length seq map]. f_equal.
  - apply training_size. by apply list_lookup_middle.
  - specialize (IH (l0 ++ [x])). rewrite <- app_assoc, length_app in IH. simpl in IH.
    by rewrite Nat.add_1_r in IH.
Qed.



(** On the three subsets of the example the cell completes; the training
    sets of the three folds have 3, 4 and 3 points. *)
Example three_folds_complete :
  (run (world three_folds) (KFold_tutorial.cell_cv (VRef 0%nat) (VRef 1%nat))
     (split_state three_features three_targets)).2
  = inr (VList (indices 3), VRef 2%nat)
  /\ map points
       (omap train_targets_of
          (obs fold_inputs
             (trace (run (world three_folds)
                       (KFold_tutorial.cell_cv (VRef 0%nat) (VRef 1%nat))
                       (split_state three_features three_targets)).1)))
     = [3; 4; 3]%nat.
Proof. vm_compute. done. Qed.

(** A split whose subsets do not match in shape (two columns, three
    columns) stops the loop in its first fold: [np.concatenate] raises
    ValueError. *)
Example ragged_split_raises :
  (run (world three_folds) (KFold_tutorial.cell_cv (VRef 0%nat) (VRef 1%nat))
     (split_state [[VArr [VInt 1; VInt 2]]; [VArr [VInt 1; VInt 2; VInt 3]];
                   [VArr [VInt 1; VInt 2]]]
                  three_targets)).2
  = inl ValueError.
Proof. vm_compute. reflexivity. Qed.

(** ** C9: the averaged error *)

Lemma one_feature_alike : alike one_feature.
Proof. exists KInt, []. repeat constructor. Qed.

Lemma one_target_alike : alike one_target.
Proof. exists KFloat, []. repeat constructor. Qed.


(** The loop and the analysis on a split of at least two subsets. *)
Lemma cv_report_ok lib s rf rt F T :
  regression_ok lib -> alike F -> alike T ->
  store s !! rf = Some (map VArr F) -> store s !! rt = Some (map VArr T) ->
  length T = length F -> (2 <= length F)%nat -> Z.of_nat (length F) <= 2 ^ 53 ->
  exists s' new errs,
    run (world lib) (KFold_tutorial.cv_report (VRef rf) (VRef rt)) s = (s', inr tt)
    /\ trace s' = trace s ++ new
    /\ store s' !! length (store s) = Some (map VFloat errs)
    /\ errors_of new = map VFloat errs
    /\ length errs = length F
    /\ obs averaged_error new = [[VFloat (mean_error errs)]].
Proof.
  intros Hlib HaF HaT Hf Ht HT Hn Hb.
  destruct (cell_cv_ok lib Hlib rf rt F T s HaF HaT Hf Ht HT Hn)
    as (s1 & new1 & errs & Hrun1 & Htr1 & He1 & Hlen & Ho1 & Hy1).
  assert (Hne : errs <> []) by (intros ->; simpl in Hlen; lia).
  rewrite <- Hlen in Hb.
  destruct (analysis_ok lib Hlib (VList (indices (length F))) (length (store s))
              errs s1 Hy1 Hne Hb) as (s2 & new2 & Hrun2 & Htr2 & He2 & Ho2 & Hst & _).
  exists s2, (new1 ++ new2), errs.
  unfold KFold_tutorial.cv_report, mbind, script_bind.
  rewrite run_bind, Hrun1. cbv beta iota. rewrite Hrun2.
  split; [done|]. split; [by rewrite Htr2, Htr1, <- app_assoc|].
  split; [by rewrite Hst|].
  split; [by rewrite errors_of_app, He1, He2, app_nil_r|].
  split; [done | by rewrite obs_app, Ho1, Ho2].
Qed.



(** On the three subsets of the example, each with the error 0.5, the
    averaged error is 0.5. *)
Example three_folds_average :
  obs averaged_error
    (trace (run (world three_folds) (KFold_tutorial.cv_report (VRef 0%nat) (VRef 1%nat))
              (split_state three_features three_targets)).1)
  = [[VFloat 0.5]].
Proof. vm_compute. reflexivity. Qed.


(** * Further properties of the cells *)

(** ** The mask of the slab *)

(** The list comprehension [[atom.tag > 1 for atom in slab]] on atoms with
    integer tags. *)
Lemma run_mask lib atoms (tag : value -> Z) :
  (forall h a, a ∈ atoms ->
     lib h (Call "getattr" None [a; VStr "tag"] []) = inr (VInt (tag a))) ->
  forall s, exists s',
    run (world lib)
      (map_ (fun atom => bind (py_getattr atom "tag") (fun t => py_gt t (VInt 1))) atoms) s
    = (s', inr (map (fun a => VBool (1 <? tag a)) atoms)).
Proof.
  induction atoms as [|a atoms IH]; intros Htag s; [by exists s|].
  cbn [map_ map]. rewrite run_bind.
  assert (Ea : run (world lib)
                 (bind (py_getattr a "tag") (fun t => py_gt t (VInt 1))) s
               = (log (Call "getattr" None [a; VStr "tag"] []) (inr (VInt (tag a))) s,
                  inr (VBool (1 <? tag a)))).
  { unfold py_getattr, ext. cbn [bind].
    rewrite (run_lib _ _ _ _ (VInt (tag a))); [done|].
    rewrite world_other by done. apply Htag. left. }
  rewrite Ea. cbv beta iota. rewrite run_bind.
  destruct (IH (fun h b Hb => Htag h b (list_elem_of_further _ _ _ Hb))
              (log (Call "getattr" None [a; VStr "tag"] []) (inr (VInt (tag a))) s))
    as [s' Es].
  rewrite Es. by exists s'.
Qed.

Lemma fixed_mask_builtin : forall c, builtin c -> fixed_mask c = None.
Proof. builtin_quiet. Qed.

Lemma cell_slab_completes lib s slab atoms (tag : value -> Z) :
  (forall h c, fn c = "fcc100" -> lib h c = inr (VObj slab)) ->
  (forall h, lib h (Call "iter" None [VObj slab] []) = inr (VList atoms)) ->
  (forall h a, a ∈ atoms ->
     lib h (Call "getattr" None [a; VStr "tag"] []) = inr (VInt (tag a))) ->
  returns lib ->
  (run (world lib) MLNEB_tutorial.cell_slab s).2 = inr (VObj slab).
Proof.
  intros Hslab Hiter Htag Hret.
  unfold MLNEB_tutorial.cell_slab, import_from, ext, meth, mbind, script_bind,
    mret, script_ret.
  cbn [bind].
  lib_step Hret. lib_step Hret. lib_step Hret.
  rewrite Hslab in E1 by done. injection E1 as <-.
  lib_step Hret. lib_step Hret. cbn [py_iter bind]. lib_step Hret.
  rewrite Hiter in E3. injection E3 as <-. cbn [bind]. rewrite run_bind.
  match goal with
  | |- context [run _ (map_ _ _) ?s0] =>
      destruct (run_mask lib atoms tag Htag s0) as [s' Hrun]
  end.
  rewrite Hrun. cbv beta iota.
  lib_step Hret. lib_step Hret. done.
Qed.

(** X1: the mask that [FixAtoms] gets has one entry for each atom that
    iterating over the slab yields, in order, and the entry of an atom says
    whether its tag is greater than 1; when no call raises the cell
    completes with the slab. *)
Theorem mask_by_tag :
  forall lib s slab atoms (tag : value -> Z),
    (forall h c, fn c = "fcc100" -> lib h c = inr (VObj slab)) ->
    (forall h, lib h (Call "iter" None [VObj slab] []) = inr (VList atoms)) ->
    (forall h a, a ∈ atoms ->
       lib h (Call "getattr" None [a; VStr "tag"] []) = inr (VInt (tag a))) ->
    shows (world lib) fixed_mask
      [Some (VList (map (fun a => VBool (1 <? tag a)) atoms))]
      MLNEB_tutorial.cell_slab s
    /\ (returns lib ->
        (run (world lib) MLNEB_tutorial.cell_slab s).2 = inr (VObj slab)).
Proof.
  intros lib s slab atoms tag Hslab Hiter Htag.
  split; [|by apply (cell_slab_completes lib s slab atoms tag)].
  unfold MLNEB_tutorial.cell_slab, import_from, ext, meth, mbind, script_bind,
    mret, script_ret.
  cbn [bind].
  eapply shows_lib; [reflexivity|]. intros v1 _.
  eapply shows_lib; [reflexivity|]. intros v2 _.
  eapply shows_lib; [reflexivity|]. intros v3 E3.
  rewrite world_other, Hslab in E3 by done. injection E3 as <-.
  eapply shows_lib; [reflexivity|]. intros v4 _.
  eapply shows_lib; [reflexivity|]. intros v5 _.
  cbn [py_iter bind].
  eapply shows_lib; [reflexivity|]. intros v6 E6.
  rewrite world_other, Hiter in E6 by done. injection E6 as <-.
  cbn [bind].
  eapply (shows_bind _ _ _ []); [reflexivity| |].
  { apply shows_emits, emits_silent.
    sat_with fixed_mask_builtin ltac:(reflexivity). }
  intros s' mask Hrun.
  match type of Hrun with
  | run _ _ ?s0 = _ => destruct (run_mask lib atoms tag Htag s0) as [s'' Hrun']
  end.
  pose proof (eq_trans (eq_sym Hrun) Hrun') as E. injection E as _ ->.
  eapply shows_lib; [reflexivity|]. intros v7 _.
  eapply shows_lib; [reflexivity|]. intros v8 _.
  exists []. simpl. by rewrite app_nil_r.
Qed.

Lemma mask_by_tag_witness :
  shows (world layered) fixed_mask [Some (VList [VBool false; VBool true; VBool true])]
    MLNEB_tutorial.cell_slab init
  /\ (returns layered ->
      (run (world layered) MLNEB_tutorial.cell_slab init).2 = inr (VObj 0)).
Proof.
  apply (mask_by_tag layered init 0%nat [VObj 1; VObj 2; VObj 3] layer).
  - intros h c Hc. unfold layered. rewrite Hc. reflexivity.
  - reflexivity.
  - intros h a Ha.
    repeat (apply elem_of_cons in Ha as [->|Ha]; [reflexivity|]).
    by apply elem_of_nil in Ha.
Defined.

(** ** The final end-point *)

Lemma py_getitem_tuple v l : py_getitem v (VTuple l) = ext "getitem" [v; VTuple l] [].
Proof. by destruct v. Qed.

Lemma cell_endpoints_completes lib s slab atom x c :
  (forall h, lib h (Call "getitem" None [VObj slab; VInt (-1)] []) = inr atom) ->
  (forall h, lib h (Call "getattr" None [atom; VStr "x"] []) = inr (VFloat x)) ->
  (forall h cell,
     lib h (Call "getitem" None [cell; VTuple [VInt 0; VInt 0]] []) = inr (VFloat c)) ->
  returns lib ->
  (run (world lib) (MLNEB_tutorial.cell_endpoints (VObj slab)) s).2 = inr tt.
Proof.
  intros Hatom Hx Hc Hret.
  unfold MLNEB_tutorial.cell_endpoints, import_from, meth, mbind, script_bind,
    mret, script_ret, py_getattr, py_setattr.
  cbn [py_getitem]. unfold ext. cbn [bind].
  lib_step Hret. lib_step Hret. lib_step Hret. lib_step Hret.
  rewrite Hatom in E2. injection E2 as <-.
  lib_step Hret. rewrite Hx in E2. injection E2 as <-.
  lib_step Hret. rewrite py_getitem_tuple. unfold ext. cbn [bind].
  lib_step Hret. rewrite Hc in E3. injection E3 as <-.
  cbn [py_truediv num_of is_zero Z.eqb to_float]. change (exact 2) with true.
  cbn [py_add num_of to_float bind].
  lib_step Hret. lib_step Hret. lib_step Hret. done.
Qed.

(** X2: between the two relaxations the cell assigns to the attribute [x]
    of the last atom of the slab its old value plus half of the entry
    [0, 0] of the cell: [slab[-1].x += slab.get_cell()[0, 0] / 2].  The
    division raises nothing, and when no call raises the cell completes. *)
Theorem adatom_moved_half_cell :
  forall lib s slab atom x c,
    (forall h, lib h (Call "getitem" None [VObj slab; VInt (-1)] []) = inr atom) ->
    (forall h, lib h (Call "getattr" None [atom; VStr "x"] []) = inr (VFloat x)) ->
    (forall h cell,
       lib h (Call "getitem" None [cell; VTuple [VInt 0; VInt 0]] []) = inr (VFloat c)) ->
    shows (world lib) endpoint_steps
      [Relaxation (Some (VStr "initial.traj"));
       Assign (Some atom) (Some (VStr "x")) (Some (VFloat (x + c / 2)));
       Relaxation (Some (VStr "final.traj"))]
      (MLNEB_tutorial.cell_endpoints (VObj slab)) s
    /\ (returns lib ->
        (run (world lib) (MLNEB_tutorial.cell_endpoints (VObj slab)) s).2 = inr tt).
Proof.
  intros lib s slab atom x c Hatom Hx Hc.
  split; [|by apply (cell_endpoints_completes lib s slab atom x c)].
  unfold MLNEB_tutorial.cell_endpoints, import_from, meth, mbind, script_bind,
    mret, script_ret, py_getattr, py_setattr.
  cbn [py_getitem]. unfold ext. cbn [bind].
  eapply shows_lib; [reflexivity|]. intros v1 _.
  eapply shows_lib; [reflexivity|]. intros qn _.
  eapply shows_lib; [reflexivity|]. intros v2 _.
  eapply shows_lib; [reflexivity|]. intros v3 E3.
  rewrite world_other, Hatom in E3 by done. injection E3 as <-.
  eapply shows_lib; [reflexivity|]. intros v4 E4.
  rewrite world_other, Hx in E4 by done. injection E4 as <-.
  eapply shows_lib; [reflexivity|]. intros cell _.
  rewrite py_getitem_tuple. unfold ext. cbn [bind].
  eapply shows_lib; [reflexivity|]. intros v5 E5.
  rewrite world_other, Hc in E5 by done. injection E5 as <-.
  cbn [py_truediv num_of is_zero Z.eqb to_float]. change (exact 2) with true.
  cbn [py_add num_of to_float bind].
  eapply shows_lib; [reflexivity|]. intros v6 _.
  eapply shows_lib; [reflexivity|]. intros qn' _.
  eapply shows_lib; [reflexivity|]. intros v7 _.
  exists []. simpl. by rewrite app_nil_r.
Qed.

Lemma adatom_moved_half_cell_witness :
  shows (world layered) endpoint_steps
    [Relaxation (Some (VStr "initial.traj"));
     Assign (Some (VObj 9)) (Some (VStr "x")) (Some (VFloat 2));
     Relaxation (Some (VStr "final.traj"))]
    (MLNEB_tutorial.cell_endpoints (VObj 0)) init
  /\ (returns layered ->
      (run (world layered) (MLNEB_tutorial.cell_endpoints (VObj 0)) init).2 = inr tt).
Proof.
  apply (adatom_moved_half_cell layered init 0%nat (VObj 9) 0.5 3); reflexivity.
Defined.

(** ** Objects that are passed on *)

Lemma sat_assoc {A B C} P (p : script A) (g : A -> script B) (f : B -> script C) :
  sat P (bind p (fun a => bind (g a) f)) -> sat P (bind (bind p g) f).
Proof.
  induction p as [A a|A e|A c k IH|A l k IH|A r k IH|A r l k IH|A b IHb h IHh k IHk];
    simpl; try done.
  - intros [Hc Hk]. split; [done|]. intros v. by apply IH.
  - intros Hk r. by apply IH.
  - intros Hk l. by apply IH.
  - apply IH.
Qed.

Lemma sat_lib {A} (P : call -> Prop) c (k : value -> script A) :
  P c -> (forall v, sat P (k v)) -> sat P (Lib c k).
Proof. by split. Qed.

(** [sat_thread Hb tac]: as [sat_with], but a value that a cell returns is
    followed into the cells that use it. *)
Ltac thread_step Hb tac :=
  lazymatch goal with
  | |- sat _ (Lib _ _) => apply sat_lib; [ tac | intros ]
  | |- sat _ (bind (bind _ _) _) => apply sat_assoc
  | |- sat _ (bind (Ret _) _) => cbn [bind]
  | |- sat _ (bind (Lib _ _) _) => cbn [bind]
  | |- sat _ (bind (New _ _) _) => cbn [bind]
  | |- sat _ (bind (Get _ _) _) => cbn [bind]
  | |- sat _ (bind (Put _ _ _) _) => cbn [bind]
  | |- sat _ (bind (let '(_, _) := ?x in _) _) => destruct x
  | |- sat _ (bind ?p _) =>
      let h := head_of p in
      tryif is_helper h
      then (apply sat_bind; [ sat_with Hb tac | intros ])
      else unfold_script p
  | |- _ => sat_step Hb tac
  end.

Ltac sat_thread Hb tac := repeat thread_step Hb tac.

Lemma elem_of_obs {X} (key : call -> option X) tr u :
  u ∈ obs key tr -> exists ev, ev ∈ tr /\ key ev.1 = Some u.
Proof. unfold obs. by intros H%list_elem_of_omap. Qed.

Lemma results_of_app f tr1 tr2 :
  results_of f (tr1 ++ tr2) = results_of f tr1 ++ results_of f tr2.
Proof. apply omap_app. Qed.

Lemma results_of_others f tr :
  Forall (fun ev => fn ev.1 <> f) tr -> results_of f tr = [].
Proof.
  induction 1 as [|ev tr Hev _ IH]; [done|].
  apply String.eqb_neq in Hev.
  unfold results_of in *. cbn [omap list_omap]. by rewrite Hev.
Qed.

Lemma uses_after {A} lib f key v (p : script A) s u :
  sat (uses f key v) p ->
  results_of f (trace s) = [v] ->
  (forall w, w ∈ obs key (trace s) -> w = Some v) ->
  u ∈ obs key (trace (run lib p s).1) ->
  results_of f (trace (run lib p s).1) = [v] /\ u = Some v.
Proof.
  intros Hp Hf Hk. destruct (sat_run _ lib p s Hp) as (new & -> & HP & _).
  rewrite results_of_app, Hf, obs_app. intros [Hu|Hu]%elem_of_app.
  - split; [|by apply Hk]. rewrite results_of_others; [done|].
    eapply Forall_impl; [exact HP|]. by intros ev [H _].
  - split.
    + rewrite results_of_others; [done|].
      eapply Forall_impl; [exact HP|]. by intros ev [H _].
    + apply elem_of_obs in Hu as (ev & Hev & Hkey).
      rewrite Forall_forall in HP. destruct (HP ev Hev) as [_ [H|H]]; congruence.
Qed.

Lemma uses_builtin f key v :
  f ∉ builtins -> (forall c, builtin c -> key c = None) ->
  forall c, builtin c -> uses f key v c.
Proof.
  intros Hf Hkey c Hc. split; [|left; by apply Hkey].
  intros E. apply Hf. rewrite <- E. apply Hc.
Qed.

Lemma calculator_used_builtin : forall c, builtin c -> calculator_used c = None.
Proof. builtin_quiet. Qed.

Lemma not_builtin f : bool_decide (f ∈ builtins) = false -> f ∉ builtins.
Proof. by intros H%bool_decide_eq_false. Qed.

Ltac uses_call := split; [by simpl | first [by left | by right]].

(** X3: the calculator that [EMT()] returned is the one that every later
    call uses: [slab.set_calculator] gets it as its argument, and each of
    the four constructions [MLNEB(...)] as [ase_calc].  [EMT] is called
    once. *)
Theorem one_calculator :
  forall lib u,
    u ∈ obs calculator_used (trace (mlneb_run lib).1) ->
    exists calc,
      results_of "EMT" (trace (mlneb_run lib).1) = [calc] /\ u = Some calc.
Proof.
  intros lib u. unfold mlneb_run, MLNEB_tutorial.notebook, mbind, script_bind.
  unfold MLNEB_tutorial.cell_calculator, import_from, ext, mbind, script_bind.
  cbn [bind run]. rewrite world_other by reflexivity.
  destruct (lib _ _) as [e|v0]; [by intros H%elem_of_nil|].
  rewrite world_other by reflexivity.
  destruct (lib _ _) as [e|calc]; [by intros H%elem_of_nil|].
  intros Hu. exists calc. revert Hu. apply uses_after; [|done|by intros w H%elem_of_nil].
  sat_thread (uses_builtin "EMT" calculator_used calc
                (not_builtin "EMT" eq_refl) calculator_used_builtin) uses_call.
Qed.

Lemma one_calculator_witness :
  exists calc,
    results_of "EMT" (trace (mlneb_run three_folds).1) = [calc]
    /\ Some (VObj 1) = Some calc.
Proof.
  apply (one_calculator three_folds (Some (VObj 1))).
  vm_compute. left.
Defined.

(** Before the object is made: calls that neither make nor use it. *)
Section Made.
Context {B : Type} (lib : oracle) (f : string)
  (key : call -> option (option value)).

Lemma made_later {A} (p : script A) (g : A -> script B) s :
  sat (fun c => fn c <> f /\ key c = None) p -> unmade f key s ->
  (forall s' a, unmade f key s' -> made_once f key (run lib (g a) s')) ->
  made_once f key (run lib (bind p g) s).
Proof.
  unfold made_once, unmade. intros Hp [Hf Hk] Hg. rewrite run_bind.
  destruct (sat_run _ lib p s Hp) as (new & Ht & HP & _).
  assert (Hs : forall s', trace s' = trace s ++ new ->
               results_of f (trace s') = [] /\ obs key (trace s') = []).
  { intros s' ->. split.
    - rewrite results_of_app, Hf, results_of_others; [done|].
      eapply Forall_impl; [exact HP|]. by intros ev [H _].
    - rewrite obs_app, Hk, obs_silent; [done|].
      eapply Forall_impl; [exact HP|]. by intros ev [_ H]. }
  destruct (run lib p s) as [s' [e|a]]; simpl in Ht.
  - intros u Hu. simpl in Hu. destruct (Hs s' Ht) as [_ E]. rewrite E in Hu.
    by apply elem_of_nil in Hu.
  - by apply Hg, Hs.
Qed.

Lemma made_after c (k : value -> script B) s :
  fn c <> f -> key c = None -> unmade f key s ->
  (forall v s', unmade f key s' -> made_once f key (run lib (k v) s')) ->
  made_once f key (run lib (Lib c k) s).
Proof.
  intros Hc Hkey Hs Hk.
  apply (made_later (Lib c Ret) k s); [by split| done |].
  intros s' a. apply Hk.
Qed.

Lemma made_now c (k : value -> script B) s :
  fn c = f -> key c = None -> unmade f key s ->
  (forall v, sat (uses f key v) (k v)) ->
  made_once f key (run lib (Lib c k) s).
Proof.
  unfold made_once, unmade. intros Hc Hkey [Hf Hk] Hsat. cbn [run].
  destruct (lib (trace s) c) as [e|v] eqn:E.
  - intros u Hu. cbn [log trace fst] in Hu.
    rewrite obs_app, Hk, obs_cons in Hu. cbn [fst] in Hu. rewrite Hkey in Hu.
    by apply elem_of_nil in Hu.
  - intros u Hu. exists v. revert Hu. apply uses_after; [done | |].
    + cbn [log trace]. rewrite results_of_app, Hf. unfold results_of.
      cbn [omap list_omap fst snd]. apply String.eqb_eq in Hc. by rewrite Hc.
    + intros w Hw. cbn [log trace] in Hw.
      rewrite obs_app, Hk, obs_cons in Hw. cbn [fst] in Hw. rewrite Hkey in Hw.
      by apply elem_of_nil in Hw.
Qed.
End Made.

Lemma slab_used_builtin : forall c, builtin c -> slab_used c = None.
Proof. builtin_quiet. Qed.

(** X4: the slab that [fcc100] returned is the object of every later step:
    the adsorbate is added to it, it is centred, constrained and given the
    calculator, both relaxations [BFGS(slab, ...)] act on it, and its cell
    is the one read for the final end-point.  [fcc100] is called once. *)
Theorem one_slab :
  forall lib u,
    u ∈ obs slab_used (trace (mlneb_run lib).1) ->
    exists slab,
      results_of "fcc100" (trace (mlneb_run lib).1) = [slab] /\ u = Some slab.
Proof.
  intros lib. change (made_once "fcc100" slab_used (mlneb_run lib)).
  unfold mlneb_run, MLNEB_tutorial.notebook, mbind, script_bind.
  apply made_later; [|done|].
  { sat_with any_call_builtin ltac:(by split). }
  intros s calc Hs.
  unfold MLNEB_tutorial.cell_slab, import_from, ext, mbind, script_bind.
  cbn [bind].
  apply made_after; [done..|]. intros v1 s1 Hs1.
  apply made_after; [done..|]. intros v2 s2 Hs2.
  apply made_now; [done..|]. intros slab.
  sat_thread (uses_builtin "fcc100" slab_used slab
                (not_builtin "fcc100" eq_refl) slab_used_builtin) uses_call.
Qed.

Lemma one_slab_witness :
  exists slab,
    results_of "fcc100" (trace (mlneb_run three_folds).1) = [slab]
    /\ Some (VObj 4) = Some slab.
Proof.
  apply (one_slab three_folds (Some (VObj 4))).
  vm_compute. left.
Defined.

(** ** Constructions and runs of MLNEB *)

Lemma keeps_step_silent {A} (p : script A) :
  sat (fun c => fn c <> "MLNEB" /\ neb_run c = None) p -> keeps_step p.
Proof.
  intros Hp lib s. destruct (sat_run _ lib p s Hp) as (new & Ht & HP & _).
  exists new. split; [done|].
  assert (Hr : results_of "MLNEB" new = []).
  { apply results_of_others. eapply Forall_impl; [exact HP|]. by intros ev [H _]. }
  assert (Ho : obs neb_run new = []).
  { apply obs_silent. eapply Forall_impl; [exact HP|]. by intros ev [_ H]. }
  unfold in_step. rewrite Hr, Ho. destruct (run lib p s).2; simpl; [|done].
  split; [done | lia].
Qed.

Lemma keeps_step_bind {A B} (p : script A) (f : A -> script B) :
  keeps_step p -> (forall a, keeps_step (f a)) -> keeps_step (bind p f).
Proof.
  intros Hp Hf lib s. rewrite run_bind.
  destruct (Hp lib s) as (new1 & Ht1 & H1).
  destruct (run lib p s) as [s1 [e|a]]; simpl in *; [by exists new1|].
  destruct (Hf a lib s1) as (new2 & Ht2 & H2).
  exists (new1 ++ new2). rewrite Ht2, Ht1, <- app_assoc. split; [done|].
  unfold in_step in *. rewrite obs_app, results_of_app, map_app, H1.
  destruct (run lib (f a) s1).2; simpl in *.
  - destruct H2 as [Hpre Hlen]. split; [by apply prefix_app|].
    rewrite !length_app, length_map. lia.
  - by rewrite H2.
Qed.

(** A construction followed by the run of what was constructed. *)
Lemma keeps_step_cell kw kw' :
  keeps_step (bind (ext "MLNEB" [] kw) (fun neb_catlearn =>
                bind (meth "neb_catlearn.run" neb_catlearn [] kw') (fun _ => Ret tt))).
Proof.
  intros lib s. unfold ext, meth. cbn [bind run].
  destruct (lib (trace s) _) as [e|neb].
  - eexists [_]. split; [done|]. simpl. split; [apply prefix_nil | lia].
  - cbn [log trace]. destruct (lib _ _) as [e|v].
    + eexists [_; _]. cbn [fst log trace]. rewrite <- app_assoc.
      split; [done|]. unfold in_step. simpl. split; [by exists [] | lia].
    + eexists [_; _]. cbn [fst log trace]. rewrite <- !app_assoc.
      split; [done|]. done.
Qed.

Lemma neb_quiet_builtin :
  forall c, builtin c -> fn c <> "MLNEB" /\ neb_run c = None.
Proof.
  intros [f r a kw] (Hf & Hr & Hk); simpl in *; subst; unfold builtins in Hf.
  repeat (apply elem_of_cons in Hf as [->|Hf]; [by split|]).
  by apply elem_of_nil in Hf.
Qed.

Lemma mlneb_keeps_step : keeps_step MLNEB_tutorial.notebook.
Proof.
  unfold MLNEB_tutorial.notebook, mbind, script_bind.
  apply keeps_step_bind; [apply keeps_step_silent;
    sat_with neb_quiet_builtin ltac:(by split)|]. intros calc.
  apply keeps_step_bind; [apply keeps_step_silent;
    sat_with neb_quiet_builtin ltac:(by split)|]. intros slab.
  apply keeps_step_bind; [apply keeps_step_silent;
    sat_with neb_quiet_builtin ltac:(by split)|]. intros _.
  apply keeps_step_bind; [apply keeps_step_silent;
    sat_with neb_quiet_builtin ltac:(by split)|]. intros _.
  apply keeps_step_bind.
  { unfold MLNEB_tutorial.cell_run, mbind, script_bind, mret, script_ret.
    apply keeps_step_bind; [apply keeps_step_silent;
      sat_with neb_quiet_builtin ltac:(by split)|]. intros _.
    apply keeps_step_cell. }
  intros _.
  apply keeps_step_bind; [apply keeps_step_silent;
    sat_with neb_quiet_builtin ltac:(by split)|]. intros _.
  apply keeps_step_bind; [apply keeps_step_cell|]. intros _.
  apply keeps_step_bind; [apply keeps_step_cell|]. intros _.
  apply keeps_step_bind; [apply keeps_step_cell|]. intros _.
  apply keeps_step_silent. sat_with neb_quiet_builtin ltac:(by split).
Qed.

(** X5: the i-th call [neb_catlearn.run] runs the object that the i-th
    construction [MLNEB(...)] returned, and an object is run before the
    next one is constructed: every run, a restart included, is on a newly
    constructed object. *)
Theorem runs_in_step :
  forall lib,
    obs neb_run (trace (mlneb_run lib).1)
      `prefix_of` map Some (results_of "MLNEB" (trace (mlneb_run lib).1))
    /\ (length (results_of "MLNEB" (trace (mlneb_run lib).1))
        <= S (length (obs neb_run (trace (mlneb_run lib).1))))%nat
    /\ ((mlneb_run lib).2 = inr tt ->
        obs neb_run (trace (mlneb_run lib).1)
        = map Some (results_of "MLNEB" (trace (mlneb_run lib).1))).
Proof.
  intros lib.
  destruct (mlneb_keeps_step (world lib) init) as (new & Ht & Hs).
  change (run (world lib) MLNEB_tutorial.notebook init) with (mlneb_run lib) in *.
  destruct (mlneb_run lib) as [s r]. simpl in *. subst new.
  destruct r as [e|[]]; simpl in *.
  - destruct Hs as [Hp Hl]. split; [done|]. split; [done|]. done.
  - rewrite Hs. split; [done|]. split; [|done]. rewrite length_map. lia.
Qed.

(** In the world [three_folds] the four runs are on four objects. *)
Example four_runs :
  obs neb_run (trace (mlneb_run three_folds).1)
  = [Some (VObj 28); Some (VObj 32); Some (VObj 34); Some (VObj 36)].
Proof. vm_compute. reflexivity. Qed.

(** ** The prediction function *)

(** The run of [gp_predict] when the regression behaves. *)
Lemma gp_predict_run :
  forall lib s a rows c d,
    regression_ok lib ->
    exists gp kvs p kvs' x,
      assoc "prediction" kvs = Some p
      /\ assoc "rmse_average" kvs' = Some (VFloat x)
      /\ run (world lib) (KFold_tutorial.gp_predict a (VArr rows) c d) s
         = (State (store s)
              (trace s ++ zip (gp_calls a (VArr rows) c d gp p)
                              [inr gp; inr (VDict kvs); inr (VDict kvs')]),
            inr (VDict [("result", VFloat x);
                        ("size", VInt (Z.of_nat (length rows)))])).
Proof.
  intros lib s a rows c d (Hret & Hpred & Herr).
  unfold KFold_tutorial.gp_predict, mbind, script_bind, mret, script_ret, ext, meth.
  cbn [bind].
  set (c1 := Call "GaussianProcess" _ _ _).
  destruct (Hret (trace s) c1) as [gp Egp].
  rewrite (run_lib _ _ _ _ gp) by (by rewrite world_other).
  set (c2 := Call "gp.predict" _ _ _).
  destruct (Hpred (trace (log c1 (inr gp) s)) c2 eq_refl) as (kvs & p & Ep & Ea).
  rewrite (run_lib _ _ _ _ (VDict kvs)) by (by rewrite world_other).
  cbn [py_getitem]. rewrite Ea. cbn [bind].
  set (c3 := Call "get_error" _ _ _).
  destruct (Herr (trace (log c2 (inr (VDict kvs)) (log c1 (inr gp) s))) c3 eq_refl)
    as (kvs' & x & Ee & Ex).
  rewrite (run_lib _ _ _ _ (VDict kvs')) by (by rewrite world_other).
  cbn [py_getitem]. rewrite Ex. cbn [bind py_len run].
  exists gp, kvs, p, kvs', x. split; [done|]. split; [done|].
  unfold log. cbn [store trace]. by rewrite <- !app_assoc.
Qed.

(** X6: [gp_predict] makes three calls: it constructs the Gaussian process
    on the training sets with the kernel and settings of the notebook, asks
    it to predict the test features, and has [get_error] compare the
    prediction with the test targets.  It returns the dict with [result],
    the average error that [get_error] found, and [size], the number of
    training targets, and leaves the lists of the notebook alone. *)
Theorem gp_predict_result :
  forall lib s a rows c d,
    regression_ok lib ->
    exists gp kvs p kvs' x,
      assoc "prediction" kvs = Some p
      /\ assoc "rmse_average" kvs' = Some (VFloat x)
      /\ run (world lib) (KFold_tutorial.gp_predict a (VArr rows) c d) s
         = (State (store s)
              (trace s ++ zip (gp_calls a (VArr rows) c d gp p)
                              [inr gp; inr (VDict kvs); inr (VDict kvs')]),
            inr (VDict [("result", VFloat x);
                        ("size", VInt (Z.of_nat (length rows)))])).
Proof. exact gp_predict_run. Qed.

Lemma gp_predict_result_witness :
  exists gp kvs p kvs' x,
    assoc "prediction" kvs = Some p
    /\ assoc "rmse_average" kvs' = Some (VFloat x)
    /\ run (world three_folds)
         (KFold_tutorial.gp_predict (VArr [VInt 3; VInt 4]) (VArr [VFloat 0.3; VFloat 0.4])
            (VArr [VInt 1]) (VArr [VFloat 0.1])) init
       = (State (store init)
            (trace init
             ++ zip (gp_calls (VArr [VInt 3; VInt 4]) (VArr [VFloat 0.3; VFloat 0.4])
                       (VArr [VInt 1]) (VArr [VFloat 0.1]) gp p)
                    [inr gp; inr (VDict kvs); inr (VDict kvs')]),
          inr (VDict [("result", VFloat x); ("size", VInt (Z.of_nat 2))])).
Proof.
  apply (gp_predict_result three_folds init (VArr [VInt 3; VInt 4])
           [VFloat 0.3; VFloat 0.4] (VArr [VInt 1]) (VArr [VFloat 0.1])).
  apply demo_regression_ok.
Defined.

(** X7: a prediction without the key [prediction] ends [gp_predict] with
    KeyError, after the two calls of the Gaussian process and before any
    call of [get_error]. *)
Theorem gp_predict_needs_prediction :
  forall lib s a b c d,
    returns lib ->
    (forall h k, fn k = "gp.predict" ->
       exists kvs, lib h k = inr (VDict kvs) /\ assoc "prediction" kvs = None) ->
    (run (world lib) (KFold_tutorial.gp_predict a b c d) s).2 = inl KeyError
    /\ exists new,
         trace (run (world lib) (KFold_tutorial.gp_predict a b c d) s).1
           = trace s ++ new
         /\ map (fun ev : event => fn ev.1) new = ["GaussianProcess"; "gp.predict"].
Proof.
  intros lib s a b c d Hret Hpred.
  unfold KFold_tutorial.gp_predict, mbind, script_bind, mret, script_ret, ext, meth.
  cbn [bind].
  lib_step Hret.
  set (c2 := Call "gp.predict" _ _ _).
  match goal with
  | |- context [run _ _ ?s0] =>
      destruct (Hpred (trace s0) c2 eq_refl) as (kvs & Ep & Ea)
  end.
  rewrite (run_lib _ _ _ _ (VDict kvs)) by (by rewrite world_other).
  cbn [py_getitem]. rewrite Ea. cbn [bind run]. split; [done|].
  eexists [_; _]. cbn [log trace fst snd]. rewrite <- app_assoc. by split.
Qed.

Lemma no_prediction_returns : returns no_prediction.
Proof. intros h c. unfold no_prediction. case_match; eauto. Qed.

Lemma gp_predict_needs_prediction_witness :
  (run (world no_prediction)
     (KFold_tutorial.gp_predict (VArr []) (VArr []) (VArr []) (VArr [])) init).2
  = inl KeyError
  /\ exists new,
       trace (run (world no_prediction)
                (KFold_tutorial.gp_predict (VArr []) (VArr []) (VArr []) (VArr [])) init).1
         = trace init ++ new
       /\ map (fun ev : event => fn ev.1) new = ["GaussianProcess"; "gp.predict"].
Proof.
  apply (gp_predict_needs_prediction no_prediction init).
  - apply no_prediction_returns.
  - intros h k Hk. exists [("uncertainty", VArr [])].
    unfold no_prediction. rewrite Hk. split; reflexivity.
Defined.

(** ** The targets *)

Lemma run_for_app {A} lib (l1 l2 : list A) body s :
  run lib (for_ (l1 ++ l2) body) s =
  match run lib (for_ l1 body) s with
  | (s', inr _) => run lib (for_ l2 body) s'
  | (s', inl e) => (s', inl e)
  end.
Proof.
  revert s. induction l1 as [|a l1 IH]; intros s; [done|].
  cbn [app for_]. rewrite !run_bind.
  destruct (run lib (body a) s) as [s1 [e|u]]; [done|]. apply IH.
Qed.

(** One pass of the loop over the candidates:
    [targets.append(a.info['key_value_pairs']['raw_score'])]. *)
Lemma run_collect lib r a score ys s :
  info_of lib a score -> store s !! r = Some ys ->
  exists s',
    run (world lib)
      (info ← py_getattr a "info";
       pairs ← py_getitem info (VStr "key_value_pairs");
       score ← py_getitem pairs (VStr "raw_score");
       list_append "targets" (VRef r) score) s
    = (s', match score with Some _ => inr tt | None => inl KeyError end)
    /\ store s' = match score with
                  | Some x => <[r := ys ++ [x]]> (store s)
                  | None => store s
                  end.
Proof.
  intros Hinfo Hr.
  destruct (Hinfo (trace s)) as (kvs & kvs' & E & Ek & Es).
  unfold py_getattr, ext, mbind, script_bind. cbn [bind].
  rewrite (run_lib _ _ _ _ (VDict kvs)) by (by rewrite world_other).
  cbn [py_getitem]. rewrite Ek. cbn [bind py_getitem]. rewrite Es.
  destruct score as [x|]; cbn [bind list_append run log store].
  - rewrite Hr. cbn [run write store]. by eexists.
  - by eexists.
Qed.

Lemma run_collect_all lib r (score : value -> value) cands :
  (forall a, a ∈ cands -> info_of lib a (Some (score a))) ->
  forall ys s, store s !! r = Some ys ->
    exists s',
      run (world lib)
        (for_ cands (fun a =>
           info ← py_getattr a "info";
           pairs ← py_getitem info (VStr "key_value_pairs");
           score ← py_getitem pairs (VStr "raw_score");
           list_append "targets" (VRef r) score)) s
      = (s', inr tt)
      /\ store s' = <[r := ys ++ map score cands]> (store s).
Proof.
  induction cands as [|a cands IH]; intros Hinfo ys s Hr.
  - exists s. split; [done|]. rewrite app_nil_r.
    symmetry. by apply list_insert_id.
  - cbn [for_]. rewrite run_bind.
    destruct (run_collect lib r a (Some (score a)) ys s) as (s1 & E1 & Hs1);
      [apply Hinfo; left | done |].
    rewrite E1. cbv beta iota.
    destruct (IH (fun b Hb => Hinfo b (list_elem_of_further _ _ _ Hb))
                (ys ++ [score a]) s1) as (s2 & E2 & Hs2).
    { rewrite Hs1. apply list_lookup_insert_eq. by apply lookup_lt_Some in Hr. }
    exists s2. split; [done|].
    rewrite Hs2, Hs1, list_insert_insert_eq. by rewrite <- app_assoc.
Qed.

(** The data cell in a world where no call raises and every candidate has
    a raw score. *)
Lemma cell_data_run lib s cands (score : value -> value) :
  returns lib ->
  (forall h c, fn c = "gadb.get_all_relaxed_candidates" ->
     lib h c = inr (VList cands)) ->
  (forall a, a ∈ cands -> info_of lib a (Some (score a))) ->
  exists s' features,
    run (world lib) KFold_tutorial.cell_data s
      = (s', inr (features, VRef (length (store s))))
    /\ store s' = store s ++ [map score cands]
    /\ exists h fgen vec,
         lib h (Call "fgen.return_vec" (Some fgen) [VList cands; VList [vec]] [])
         = inr features.
Proof.
  intros Hret Hcand Hinfo.
  unfold KFold_tutorial.cell_data, fmt, print, meth, py_getattr.
  unfold mbind, script_bind, mret, script_ret, ext. cbn [bind].
  lib_step Hret. lib_step Hret. rewrite Hcand in E0 by done. injection E0 as <-.
  cbn [py_len bind].
  do 8 lib_step Hret.
  cbn [run py_iter bind store log]. rewrite run_bind.
  match goal with
  | |- context [run _ (for_ _ _) ?s0] =>
      destruct (run_collect_all lib (length (store s)) score cands Hinfo [] s0)
        as (s1 & Erun & Hs1);
        [cbn [alloc store log]; by rewrite lookup_app_r, Nat.sub_diag|]
  end.
  unfold py_getattr, ext, mbind, script_bind in Erun. cbn [bind] in Erun.
  rewrite Erun. cbv beta iota. cbn [extern bind].
  assert (Hst : store s1 = store s ++ [map score cands]).
  { rewrite Hs1. cbn [alloc store log app].
    rewrite insert_app_r_alt, Nat.sub_diag by done. done. }
  rewrite (run_get _ _ (map score cands))
    by (rewrite Hst; by rewrite lookup_app_r, Nat.sub_diag).
  do 3 lib_step Hret. cbn [run].
  eexists _, _. split; [reflexivity|]. split; [exact Hst|]. eauto.
Qed.

(** X8: when no call raises and every candidate of the database has a raw
    score, the data cell completes; it returns the features that
    [fgen.return_vec] made of the candidates, and the list [targets] it
    creates holds the raw scores of the candidates, one for each and in the
    order of the database. *)
Theorem targets_collected :
  forall lib s cands (score : value -> value),
    returns lib ->
    (forall h c, fn c = "gadb.get_all_relaxed_candidates" ->
       lib h c = inr (VList cands)) ->
    (forall a, a ∈ cands -> info_of lib a (Some (score a))) ->
    exists s' features,
      run (world lib) KFold_tutorial.cell_data s
        = (s', inr (features, VRef (length (store s))))
      /\ store s' = store s ++ [map score cands]
      /\ exists h fgen vec,
           lib h (Call "fgen.return_vec" (Some fgen) [VList cands; VList [vec]] [])
           = inr features.
Proof. intros lib s cands score. apply cell_data_run. Qed.

Lemma database_returns cands score : returns (database cands score).
Proof. intros h c. unfold database. repeat case_match; eauto. Qed.

Lemma database_info cands score a : info_of (database cands score) a (score a).
Proof.
  intros h. eexists _, _. split; [reflexivity|]. split; [reflexivity|].
  by destruct (score a).
Qed.

Lemma targets_collected_witness :
  exists s' features,
    run (world (database [VObj 1; VObj 2] two_scores)) KFold_tutorial.cell_data init
      = (s', inr (features, VRef (length (store init))))
    /\ store s' = store init ++ [map (score_or_none two_scores) [VObj 1; VObj 2]]
    /\ exists h fgen vec,
         database [VObj 1; VObj 2] two_scores h
           (Call "fgen.return_vec" (Some fgen) [VList [VObj 1; VObj 2]; VList [vec]] [])
         = inr features.
Proof.
  apply (targets_collected (database [VObj 1; VObj 2] two_scores) init
           [VObj 1; VObj 2] (score_or_none two_scores)).
  - apply database_returns.
  - intros h c Hc. unfold database. by rewrite Hc.
  - intros a Ha.
    repeat (apply elem_of_cons in Ha as [->|Ha];
            [exact (database_info _ two_scores _)|]).
    by apply elem_of_nil in Ha.
Defined.

(** X9: a candidate without a raw score ends the data cell with KeyError;
    [targets] then holds the scores of the candidates before it, and
    nothing of the candidates after it is read. *)
Theorem missing_score_stops :
  forall lib s good bad rest (score : value -> value),
    returns lib ->
    (forall h c, fn c = "gadb.get_all_relaxed_candidates" ->
       lib h c = inr (VList (good ++ bad :: rest))) ->
    (forall a, a ∈ good -> info_of lib a (Some (score a))) ->
    info_of lib bad None ->
    exists s' info,
      run (world lib) KFold_tutorial.cell_data s = (s', inl KeyError)
      /\ store s' = store s ++ [map score good]
      /\ last (trace s') = Some (Call "getattr" None [bad; VStr "info"] [], inr info).
Proof.
  intros lib s good bad rest score Hret Hcand Hgood Hbad.
  unfold KFold_tutorial.cell_data, fmt, print, meth, py_getattr.
  unfold mbind, script_bind, mret, script_ret, ext. cbn [bind].
  lib_step Hret. lib_step Hret. rewrite Hcand in E0 by done. injection E0 as <-.
  cbn [py_len bind].
  do 8 lib_step Hret.
  cbn [run py_iter bind store log]. rewrite run_bind, run_for_app.
  match goal with
  | |- context [run _ (for_ good _) ?s0] =>
      destruct (run_collect_all lib (length (store s)) score good Hgood [] s0)
        as (s1 & Erun & Hs1);
        [cbn [alloc store log]; by rewrite lookup_app_r, Nat.sub_diag|]
  end.
  unfold py_getattr, ext, mbind, script_bind in Erun. cbn [bind] in Erun.
  rewrite Erun. cbv beta iota. cbn [for_]. rewrite run_bind.
  assert (Hst : store s1 = store s ++ [map score good]).
  { rewrite Hs1. cbn [alloc store log app].
    rewrite insert_app_r_alt, Nat.sub_diag by done. done. }
  destruct (Hbad (trace s1)) as (kvs & kvs' & Eb & Ek & Es).
  rewrite (run_lib _ _ _ _ (VDict kvs)) by (by rewrite world_other).
  cbn [py_getitem]. rewrite Ek. cbn [bind py_getitem]. rewrite Es.
  cbn [bind run]. eexists _, _. split; [reflexivity|]. split; [exact Hst|].
  cbn [log trace]. apply last_snoc.
Qed.

Lemma missing_score_stops_witness :
  exists s' info,
    run (world (database [VObj 1; VObj 3; VObj 2] two_scores)) KFold_tutorial.cell_data
      init = (s', inl KeyError)
    /\ store s' = store init ++ [map (score_or_none two_scores) [VObj 1]]
    /\ last (trace s')
       = Some (Call "getattr" None [VObj 3; VStr "info"] [], inr info).
Proof.
  apply (missing_score_stops (database [VObj 1; VObj 3; VObj 2] two_scores) init
           [VObj 1] (VObj 3) [VObj 2] (score_or_none two_scores)).
  - apply database_returns.
  - intros h c Hc. unfold database. by rewrite Hc.
  - intros a Ha.
    repeat (apply elem_of_cons in Ha as [->|Ha];
            [exact (database_info _ two_scores _)|]).
    by apply elem_of_nil in Ha.
  - exact (database_info _ two_scores (VObj 3)).
Defined.


(** ** An empty split *)

Lemma zero_count : is_zero (NFloat (float_of_Z 0)) = true.
Proof. reflexivity. Qed.

Ltac quiet_trace :=
  cbn [log alloc trace fst snd]; rewrite ?obs_app; cbn; rewrite ?app_nil_r; done.

(** [must_return E]: a call that raised, [E], contradicts that no call
    raises. *)
Ltac must_return E :=
  let H := fresh in
  intros H; rewrite world_other in E by reflexivity;
  match type of E with
  | ?lib ?h ?c = _ => destruct (H h c) as [? ?]; congruence
  end.

(** X11: when [fsplit] holds no subset the loop runs no fold, the plot
    gets two empty lists, and the average [sum(y)/float(len(y))] divides
    by zero: the run always ends in an exception (ZeroDivisionError when
    no call raises), no averaged error is formatted and no regression is
    asked for. *)
Theorem empty_split_divides_by_zero :
  forall lib s rf rt,
    store s !! rf = Some [] ->
    (exists e, (run (world lib) (KFold_tutorial.cv_report (VRef rf) (VRef rt)) s).2
               = inl e)
    /\ (returns lib ->
        (run (world lib) (KFold_tutorial.cv_report (VRef rf) (VRef rt)) s).2
        = inl ZeroDivisionError)
    /\ obs averaged_error
         (trace (run (world lib) (KFold_tutorial.cv_report (VRef rf) (VRef rt)) s).1)
       = obs averaged_error (trace s)
    /\ obs fold_inputs
         (trace (run (world lib) (KFold_tutorial.cv_report (VRef rf) (VRef rt)) s).1)
       = obs fold_inputs (trace s).
Proof.
  intros lib s rf rt Hf.
  set (P := fun res : state * (exn + unit) =>
              (exists e, res.2 = inl e)
              /\ (returns lib -> res.2 = inl ZeroDivisionError)
              /\ obs averaged_error (trace res.1) = obs averaged_error (trace s)
              /\ obs fold_inputs (trace res.1) = obs fold_inputs (trace s)).
  change (P (run (world lib) (KFold_tutorial.cv_report (VRef rf) (VRef rt)) s)).
  unfold KFold_tutorial.cv_report, KFold_tutorial.cell_cv,
    mbind, script_bind, mret, script_ret.
  cbn [bind py_len run]. rewrite Hf.
  cbn [length py_range bind run]. rewrite Nat2Z.id. cbn [seq map for_ bind run].
  unfold KFold_tutorial.cell_analysis, print, fmt, meth.
  unfold mbind, script_bind, mret, script_ret, ext.
  cbn [bind extern py_sum py_iter py_len py_float].
  assert (Hy : store (alloc [] s) !! length (store s) = Some [])
    by apply store_alloc_new.
  apply run_lib_cases; [intros e E | intros v1 E1].
  { repeat split; [by eexists | must_return E | quiet_trace..]. }
  rewrite (run_get _ _ []) by exact Hy.
  apply run_lib_cases; [intros e E | intros v2 E2].
  { repeat split; [by eexists | must_return E | quiet_trace..]. }
  apply run_lib_cases; [intros e E | intros v3 E3].
  { repeat split; [by eexists | must_return E | quiet_trace..]. }
  apply run_lib_cases; [intros e E | intros v4 E4].
  { repeat split; [by eexists | must_return E | quiet_trace..]. }
  rewrite (run_get _ _ []) by exact Hy. cbn [sum_from bind].
  rewrite (run_get _ _ []) by exact Hy.
  cbn [length bind]. change (Z.of_nat 0) with 0.
  cbn [py_float num_of to_float]. change (exact 0) with true. cbn [bind].
  unfold py_truediv. cbn [num_of]. rewrite zero_count. cbn [bind run].
  repeat split; [by eexists | quiet_trace..].
Qed.

Lemma empty_split_divides_by_zero_witness :
  (exists e, (run (world three_folds) (KFold_tutorial.cv_report (VRef 0%nat) (VRef 1%nat))
                (split_state [] [])).2 = inl e)
  /\ (returns three_folds ->
      (run (world three_folds) (KFold_tutorial.cv_report (VRef 0%nat) (VRef 1%nat))
         (split_state [] [])).2 = inl ZeroDivisionError)
  /\ obs averaged_error
       (trace (run (world three_folds)
                 (KFold_tutorial.cv_report (VRef 0%nat) (VRef 1%nat))
                 (split_state [] [])).1)
     = obs averaged_error (trace (split_state [] []))
  /\ obs fold_inputs
       (trace (run (world three_folds)
                 (KFold_tutorial.cv_report (VRef 0%nat) (VRef 1%nat))
                 (split_state [] [])).1)
     = obs fold_inputs (trace (split_state [] [])).
Proof.
  apply (empty_split_divides_by_zero three_folds (split_state [] []) 0%nat 1%nat).
  reflexivity.
Defined.

(** ** Fewer subsets of targets than of features *)

Section Short.
Variable lib : oracle.
Hypothesis Hlib : regression_ok lib.
Variables (rf rt ry : loc) (F T : list (list value)).
Hypotheses (Hfy : rf <> ry) (Hty : rt <> ry) (HaF : alike F) (HaT : alike T).

(** A fold on a subset that both lists have. *)
Lemma fold_both i ys s :
  store s !! rf = Some (map VArr F) -> store s !! rt = Some (map VArr T) ->
  store s !! ry = Some ys ->
  (i < length F)%nat -> (i < length T)%nat ->
  (2 <= length F)%nat -> (2 <= length T)%nat ->
  exists s' x,
    run (world lib) (KFold_tutorial.fold (VRef rf) (VRef rt) (VRef ry)
                       (VInt (Z.of_nat i))) s = (s', inr tt)
    /\ store s' !! ry = Some (ys ++ [VFloat x])
    /\ store s' !! rf = Some (map VArr F)
    /\ store s' !! rt = Some (map VArr T).
Proof.
  intros Hf Ht Hy Hi Hi' Hn Hn'.
  destruct (lookup_lt_is_Some_2 F i Hi) as [Fi EF].
  destruct (lookup_lt_is_Some_2 T i Hi') as [Ti ET].
  assert (Hry := lookup_lt_Some _ _ _ Hy).
  assert (HF := fold_frame (world lib) rf rt ry (VInt (Z.of_nat i)) s rf
                  (lookup_lt_Some _ _ _ Hf) Hfy).
  assert (HT' := fold_frame (world lib) rf rt ry (VInt (Z.of_nat i)) s rt
                  (lookup_lt_Some _ _ _ Ht) Hty).
  revert HF HT'.
  unfold KFold_tutorial.fold, mbind, script_bind.
  rewrite run_bind, (compose_sets_run lib rf rt F T HaF HaT s i Hf Ht), EF, ET.
  cbv zeta.
  assert (HdF : length (delete i F) = (length F - 1)%nat)
    by (apply length_delete; eauto).
  assert (HdT : length (delete i T) = (length T - 1)%nat)
    by (apply length_delete; eauto).
  destruct (delete i F) as [|rows R] eqn:ED; [simpl in HdF; lia|].
  destruct (delete i T) as [|rows' R'] eqn:ED'; [simpl in HdT; lia|].
  cbv beta iota.
  set (s2 := log _ _ (log _ _ (popped F T i s))).
  assert (Hy2 : store s2 !! ry = Some ys).
  { unfold s2, popped, copied. simpl.
    rewrite !list_lookup_insert_ne by lia.
    by rewrite !lookup_app_l by (rewrite ?length_app; simpl; lia). }
  destruct (fold_rest_ok lib Hlib (VArr (concat (rows :: R))) (concat (rows' :: R'))
              (VArr Fi) (VArr Ti) ry ys s2 Hy2)
    as (s' & new & x & Hrun & Htr & He & Ho & Hst).
  rewrite Hrun. simpl. intros HF HT'.
  exists s', x. split; [done|]. split; [|split].
  - rewrite Hst. apply list_lookup_insert_eq. by apply lookup_lt_Some in Hy2.
  - exact (eq_trans HF Hf).
  - exact (eq_trans HT' Ht).
Qed.

Lemma folds_both l :
  (2 <= length F)%nat -> (2 <= length T)%nat ->
  forall ys s,
    Forall (fun i => (i < length F)%nat /\ (i < length T)%nat) l ->
    store s !! rf = Some (map VArr F) -> store s !! rt = Some (map VArr T) ->
    store s !! ry = Some ys ->
    exists s' errs,
      run (world lib)
        (for_ l (fun i => KFold_tutorial.fold (VRef rf) (VRef rt) (VRef ry)
                            (VInt (Z.of_nat i)))) s = (s', inr tt)
      /\ length errs = length l
      /\ store s' !! ry = Some (ys ++ map VFloat errs)
      /\ store s' !! rf = Some (map VArr F)
      /\ store s' !! rt = Some (map VArr T).
Proof.
  intros Hn Hn'. induction l as [|i l IH]; intros ys s Hl Hf Ht Hy.
  - exists s, []. simpl. by rewrite app_nil_r.
  - apply Forall_cons in Hl as [[Hi Hi'] Hl].
    destruct (fold_both i ys s Hf Ht Hy Hi Hi' Hn Hn')
      as (s1 & x & Hrun1 & Hy1 & Hf1 & Ht1).
    destruct (IH (ys ++ [VFloat x]) s1 Hl Hf1 Ht1 Hy1)
      as (s2 & errs & Hrun2 & Hlen & Hy2 & Hf2 & Ht2).
    exists s2, (x :: errs). cbn [for_]. rewrite run_bind, Hrun1, Hrun2.
    split; [done|]. split; [simpl; by rewrite Hlen|].
    split; [|done]. rewrite Hy2. by rewrite <- app_assoc.
Qed.
End Short.

(** X12: when [tsplit] holds fewer subsets than [fsplit] (and not just
    one), the subsets are arrays that are alike and the regression
    behaves, the folds that both have complete, and the next fold ends the
    loop with IndexError at [tcopy.pop(index)]; [y] then holds one error
    for each subset of targets. *)
Theorem short_targets_index_error :
  forall lib s rf rt F T,
    regression_ok lib -> alike F -> alike T ->
    store s !! rf = Some (map VArr F) -> store s !! rt = Some (map VArr T) ->
    (length T < length F)%nat -> length T <> 1%nat ->
    exists s' errs,
      run (world lib) (KFold_tutorial.cell_cv (VRef rf) (VRef rt)) s
        = (s', inl IndexError)
      /\ store s' !! length (store s) = Some (map VFloat errs)
      /\ length errs = length T.
Proof.
  intros lib s rf rt F T Hlib HaF HaT Hf Ht Hlt Hne.
  assert (Hrf := lookup_lt_Some _ _ _ Hf). assert (Hrt := lookup_lt_Some _ _ _ Ht).
  unfold KFold_tutorial.cell_cv, mbind, script_bind, mret, script_ret.
  cbn [bind py_len py_range run]. rewrite Hf.
  cbn [bind py_len py_range run]. rewrite length_map, Nat2Z.id, for_map, run_bind.
  replace (length F) with (length T + S (length F - length T - 1))%nat by lia.
  rewrite seq_app, run_for_app. cbn [seq].
  set (ry := length (store s)).
  assert (Hfirst : exists s1 errs,
            run (world lib)
              (for_ (seq 0 (length T))
                 (fun i => KFold_tutorial.fold (VRef rf) (VRef rt) (VRef ry)
                             (VInt (Z.of_nat i)))) (alloc [] s) = (s1, inr tt)
            /\ length errs = length T
            /\ store s1 !! ry = Some (map VFloat errs)
            /\ store s1 !! rf = Some (map VArr F)
            /\ store s1 !! rt = Some (map VArr T)).
  { destruct (decide (length T = 0%nat)) as [E|E].
    - rewrite E. exists (alloc [] s), []. cbn [seq for_ run].
      split; [done|]. split; [done|]. split; [apply store_alloc_new|].
      split; by rewrite store_alloc_old.
    - destruct (folds_both lib Hlib rf rt ry) with
        (F := F) (T := T) (l := seq 0 (length T)) (ys := @nil value) (s := alloc [] s)
        as (s1 & errs & Hrun & Hlen & Hy & Hf1 & Ht1);
        try (unfold ry; lia); try assumption.
      + apply Forall_forall. intros i Hi%elem_of_seq. lia.
      + by rewrite store_alloc_old.
      + by rewrite store_alloc_old.
      + apply store_alloc_new.
      + exists s1, errs. rewrite length_seq in Hlen. by repeat split. }
  destruct Hfirst as (s1 & errs & Hrun & Hlen & Hy & Hf1 & Ht1).
  rewrite Hrun. cbv beta iota. cbn [for_]. rewrite run_bind.
  unfold KFold_tutorial.fold at 1. unfold mbind, script_bind.
  rewrite run_bind, (compose_sets_run lib rf rt F T HaF HaT s1 _ Hf1 Ht1).
  destruct (lookup_lt_is_Some_2 F (0 + length T)) as [Fi EF]; [lia|].
  rewrite EF, (lookup_ge_None_2 T (0 + length T)) by lia.
  eexists _, errs. split; [reflexivity|]. split; [|done].
  assert (Hry := lookup_lt_Some _ _ _ Hy).
  unfold copied. cbn [write alloc store].
  rewrite list_lookup_insert_ne by lia.
  by rewrite !lookup_app_l by (rewrite ?length_app; simpl; lia).
Qed.

Lemma short_targets_index_error_witness :
  exists s' errs,
    run (world three_folds) (KFold_tutorial.cell_cv (VRef 0%nat) (VRef 1%nat))
      (split_state three_features (take 2 three_targets)) = (s', inl IndexError)
    /\ store s' !! length (store (split_state three_features (take 2 three_targets)))
       = Some (map VFloat errs)
    /\ length errs = length (take 2 three_targets).
Proof.
  apply (short_targets_index_error three_folds
           (split_state three_features (take 2 three_targets)) 0%nat 1%nat
           three_features (take 2 three_targets)).
  - apply demo_regression_ok.
  - apply three_features_alike.
  - apply alike_take, three_targets_alike.
  - reflexivity.
  - reflexivity.
  - simpl. lia.
  - simpl. lia.
Defined.

(** ** What is plotted *)

Lemma plotted_builtin : forall c, builtin c -> plotted c = None.
Proof. builtin_quiet. Qed.

Lemma errors_of_others tr :
  Forall (fun ev : event => fn ev.1 <> "get_error") tr -> errors_of tr = [].
Proof.
  induction 1 as [|[c o] tr Hev _ IH]; [done|].
  apply String.eqb_neq in Hev. cbn [fst] in Hev.
  unfold errors_of in *. cbn [omap list_omap fst]. by rewrite Hev.
Qed.

Lemma quiet_builtin (key : call -> option (list value)) :
  (forall c, builtin c -> key c = None) ->
  forall c, builtin c -> key c = None /\ fn c <> "get_error".
Proof.
  intros Hkey c Hc. split; [by apply Hkey|].
  destruct c as [f r a kw]. destruct Hc as (Hf & _). simpl in *.
  unfold builtins in Hf.
  repeat (apply elem_of_cons in Hf as [->|Hf]; [done|]).
  by apply elem_of_nil in Hf.
Qed.

(** The analysis cell plots [x] against the contents of [y]. *)
Lemma analysis_plots lib x ry ys s :
  returns lib -> store s !! ry = Some ys ->
  exists new,
    trace (run (world lib) (KFold_tutorial.cell_analysis x (VRef ry)) s).1
      = trace s ++ new
    /\ obs plotted new = [[x; VList ys; VStr "-"]]
    /\ errors_of new = [].
Proof.
  intros Hret Hy.
  unfold KFold_tutorial.cell_analysis, print, fmt, meth.
  unfold mbind, script_bind, mret, script_ret, ext. cbn [bind extern].
  lib_step Hret. rewrite (run_get _ _ ys) by exact Hy.
  apply run_lib_cases with (P := fun res =>
    exists new, trace res.1 = trace s ++ new
                /\ obs plotted new = [[x; VList ys; VStr "-"]]
                /\ errors_of new = []).
  { intros e _. eexists [_; _]. cbn [log trace fst]. rewrite <- app_assoc.
    by repeat split. }
  intros v1 _.
  match goal with
  | |- context [run ?l ?p ?s0] =>
      destruct (sat_run (fun c => plotted c = None /\ fn c <> "get_error") l p s0)
        as (new & Ht & HP & _);
        [sat_thread (quiet_builtin plotted plotted_builtin) ltac:(by split)|]
  end.
  rewrite Ht. eexists (_ :: _ :: new). cbn [log trace]. rewrite <- !app_assoc.
  split; [reflexivity|]. split.
  - rewrite !obs_cons, obs_silent; [done|].
    eapply Forall_impl; [exact HP|]. by intros ev [H _].
  - change (errors_of new = []). apply errors_of_others.
    eapply Forall_impl; [exact HP|]. by intros ev [_ H].
Qed.

Lemma regression_returns lib : regression_ok lib -> returns lib.
Proof. by intros [H _]. Qed.

(** X13: on a split with at least two subsets, as many of targets as of
    features and arrays that are alike, and with a regression that
    behaves, the plot of the analysis cell gets, as [x], the indices
    0, 1, ... of the subsets and, as [y], the errors that [get_error]
    found for the folds, one for each index and in the same order. *)
Theorem plot_of_folds :
  forall lib s rf rt F T,
    regression_ok lib -> alike F -> alike T ->
    store s !! rf = Some (map VArr F) -> store s !! rt = Some (map VArr T) ->
    length T = length F -> (2 <= length F)%nat ->
    exists new errs,
      trace (run (world lib) (KFold_tutorial.cv_report (VRef rf) (VRef rt)) s).1
        = trace s ++ new
      /\ errors_of new = map VFloat errs
      /\ length errs = length F
      /\ obs plotted new
         = [[VList (indices (length F)); VList (map VFloat errs); VStr "-"]].
Proof.
  intros lib s rf rt F T Hlib HaF HaT Hf Ht HT Hn.
  destruct (cell_cv_ok lib Hlib rf rt F T s HaF HaT Hf Ht HT Hn)
    as (s1 & new1 & errs & Hrun1 & Htr1 & He1 & Hlen & _ & Hy1).
  destruct (sat_run (fun c => plotted c = None) (world lib)
              (KFold_tutorial.cell_cv (VRef rf) (VRef rt)) s)
    as (new1' & Ht1' & HP & _).
  { sat_with plotted_builtin ltac:(reflexivity). }
  rewrite Hrun1 in Ht1'. cbn [fst] in Ht1'. rewrite Htr1 in Ht1'.
  apply app_inv_head in Ht1'. subst new1'.
  destruct (analysis_plots lib (VList (indices (length F))) (length (store s))
              (map VFloat errs) s1 (regression_returns lib Hlib) Hy1)
    as (new2 & Htr2 & Hp2 & He2).
  exists (new1 ++ new2), errs.
  unfold KFold_tutorial.cv_report, mbind, script_bind.
  rewrite run_bind, Hrun1. cbv beta iota. rewrite Htr2, Htr1, <- app_assoc.
  split; [done|]. split; [by rewrite errors_of_app, He1, He2, app_nil_r|].
  split; [done|]. rewrite obs_app, Hp2, obs_silent; done.
Qed.

Lemma plot_of_folds_witness :
  exists new errs,
    trace (run (world three_folds) (KFold_tutorial.cv_report (VRef 0%nat) (VRef 1%nat))
             (split_state three_features three_targets)).1
      = trace (split_state three_features three_targets) ++ new
    /\ errors_of new = map VFloat errs
    /\ length errs = length three_features
    /\ obs plotted new
       = [[VList (indices (length three_features)); VList (map VFloat errs); VStr "-"]].
Proof.
  apply (plot_of_folds three_folds (split_state three_features three_targets)
           0%nat 1%nat three_features three_targets).
  - apply demo_regression_ok.
  - apply three_features_alike.
  - apply three_targets_alike.
  - reflexivity.
  - reflexivity.
  - reflexivity.
  - simpl. lia.
Defined.

(** ** The split in the notebook *)

Lemma confined_extern W v : confined W (extern v).
Proof. by destruct v. Qed.

Lemma confined_py_iter W v : confined W (py_iter v).
Proof. destruct v; simpl; try done; intros w; by destruct w. Qed.

Lemma confined_py_unpack2 W v : confined W (py_unpack2 v).
Proof.
  apply confined_bind; [apply confined_py_iter|].
  intros W' items _. by repeat case_match.
Qed.

Lemma confined_py_range W n : confined W (py_range n).
Proof.
  destruct n; simpl; try done; intros v; apply (confined_bind W (Ret v) py_iter);
    try done; intros; apply confined_py_iter.
Qed.

Lemma confined_lib {A} W c (k : value -> script A) :
  (forall v, confined W (k v)) -> confined W (Lib c k).
Proof. done. Qed.

(** [reads_only]: the script writes to no list object that exists. *)
Ltac reads_step :=
  lazymatch goal with
  | |- confined _ (Ret _) => exact I
  | |- confined _ (Lib _ _) => apply confined_lib; intros
  | |- confined _ (bind _ _) => apply confined_bind; [ | intros ? ? _ ]
  | |- confined _ (for_ _ _) => apply confined_for; intros
  | |- confined _ (extern _) => apply confined_extern
  | |- confined _ (py_getitem _ _) => apply confined_py_getitem
  | |- confined _ (py_len _) => apply confined_py_len
  | |- confined _ (py_iter _) => apply confined_py_iter
  | |- confined _ (py_unpack2 _) => apply confined_py_unpack2
  | |- confined _ (py_range _) => apply confined_py_range
  | |- confined _ (let '(_, _) := ?x in _) => destruct x
  | |- confined _ ?p => unfold_script p
  end.

Ltac reads_only := repeat reads_step.

Lemma print_shapes_reads W split : confined W (KFold_tutorial.print_shapes split).
Proof. reads_only. Qed.

Lemma cell_save_reads W fsplit tsplit :
  confined W (KFold_tutorial.cell_save fsplit tsplit).
Proof. reads_only. Qed.

Lemma extern_state lib v s s' t : run lib (extern v) s = (s', inr t) -> s' = s.
Proof.
  destruct v; simpl; try (by intros [= <- _]).
  destruct (store s !! r); by intros [= <- _].
Qed.

(** The split that the cell binds is the one that [k_fold] returned. *)
Lemma cell_split_result lib features targets F T s s' fs ts :
  splits_into lib F T ->
  run (world lib) (KFold_tutorial.cell_split features targets) s = (s', inr (fs, ts)) ->
  fs = VRef (length (store s)) /\ ts = VRef (S (length (store s)))
  /\ store s' !! length (store s) = Some (map VArr F)
  /\ store s' !! S (length (store s)) = Some (map VArr T).
Proof.
  intros Hk. unfold KFold_tutorial.cell_split, mbind, script_bind, mret, script_ret.
  intros (s1 & t & Et & H)%run_bind_inr. apply extern_state in Et as ->.
  unfold ext in H. cbn [bind run] in H. rewrite world_other, Hk in H by done.
  cbn [py_unpack2 py_iter bind intern run] in H.
  set (s2 := alloc _ (alloc _ _)) in H.
  assert (H1 : store s2 !! length (store s) = Some (map VArr F)).
  { unfold s2. cbn [alloc store log].
    rewrite lookup_app_l by (rewrite length_app; simpl; lia).
    by rewrite lookup_app_r, Nat.sub_diag. }
  assert (H2 : store s2 !! S (length (store s)) = Some (map VArr T)).
  { unfold s2. cbn [alloc store log].
    rewrite lookup_app_r; rewrite length_app; simpl; [|lia].
    by replace (S (length (store s)) - (length (store s) + 1))%nat with 0%nat by lia. }
  cbn [log alloc store] in H.
  match type of H with
  | run ?l ?p _ = _ =>
      assert (Hc : confined [] p);
        [ reads_only; apply print_shapes_reads |
          assert (Hst := fun r => confined_run l [] p s2 r Hc) ]
  end.
  rewrite H in Hst. cbn [fst] in Hst.
  repeat (apply run_bind_inr in H as (? & ? & _ & H)).
  cbn [run] in H. injection H as _ <- <-.
  split; [done|]. split; [f_equal; rewrite length_app; simpl; lia|].
  rewrite !Hst; [done | | apply not_elem_of_nil | | apply not_elem_of_nil].
  - by apply lookup_lt_Some in H2.
  - by apply lookup_lt_Some in H1.
Qed.

Lemma saved_builtin : forall c, builtin c -> saved c = None.
Proof. builtin_quiet. Qed.

Lemma shows_from_init {X A} lib (key : call -> option X) L (p : script A) :
  shows lib key L p init ->
  follows (obs key (trace (run lib p init).1)) (run lib p init).2 L.
Proof. by intros (new & -> & H). Qed.

Ltac quiet_for Hb := apply shows_emits, emits_silent; sat_with Hb ltac:(reflexivity).

Lemma demo_splits F T err : splits_into (demo F T err) F T.
Proof. intros h c Hc. unfold demo. by rewrite Hc. Qed.

(** X15: what [write_split] writes to kfoldSave.json is the split as
    [k_fold] returned it: its subsets of features and of targets, in their
    order. *)
Theorem split_saved_as_returned :
  forall lib F T,
    splits_into lib F T ->
    follows (obs saved (trace (kfold_run lib).1)) (kfold_run lib).2
      [[("features", VList (map VArr F)); ("targets", VList (map VArr T));
        ("fname", VStr "kfoldSave"); ("fformat", VStr "json")]].
Proof.
  intros lib F T Hk. apply shows_from_init.
  unfold KFold_tutorial.notebook, mbind, script_bind.
  eapply (shows_bind _ _ _ []); [reflexivity | quiet_for saved_builtin |].
  intros s1 [] _.
  eapply (shows_bind _ _ _ []); [reflexivity | quiet_for saved_builtin |].
  intros s2 [features targets] _.
  eapply (shows_bind _ _ _ []); [reflexivity | quiet_for saved_builtin |].
  intros s3 [fs ts] (-> & -> & Hf & Ht)%(cell_split_result _ _ _ F T); [|done].
  eapply (shows_bind _ _ _ _ []); [by rewrite app_nil_r | |].
  - unfold KFold_tutorial.cell_save, mbind, script_bind, mret, script_ret.
    cbn [extern bind]. unfold shows.
    rewrite (run_get _ _ _ _ _ Hf), (run_get _ _ _ _ _ Ht).
    apply shows_emits. emits_with saved_builtin.
  - intros s4 [] _. apply shows_emits. emits_with saved_builtin.
Qed.

Lemma split_saved_as_returned_witness :
  follows (obs saved (trace (kfold_run three_folds).1)) (kfold_run three_folds).2
    [[("features", VList (map VArr three_features));
      ("targets", VList (map VArr three_targets));
      ("fname", VStr "kfoldSave"); ("fformat", VStr "json")]].
Proof.
  apply (split_saved_as_returned three_folds three_features three_targets).
  apply demo_splits.
Defined.


(** ** What [k_fold] is asked *)

Lemma split_request_builtin : forall c, builtin c -> split_request c = None.
Proof. builtin_quiet. Qed.

Lemma imports_run lib s :
  returns lib ->
  exists s', run (world lib) KFold_tutorial.cell_imports s = (s', inr tt)
             /\ store s' = store s.
Proof.
  intros Hret.
  unfold KFold_tutorial.cell_imports, import_from, import_as.
  unfold mbind, script_bind, mret, script_ret, ext. cbn [bind].
  do 10 lib_step Hret. cbn [run]. by eexists.
Qed.

(** The trace of a script whose calls a key does not select. *)
Lemma quiet_run {X A} lib (key : call -> option X) (p : script A) s s' r :
  sat (fun c => key c = None) p -> run lib p s = (s', r) ->
  obs key (trace s') = obs key (trace s).
Proof.
  intros Hp E. destruct (sat_run _ lib p s Hp) as (new & Ht & HP & _).
  rewrite E in Ht. cbn [fst] in Ht. rewrite Ht, obs_app, (obs_silent _ _ HP).
  apply app_nil_r.
Qed.

(** X16: when no call raises, [k_fold] is called once, with the features
    that [fgen.return_vec] returned, with the raw scores of the candidates
    as targets, in the order of the database, and with [nsplit=5]. *)
Theorem k_fold_request :
  forall lib cands (score : value -> value) features,
    returns lib ->
    (forall h c, fn c = "gadb.get_all_relaxed_candidates" ->
       lib h c = inr (VList cands)) ->
    (forall a, a ∈ cands -> info_of lib a (Some (score a))) ->
    (forall h c, fn c = "fgen.return_vec" -> lib h c = inr features) ->
    obs split_request (trace (kfold_run lib).1)
    = [[("features", features); ("targets", VList (map score cands));
        ("nsplit", VInt 5)]].
Proof.
  intros lib cands score features Hret Hcand Hinfo Hfeat.
  unfold kfold_run, KFold_tutorial.notebook, mbind, script_bind.
  destruct (imports_run lib init Hret) as (s1 & E1 & Hs1).
  assert (Hq1 : obs split_request (trace s1) = obs split_request (trace init)).
  { eapply quiet_run; [|exact E1]. sat_with split_request_builtin ltac:(reflexivity). }
  rewrite run_bind, E1. cbv beta iota.
  destruct (cell_data_run lib s1 cands score Hret Hcand Hinfo)
    as (s2 & features' & E2 & Hs2 & h & fgen & vec & Ef).
  rewrite Hfeat in Ef by done. injection Ef as <-.
  assert (Hq2 : obs split_request (trace s2) = obs split_request (trace s1)).
  { eapply quiet_run; [|exact E2]. sat_with split_request_builtin ltac:(reflexivity). }
  rewrite run_bind, E2. cbv beta iota.
  unfold KFold_tutorial.cell_split at 1. unfold mbind, script_bind, ext.
  cbn [extern bind].
  rewrite (run_get _ _ (map score cands))
    by (rewrite Hs2; by rewrite lookup_app_r, Nat.sub_diag).
  apply run_lib_cases with (P := fun res =>
    obs split_request (trace res.1)
    = [[("features", features); ("targets", VList (map score cands));
        ("nsplit", VInt 5)]]).
  { intros e _. cbn [log trace fst]. rewrite obs_app, Hq2, Hq1. done. }
  intros v _.
  match goal with
  | |- context [run ?l ?p ?s0] =>
      destruct (sat_run (fun c => split_request c = None) l p s0)
        as (new & Ht & HP & _);
        [sat_thread split_request_builtin ltac:(reflexivity)|]
  end.
  rewrite Ht, obs_app, (obs_silent _ _ HP). cbn [log trace].
  rewrite obs_app, Hq2, Hq1. done.
Qed.

Lemma k_fold_request_witness :
  obs split_request (trace (kfold_run (database [VObj 1; VObj 2] two_scores)).1)
  = [[("features", VObj 0);
      ("targets", VList (map (score_or_none two_scores) [VObj 1; VObj 2]));
      ("nsplit", VInt 5)]].
Proof.
  apply (k_fold_request (database [VObj 1; VObj 2] two_scores) [VObj 1; VObj 2]
           (score_or_none two_scores) (VObj 0)).
  - apply database_returns.
  - intros h c Hc. unfold database. by rewrite Hc.
  - intros a Ha.
    repeat (apply elem_of_cons in Ha as [->|Ha];
            [exact (database_info _ two_scores _)|]).
    by apply elem_of_nil in Ha.
  - intros h c Hc. unfold database. by rewrite Hc.
Defined.

(** ** The report of the subsets *)

(** One line of the report: [print('    subset {0} has shape
    {1}'.format(index, np.shape(split[index])))]. *)
Lemma report_line lib r l i x s :
  store s !! r = Some l -> l !! i = Some x ->
  store (run (world lib)
           (subset ← py_getitem (VRef r) (VInt (Z.of_nat i));
            shape ← ext "np.shape" [subset] [];
            s ← fmt "    subset {0} has shape {1}" [VInt (Z.of_nat i); shape];
            print s) s).1 = store s
  /\ shows (world lib) report_steps [Measured [x]; Line (Some (VInt (Z.of_nat i)))]
       (subset ← py_getitem (VRef r) (VInt (Z.of_nat i));
        shape ← ext "np.shape" [subset] [];
        s ← fmt "    subset {0} has shape {1}" [VInt (Z.of_nat i); shape];
        print s) s
  /\ (returns lib ->
      (run (world lib)
         (subset ← py_getitem (VRef r) (VInt (Z.of_nat i));
          shape ← ext "np.shape" [subset] [];
          s ← fmt "    subset {0} has shape {1}" [VInt (Z.of_nat i); shape];
          print s) s).2 = inr tt).
Proof.
  intros Hr Hi.
  unfold print, fmt, meth, mbind, script_bind, mret, script_ret, ext.
  cbn [py_getitem bind]. unfold shows. rewrite (run_get _ _ _ _ _ Hr).
  unfold seq_item. rewrite py_index_nat, decide_True by (by eapply lookup_lt_Some).
  rewrite Hi. cbn [bind run].
  destruct (world lib (trace s) _) as [e|v1] eqn:E1.
  { split; [done|]. split; [|must_return E1].
    eexists [_]. split; [done|]. by eexists [_]. }
  destruct (world lib (trace (log _ _ s)) _) as [e|v2] eqn:E2.
  { split; [done|]. split; [|must_return E2].
    eexists [_; _]. cbn [log trace fst]. rewrite <- app_assoc. split; [done|].
    by exists []. }
  destruct (world lib (trace (log _ _ (log _ _ s))) _) as [e|v3] eqn:E3.
  { split; [done|]. split; [|must_return E3].
    eexists [_; _; _]. cbn [log trace fst]. rewrite <- !app_assoc. split; [done|].
    by exists []. }
  split; [done|]. split; [|done].
  eexists [_; _; _]. cbn [log trace fst]. rewrite <- !app_assoc. by split.
Qed.

Lemma report_loop lib r l2 :
  forall l1 s, store s !! r = Some (l1 ++ l2) ->
    store (run (world lib)
             (for_ (seq (length l1) (length l2)) (fun i =>
                subset ← py_getitem (VRef r) (VInt (Z.of_nat i));
                shape ← ext "np.shape" [subset] [];
                s ← fmt "    subset {0} has shape {1}" [VInt (Z.of_nat i); shape];
                print s)) s).1 = store s
    /\ shows (world lib) report_steps (report_from (length l1) l2)
         (for_ (seq (length l1) (length l2)) (fun i =>
            subset ← py_getitem (VRef r) (VInt (Z.of_nat i));
            shape ← ext "np.shape" [subset] [];
            s ← fmt "    subset {0} has shape {1}" [VInt (Z.of_nat i); shape];
            print s)) s
    /\ (returns lib ->
        (run (world lib)
           (for_ (seq (length l1) (length l2)) (fun i =>
              subset ← py_getitem (VRef r) (VInt (Z.of_nat i));
              shape ← ext "np.shape" [subset] [];
              s ← fmt "    subset {0} has shape {1}" [VInt (Z.of_nat i); shape];
              print s)) s).2 = inr tt).
Proof.
  induction l2 as [|x l2 IH]; intros l1 s Hr.
  { cbn [length seq for_ run report_from]. split; [done|]. split; [|done].
    exists []. by rewrite app_nil_r. }
  cbn [length seq for_ report_from].
  destruct (report_line lib r (l1 ++ x :: l2) (length l1) x s Hr
              (list_lookup_middle _ _ _ _ eq_refl)) as (Hst & Hsh & Hret).
  assert (Hr' : forall s', store s' = store s ->
                  store s' !! r = Some ((l1 ++ [x]) ++ l2)).
  { intros s' ->. by rewrite <- app_assoc. }
  split; [|split].
  - rewrite run_bind. revert Hst.
    destruct (run (world lib) _ s) as [s1 [e|[]]]; cbn [fst]; [done|]. intros Hst.
    destruct (IH (l1 ++ [x]) s1 (Hr' _ Hst)) as (Hst' & _).
    rewrite length_app, Nat.add_1_r in Hst'. by rewrite Hst'.
  - eapply (shows_bind _ _ _ [_; _]); [reflexivity | exact Hsh |].
    intros s1 [] E. rewrite E in Hst. cbn [fst] in Hst.
    destruct (IH (l1 ++ [x]) s1 (Hr' _ Hst)) as (_ & Hsh' & _).
    by rewrite length_app, Nat.add_1_r in Hsh'.
  - intros Hlib. specialize (Hret Hlib). rewrite run_bind. revert Hst Hret.
    destruct (run (world lib) _ s) as [s1 [e|[]]]; cbn [fst snd]; [done|].
    intros Hst _.
    destruct (IH (l1 ++ [x]) s1 (Hr' _ Hst)) as (_ & _ & Hret').
    rewrite length_app, Nat.add_1_r in Hret'. by apply Hret'.
Qed.

Lemma print_shapes_run lib s r l :
  store s !! r = Some l ->
  shows (world lib) report_steps (report_from 0 l)
    (KFold_tutorial.print_shapes (VRef r)) s
  /\ store (run (world lib) (KFold_tutorial.print_shapes (VRef r)) s).1 = store s
  /\ (returns lib ->
      (run (world lib) (KFold_tutorial.print_shapes (VRef r)) s).2 = inr tt).
Proof.
  intros Hr.
  destruct (report_loop lib r l [] s Hr) as (Hst & Hsh & Hret).
  assert (E : run (world lib) (KFold_tutorial.print_shapes (VRef r)) s
              = run (world lib)
                  (for_ (seq 0 (length l)) (fun i =>
                     subset ← py_getitem (VRef r) (VInt (Z.of_nat i));
                     shape ← ext "np.shape" [subset] [];
                     s ← fmt "    subset {0} has shape {1}" [VInt (Z.of_nat i); shape];
                     print s)) s).
  { unfold KFold_tutorial.print_shapes, mbind, script_bind.
    cbn [py_len bind run]. rewrite Hr. cbn [py_range bind].
    by rewrite Nat2Z.id, for_map. }
  unfold shows in *. rewrite E. by repeat split.
Qed.

(** X17: the report of a split asks [np.shape] for the shape of each
    subset, in order, and formats one line for each with its index, from 0
    on; no index is out of range, the lists are left as they are, and when
    no call raises the report completes. *)
Theorem subsets_reported :
  forall lib s r l,
    store s !! r = Some l ->
    shows (world lib) report_steps (report_from 0 l)
      (KFold_tutorial.print_shapes (VRef r)) s
    /\ store (run (world lib) (KFold_tutorial.print_shapes (VRef r)) s).1 = store s
    /\ (returns lib ->
        (run (world lib) (KFold_tutorial.print_shapes (VRef r)) s).2 = inr tt).
Proof. intros lib s r l. apply print_shapes_run. Qed.

Lemma subsets_reported_witness :
  shows (world three_folds) report_steps (report_from 0 (map VArr three_features))
    (KFold_tutorial.print_shapes (VRef 0%nat))
    (split_state three_features three_targets)
  /\ store (run (world three_folds) (KFold_tutorial.print_shapes (VRef 0%nat))
              (split_state three_features three_targets)).1
     = store (split_state three_features three_targets)
  /\ (returns three_folds ->
      (run (world three_folds) (KFold_tutorial.print_shapes (VRef 0%nat))
         (split_state three_features three_targets)).2 = inr tt).
Proof.
  apply (subsets_reported three_folds (split_state three_features three_targets)
           0%nat (map VArr three_features)).
  reflexivity.
Defined.

(** ** A split that is not a pair *)

(** X18: [fsplit, tsplit = k_fold(...)] needs exactly two values: when
    [k_fold] returns a tuple of another length the cell ends with
    ValueError right after the call; no list is made of the result and
    nothing is printed. *)
Theorem split_needs_pair :
  forall lib s features rt ts items,
    (forall h c, fn c = "k_fold" -> lib h c = inr (VTuple items)) ->
    length items <> 2%nat ->
    store s !! rt = Some ts ->
    run (world lib) (KFold_tutorial.cell_split features (VRef rt)) s
    = (log (Call "k_fold" None []
              [("features", features); ("targets", VList ts); ("nsplit", VInt 5)])
         (inr (VTuple items)) s,
       inl ValueError).
Proof.
  intros lib s features rt ts items Hk Hn Ht.
  unfold KFold_tutorial.cell_split, mbind, script_bind, mret, script_ret, ext.
  cbn [extern bind]. rewrite (run_get _ _ _ _ _ Ht).
  rewrite (run_lib _ _ _ _ (VTuple items)) by (rewrite world_other by done; by apply Hk).
  cbn [py_unpack2 py_iter bind].
  destruct items as [|a [|b [|c items]]]; try done.
Qed.

Lemma split_needs_pair_witness :
  run (world (fun _ _ => inr (VTuple [VNone])))
    (KFold_tutorial.cell_split VNone (VRef 0%nat)) (State [[VNone]] [])
  = (log (Call "k_fold" None []
            [("features", VNone); ("targets", VList [VNone]); ("nsplit", VInt 5)])
       (inr (VTuple [VNone])) (State [[VNone]] []),
     inl ValueError).
Proof.
  apply (split_needs_pair (fun _ _ => inr (VTuple [VNone])) (State [[VNone]] [])
           VNone 0%nat [VNone] [VNone]).
  - reflexivity.
  - simpl. lia.
  - reflexivity.
Defined.

(** ** More subsets of targets than of features *)

(** X19: subsets of targets beyond those of features do not stop the
    loop: with at least two subsets of features and at least as many of
    targets, arrays that are alike, and a regression that behaves, every
    fold completes, and the cell returns the indices of the subsets of
    features and the list [y] with one error for each. *)
Theorem surplus_targets_pass :
  forall lib s rf rt F T,
    regression_ok lib -> alike F -> alike T ->
    store s !! rf = Some (map VArr F) -> store s !! rt = Some (map VArr T) ->
    (2 <= length F)%nat -> (length F <= length T)%nat ->
    exists s' errs,
      run (world lib) (KFold_tutorial.cell_cv (VRef rf) (VRef rt)) s
        = (s', inr (VList (indices (length F)), VRef (length (store s))))
      /\ store s' !! length (store s) = Some (map VFloat errs)
      /\ length errs = length F.
Proof.
  intros lib s rf rt F T Hlib HaF HaT Hf Ht Hn Hle.
  assert (Hrf := lookup_lt_Some _ _ _ Hf). assert (Hrt := lookup_lt_Some _ _ _ Ht).
  unfold KFold_tutorial.cell_cv, mbind, script_bind, mret, script_ret.
  cbn [bind py_len py_range run]. rewrite Hf.
  cbn [bind py_len py_range run]. rewrite length_map, Nat2Z.id, for_map, run_bind.
  destruct (folds_both lib Hlib rf rt (length (store s))) with
    (F := F) (T := T) (l := seq 0 (length F)) (ys := @nil value) (s := alloc [] s)
    as (s1 & errs & Hrun & Hlen & Hy & _); try lia; try assumption.
  - apply Forall_forall. intros i Hi%elem_of_seq. lia.
  - by rewrite store_alloc_old.
  - by rewrite store_alloc_old.
  - apply store_alloc_new.
  - exists s1, errs. rewrite Hrun. cbn [run]. rewrite length_seq in Hlen.
    by repeat split.
Qed.

Lemma surplus_targets_pass_witness :
  exists s' errs,
    run (world three_folds) (KFold_tutorial.cell_cv (VRef 0%nat) (VRef 1%nat))
      (split_state (take 2 three_features) three_targets)
      = (s', inr (VList (indices (length (take 2 three_features))),
                  VRef (length (store (split_state (take 2 three_features)
                                         three_targets)))))
    /\ store s' !! length (store (split_state (take 2 three_features) three_targets))
       = Some (map VFloat errs)
    /\ length errs = length (take 2 three_features).
Proof.
  apply (surplus_targets_pass three_folds
           (split_state (take 2 three_features) three_targets) 0%nat 1%nat
           (take 2 three_features) three_targets).
  - apply demo_regression_ok.
  - apply alike_take, three_features_alike.
  - apply three_targets_alike.
  - reflexivity.
  - reflexivity.
  - simpl. lia.
  - simpl. lia.
Defined.

(** ** The notebook in a world that behaves *)

Lemma cell_split_run lib features rt ts F T s :
  returns lib -> splits_into lib F T -> store s !! rt = Some ts ->
  exists s',
    run (world lib) (KFold_tutorial.cell_split features (VRef rt)) s
      = (s', inr (VRef (length (store s)), VRef (S (length (store s)))))
    /\ store s' = store s ++ [map VArr F; map VArr T].
Proof.
  intros Hret Hk Ht.
  unfold KFold_tutorial.cell_split, fmt, print, meth.
  unfold mbind, script_bind, mret, script_ret, ext.
  cbn [extern bind]. rewrite (run_get _ _ _ _ _ Ht).
  rewrite (run_lib _ _ _ _ (VTuple [VList (map VArr F); VList (map VArr T)]))
    by (rewrite world_other by done; by apply Hk).
  cbn [py_unpack2 py_iter bind intern run store log alloc].
  set (s2 := alloc _ (alloc _ _)).
  assert (Hs2 : store s2 = store s ++ [map VArr F; map VArr T]).
  { unfold s2. cbn [store alloc log]. by rewrite <- app_assoc. }
  assert (H1 : store s2 !! length (store s) = Some (map VArr F)).
  { rewrite Hs2. by rewrite lookup_app_r, Nat.sub_diag. }
  assert (H2 : store s2 !! length (store s ++ [map VArr F]) = Some (map VArr T)).
  { rewrite Hs2, length_app. cbn [length].
    rewrite lookup_app_r by lia.
    by replace (length (store s) + 1 - length (store s))%nat with 1%nat by lia. }
  cbn [py_len bind]. rewrite (run_get _ _ _ _ _ H1).
  do 2 lib_step Hret. rewrite run_bind.
  match goal with
  | |- context [run _ (KFold_tutorial.print_shapes _) ?s0] =>
      destruct (print_shapes_run lib s0 (length (store s)) (map VArr F) H1)
        as (_ & Hst3 & Hr3); specialize (Hr3 Hret); revert Hst3 Hr3;
      destruct (run (world lib) (KFold_tutorial.print_shapes _) s0) as [s3 [e|[]]];
      cbn [fst snd]; [done|]; intros Hst3 _
  end.
  cbn [log store] in Hst3.
  rewrite (run_get _ _ (map VArr T)) by (by rewrite Hst3).
  do 2 lib_step Hret. rewrite run_bind.
  match goal with
  | |- context [run _ (KFold_tutorial.print_shapes _) ?s0] =>
      destruct (print_shapes_run lib s0 (length (store s ++ [map VArr F]))
                  (map VArr T)) as (_ & Hst4 & Hr4);
        [cbn [log store]; by rewrite Hst3|];
      specialize (Hr4 Hret); revert Hst4 Hr4;
      destruct (run (world lib) (KFold_tutorial.print_shapes _) s0) as [s4 [e|[]]];
      cbn [fst snd]; [done|]; intros Hst4 _
  end.
  cbn [log store run] in *. exists s4. split.
  - repeat f_equal. rewrite length_app. simpl. lia.
  - by rewrite Hst4, Hst3.
Qed.

Lemma cell_save_run lib rf rt fs ts s :
  returns lib ->
  (forall h c, fn c = "read_split" -> exists a b, lib h c = inr (VTuple [a; b])) ->
  store s !! rf = Some fs -> store s !! rt = Some ts ->
  exists s',
    run (world lib) (KFold_tutorial.cell_save (VRef rf) (VRef rt)) s = (s', inr tt)
    /\ store s' = store s.
Proof.
  intros Hret Hread Hf Ht.
  unfold KFold_tutorial.cell_save, mbind, script_bind, mret, script_ret, ext.
  cbn [extern bind]. rewrite (run_get _ _ _ _ _ Hf), (run_get _ _ _ _ _ Ht).
  lib_step Hret.
  match goal with
  | |- context [run (world lib) (Lib ?c ?k) ?s0] =>
      destruct (Hread (trace s0) c eq_refl) as (a & b & Er);
      rewrite (run_lib (world lib) c k s0 (VTuple [a; b]))
        by (rewrite world_other by reflexivity; exact Er)
  end.
  cbn [py_unpack2 py_iter bind run]. by eexists.
Qed.

Lemma quiet_errors {A} lib (p : script A) s s' r :
  sat (fun c => averaged_error c = None /\ fn c <> "get_error") p ->
  run lib p s = (s', r) ->
  obs averaged_error (trace s') = obs averaged_error (trace s)
  /\ errors_of (trace s') = errors_of (trace s).
Proof.
  intros Hp E. destruct (sat_run _ lib p s Hp) as (new & Ht & HP & _).
  rewrite E in Ht. cbn [fst] in Ht. rewrite Ht, obs_app, errors_of_app. split.
  - rewrite (obs_silent _ new); [apply app_nil_r|].
    eapply Forall_impl; [exact HP|]. by intros ev [H _].
  - rewrite (errors_of_others new); [apply app_nil_r|].
    eapply Forall_impl; [exact HP|]. by intros ev [_ H].
Qed.

Lemma averaged_error_builtin : forall c, builtin c -> averaged_error c = None.
Proof. builtin_quiet. Qed.

Ltac no_errors E s s' Ho He :=
  assert (Ho : obs averaged_error (trace s') = obs averaged_error (trace s)
               /\ errors_of (trace s') = errors_of (trace s))
    by (eapply quiet_errors; [|exact E];
        sat_with (quiet_builtin averaged_error averaged_error_builtin) ltac:(by split));
  destruct Ho as [Ho He].


(** * The notebooks as a whole *)

(** ** The ML-NEB notebook runs to its end *)

Ltac numbers_return Hret a b :=
  destruct (num_of a) as [[?x|?x]|], (num_of b) as [[?y|?y]|]; cbn [to_float is_zero];
  repeat match goal with
         | |- context [exact ?z] => destruct (exact z)
         | |- context [if ?b then _ else _] => destruct b
         end;
  unfold ext;
  first [by eexists _, _ | lib_step Hret; by eexists _, _].

Lemma py_gt_returns lib a b s :
  returns lib -> exists s' v, run (world lib) (py_gt a b) s = (s', inr v).
Proof. intros Hret. unfold py_gt. numbers_return Hret a b. Qed.

Lemma py_add_returns lib a b s :
  returns lib -> exists s' v, run (world lib) (py_add a b) s = (s', inr v).
Proof. intros Hret. unfold py_add. numbers_return Hret a b. Qed.

Lemma py_half_returns lib a s :
  returns lib -> exists s' v, run (world lib) (py_truediv a (VInt 2)) s = (s', inr v).
Proof.
  intros Hret. unfold py_truediv. cbn [num_of is_zero Z.eqb to_float].
  change (exact 2) with true.
  destruct (num_of a) as [[x|x]|]; cbn [to_float];
    try destruct (exact x); unfold ext;
    first [by eexists _, _ | lib_step Hret; by eexists _, _].
Qed.

Lemma mask_returns lib atoms :
  returns lib ->
  forall s, exists s' mask,
    run (world lib)
      (map_ (fun atom => bind (py_getattr atom "tag") (fun t => py_gt t (VInt 1))) atoms) s
    = (s', inr mask).
Proof.
  intros Hret. induction atoms as [|a atoms IH]; intros s; [by eexists _, _|].
  cbn [map_]. rewrite run_bind. unfold py_getattr at 1, ext at 1. cbn [bind].
  lib_step Hret.
  match goal with
  | |- context [run _ (py_gt ?t ?b) ?s0] =>
      destruct (py_gt_returns lib t b s0 Hret) as (s1 & m & ->)
  end.
  cbv beta iota. rewrite run_bind.
  destruct (IH s1) as (s2 & mask & ->). cbn [run]. eauto.
Qed.

Lemma run_ret {A} lib (a : A) s : run lib (Ret a) s = (s, inr a).
Proof. reflexivity. Qed.

(** [lib_known H]: the next call is one whose result [H] describes. *)
Ltac lib_known H :=
  lazymatch goal with
  | |- context [run (world ?lib) (Lib ?c ?k) ?s] =>
      let v := fresh "v" in
      let E := fresh "E" in
      destruct (H (trace s) c eq_refl) as [v E];
      rewrite (run_lib (world lib) c k s _)
        by (rewrite world_other by reflexivity; exact E);
      cbv beta
  end.

Lemma mlneb_completes_in lib : mlneb_world lib -> (mlneb_run lib).2 = inr tt.
Proof.
  intros (Hret & Hslab & Hiter).
  unfold mlneb_run, MLNEB_tutorial.notebook, mbind, script_bind.
  unfold MLNEB_tutorial.cell_calculator, MLNEB_tutorial.cell_slab, import_from, ext,
    meth, mbind, script_bind, mret, script_ret.
  cbn [bind].
  do 4 lib_step Hret. lib_known Hslab. do 2 lib_step Hret.
  cbn [py_iter bind]. lib_known Hiter. cbn [bind]. rewrite !run_bind.
  match goal with
  | |- context [run _ (map_ _ ?atoms) ?s0] =>
      destruct (mask_returns lib atoms Hret s0) as (s1 & mask & ->)
  end.
  cbv beta iota. do 2 lib_step Hret. rewrite run_ret. cbv beta iota.
  unfold MLNEB_tutorial.cell_set_calculator, MLNEB_tutorial.cell_endpoints,
    import_from, ext, meth, mbind, script_bind, mret, script_ret, py_getattr, py_setattr.
  cbn [py_getitem]. unfold ext. cbn [bind].
  do 7 lib_step Hret. rewrite py_getitem_tuple. unfold ext. cbn [bind].
  lib_step Hret. rewrite !run_bind.
  match goal with
  | |- context [run _ (py_truediv ?a _) ?s0] =>
      destruct (py_half_returns lib a s0 Hret) as (s2 & d & ->)
  end.
  cbv beta iota. rewrite !run_bind.
  match goal with
  | |- context [run _ (py_add ?a ?b) ?s0] =>
      destruct (py_add_returns lib a b s0 Hret) as (s3 & x' & ->)
  end.
  cbv beta iota. cbn [bind]. do 3 lib_step Hret. rewrite !run_ret. cbv beta iota.
  unfold MLNEB_tutorial.cell_run, MLNEB_tutorial.cell_plot,
    MLNEB_tutorial.cell_unconverged, MLNEB_tutorial.cell_restart,
    MLNEB_tutorial.cell_restart_more, MLNEB_tutorial.cell_plot_again,
    import_from, ext, meth, mbind, script_bind, mret, script_ret.
  cbn [bind]. do 12 lib_step Hret. done.
Qed.

(** ** C8: the order of the ML-NEB script *)

Lemma milestone_builtin : forall c, builtin c -> milestone_of c = None.
Proof. builtin_quiet. Qed.

Lemma mlneb_milestones : emits milestone_of script_order MLNEB_tutorial.notebook.
Proof. emits_with milestone_builtin. Qed.

(** Before MLNEB is constructed the slab is built and both end-points are
    relaxed. *)
Lemma before_instantiate (tr before after : list event) c o :
  obs milestone_of tr `prefix_of` script_order ->
  tr = before ++ (c, o) :: after -> fn c = "MLNEB" ->
  endpoints_relaxed `prefix_of` obs milestone_of before.
Proof.
  intros Hf -> Hc. rewrite obs_app in Hf. unfold obs at 2 in Hf. simpl in Hf.
  unfold milestone_of at 2 in Hf. rewrite Hc in Hf. simpl in Hf.
  destruct Hf as [rest Hf]. rewrite <- app_assoc in Hf. simpl in Hf.
  remember (obs milestone_of before) as l eqn:El. clear El.
  unfold script_order, endpoints_relaxed in *. simpl in Hf.
  repeat (destruct l as [|? l]; simpl in Hf;
          [ try discriminate Hf; eexists; reflexivity
          | try discriminate Hf; injection Hf as <- Hf ]).
Qed.

(** What a run that completes has shown is all that was expected. *)
Lemma follows_completed {X A} (seen : list X) (r : exn + A) L a :
  follows seen r L -> r = inr a -> seen = L.
Proof. by intros H ->. Qed.


(** The world [three_folds] is one in which the ML-NEB notebook runs to
    its end. *)
Example three_folds_mlneb_world : mlneb_world three_folds.
Proof.
  split; [|split].
  - intros h c. unfold three_folds, demo. repeat case_match; eauto.
  - intros h c Hc. unfold three_folds, demo. rewrite Hc. simpl. eauto.
  - intros h c Hc. unfold three_folds, demo. rewrite Hc. simpl. eauto.
Qed.

(** ** C3: restarting *)

(** [plays_cell]: a cell that is a straight sequence of calls plays its
    plan. *)
Ltac plays_cell :=
  lazymatch goal with
  | |- context [match world ?lib ?h ?c with _ => _ end] =>
      destruct (world lib h c) as [?|?]; plays_cell
  | |- _ =>
      eexists; unfold log; cbn [store trace fst snd raised_in];
      rewrite <- ?app_assoc; cbn [app];
      split; [reflexivity | cbn; repeat split]
  end.

Lemma restart_flag_builtin : forall c, builtin c -> restart_flag c = None.
Proof. builtin_quiet. Qed.

Lemma restart_only_builtin : forall c, builtin c -> restart_only c.
Proof. intros [f r a kw] (_ & _ & Hk). simpl in Hk. subst. by intros H. Qed.

Ltac restart_call := vm_compute; intros; done.

Lemma mlneb_restart_only : sat restart_only MLNEB_tutorial.notebook.
Proof. sat_with restart_only_builtin restart_call. Qed.

Lemma kfold_restart_only : sat restart_only KFold_tutorial.notebook.
Proof. sat_with restart_only_builtin restart_call. Qed.

(** The callees of the notebooks. *)
Lemma mlneb_callee_builtin : forall c, builtin c -> calls_of mlneb_callees c.
Proof.
  intros c (Hf & _). unfold calls_of, mlneb_callees. apply elem_of_app. by right.
Qed.

Lemma kfold_callee_builtin : forall c, builtin c -> calls_of kfold_callees c.
Proof.
  intros c (Hf & _). unfold calls_of, kfold_callees. apply elem_of_app. by right.
Qed.

Ltac callee := unfold calls_of, mlneb_callees, kfold_callees, builtins; simpl;
               repeat constructor.

Lemma mlneb_calls : sat (calls_of mlneb_callees) MLNEB_tutorial.notebook.
Proof. sat_with mlneb_callee_builtin callee. Qed.

Lemma sat_new {A} (P : call -> Prop) l (k : loc -> script A) :
  (forall r, sat P (k r)) -> sat P (New l k).
Proof. done. Qed.

Lemma sat_get {A} (P : call -> Prop) r (k : list value -> script A) :
  (forall l, sat P (k l)) -> sat P (Get r k).
Proof. done. Qed.

Lemma sat_put {A} (P : call -> Prop) r l (k : script A) :
  sat P k -> sat P (Put r l k).
Proof. done. Qed.

(** The lists [targets] and [y] are list objects of the notebook: their
    [append] is no call. *)
Ltac tight_step Hb tac :=
  lazymatch goal with
  | |- sat _ (Ret _) => exact I
  | |- sat _ (New _ _) => apply sat_new; intros
  | |- sat _ (Get _ _) => apply sat_get; intros
  | |- sat _ (Put _ _ _) => apply sat_put
  | |- sat _ (list_append _ (VRef _) _) => cbn [list_append]
  | |- sat _ (for_ _ _) => apply sat_for; intros
  | |- sat _ (bind (for_ _ _) _) => apply sat_bind; [ | intros ]
  | |- _ => thread_step Hb tac
  end.

Lemma kfold_calls : sat (calls_of kfold_callees) KFold_tutorial.notebook.
Proof. repeat tight_step kfold_callee_builtin callee. Qed.

(** C3: a restart is a construction of MLNEB with [restart=True] and its
    run, and nothing else.  The cell that stops after five steps
    constructs MLNEB with [restart=False] and runs it; each of the two
    cells after "select restart=True" constructs MLNEB with [restart=True]
    (the first with the other parameters as before, the second with 21
    images) and runs it; each of these cells makes these two calls and no
    other, and leaves the lists of the notebook alone.  In every run of
    the ML-NEB notebook the flags are False, False, True, True, in this
    order (all four when the notebook runs to its end); no other call of
    either notebook has a parameter [restart], every callee of the ML-NEB
    notebook is one of [mlneb_callees] and every callee of the
    cross-validation notebook one of [kfold_callees], which constructs no
    MLNEB. *)
Theorem C3_restart_is_a_flag :
  (forall lib s calc,
     only_calls (world lib) (MLNEB_tutorial.cell_unconverged calc) s
       [fun _ =>
          Call "MLNEB" None []
            [("start", VStr "initial.traj"); ("end", VStr "final.traj");
             ("ase_calc", calc); ("n_images", VInt 7);
             ("interpolation", VStr "idpp"); ("restart", VBool false)];
        fun made =>
          Call "neb_catlearn.run" (made !! 0%nat) []
            [("fmax", VFloat 0.05); ("trajectory", VStr "ML-NEB.traj");
             ("steps", VInt 5)]])
  /\ (forall lib s calc,
        only_calls (world lib) (MLNEB_tutorial.cell_restart calc) s
          [fun _ =>
             Call "MLNEB" None []
               [("start", VStr "initial.traj"); ("end", VStr "final.traj");
                ("ase_calc", calc); ("n_images", VInt 7);
                ("interpolation", VStr "idpp"); ("restart", VBool true)];
           fun made =>
             Call "neb_catlearn.run" (made !! 0%nat) []
               [("fmax", VFloat 0.05); ("trajectory", VStr "ML-NEB.traj")]])
  /\ (forall lib s calc,
        only_calls (world lib) (MLNEB_tutorial.cell_restart_more calc) s
          [fun _ =>
             Call "MLNEB" None []
               [("start", VStr "initial.traj"); ("end", VStr "final.traj");
                ("ase_calc", calc); ("n_images", VInt 21);
                ("interpolation", VStr "idpp"); ("restart", VBool true)];
           fun made =>
             Call "neb_catlearn.run" (made !! 0%nat) []
               [("fmax", VFloat 0.02); ("unc_convergence", VFloat 0.025);
                ("trajectory", VStr "ML-NEB.traj")]])
  /\ forall lib,
       follows (obs restart_flag (trace (mlneb_run lib).1)) (mlneb_run lib).2
               [Some (VBool false); Some (VBool false);
                Some (VBool true); Some (VBool true)]
       /\ Forall (fun ev => restart_only ev.1 /\ calls_of mlneb_callees ev.1)
                 (trace (mlneb_run lib).1)
       /\ Forall (fun ev => restart_only ev.1 /\ calls_of kfold_callees ev.1)
                 (trace (kfold_run lib).1)
       /\ (mlneb_world lib ->
           (mlneb_run lib).2 = inr tt
           /\ obs restart_flag (trace (mlneb_run lib).1)
              = [Some (VBool false); Some (VBool false);
                 Some (VBool true); Some (VBool true)]).
Proof.
  split; [|split; [|split]].
  - intros lib s calc.
    unfold only_calls, MLNEB_tutorial.cell_unconverged, MLNEB_tutorial.mlneb_kwargs,
      ext, meth, mbind, script_bind, mret, script_ret.
    cbn [bind run]. plays_cell.
  - intros lib s calc.
    unfold only_calls, MLNEB_tutorial.cell_restart, MLNEB_tutorial.mlneb_kwargs,
      ext, meth, mbind, script_bind, mret, script_ret.
    cbn [bind run]. plays_cell.
  - intros lib s calc.
    unfold only_calls, MLNEB_tutorial.cell_restart_more, MLNEB_tutorial.mlneb_kwargs,
      ext, meth, mbind, script_bind, mret, script_ret.
    cbn [bind run]. plays_cell.
  - intros lib.
    assert (Hf : follows (obs restart_flag (trace (mlneb_run lib).1)) (mlneb_run lib).2
                   [Some (VBool false); Some (VBool false);
                    Some (VBool true); Some (VBool true)]).
    { apply run_from_init. emits_with restart_flag_builtin. }
    split; [exact Hf|]. split; [|split].
    + apply Forall_and. split; apply sat_from_init;
        [apply mlneb_restart_only | apply mlneb_calls].
    + apply Forall_and. split; apply sat_from_init;
        [apply kfold_restart_only | apply kfold_calls].
    + intros Hw. pose proof (mlneb_completes_in lib Hw) as Hc.
      split; [done|]. by eapply follows_completed.
Qed.

(** ** The cross-validation notebook runs to its end *)

Lemma kfold_notebook_ok lib cands score F T :
  kfold_world lib cands score F T ->
  (kfold_run lib).2 = inr tt
  /\ exists errs,
       errors_of (trace (kfold_run lib).1) = map VFloat errs
       /\ length errs = length F
       /\ obs averaged_error (trace (kfold_run lib).1)
          = [[VFloat (mean_error errs)]].
Proof.
  intros (Hlib & Hcand & Hinfo & Hk & Hread & HT & Hn & Hb & HaF & HaT).
  assert (Hret := regression_returns lib Hlib).
  unfold kfold_run, KFold_tutorial.notebook, mbind, script_bind.
  destruct (imports_run lib init Hret) as (s1 & E1 & Hs1).
  no_errors E1 init s1 Ho1 He1.
  rewrite run_bind, E1. cbv beta iota.
  destruct (cell_data_run lib s1 cands score Hret Hcand Hinfo)
    as (s2 & features & E2 & Hs2 & _).
  no_errors E2 s1 s2 Ho2 He2.
  rewrite run_bind, E2. cbv beta iota.
  destruct (cell_split_run lib features (length (store s1)) (map score cands) F T s2
              Hret Hk) as (s3 & E3 & Hs3).
  { rewrite Hs2. by rewrite lookup_app_r, Nat.sub_diag. }
  no_errors E3 s2 s3 Ho3 He3.
  rewrite run_bind, E3. cbv beta iota.
  assert (Hf3 : store s3 !! length (store s2) = Some (map VArr F)).
  { rewrite Hs3. by rewrite lookup_app_r, Nat.sub_diag. }
  assert (Ht3 : store s3 !! S (length (store s2)) = Some (map VArr T)).
  { rewrite Hs3. rewrite lookup_app_r by lia.
    by replace (S (length (store s2)) - length (store s2))%nat with 1%nat by lia. }
  destruct (cell_save_run lib _ _ _ _ s3 Hret Hread Hf3 Ht3) as (s4 & E4 & Hs4).
  no_errors E4 s3 s4 Ho4 He4.
  rewrite run_bind, E4. cbv beta iota.
  rewrite <- Hs4 in Hf3, Ht3.
  destruct (cell_cv_ok lib Hlib _ _ F T s4 HaF HaT Hf3 Ht3 HT Hn)
    as (s5 & new5 & errs & E5 & Htr5 & He5 & Hlen & Ho5 & Hy5).
  rewrite run_bind, E5. cbv beta iota.
  assert (Hne : errs <> []) by (intros ->; simpl in Hlen; lia).
  rewrite <- Hlen in Hb.
  destruct (analysis_ok lib Hlib (VList (indices (length F))) (length (store s4))
              errs s5 Hy5 Hne Hb) as (s6 & new6 & E6 & Htr6 & He6 & Ho6 & _).
  rewrite run_bind, E6. cbv beta iota.
  unfold KFold_tutorial.cell_cleanup, KFold_tutorial.cell_show.
  unfold mbind, script_bind, mret, script_ret, ext. cbn [bind].
  do 2 lib_step Hret. cbn [run fst snd log trace]. split; [done|].
  exists errs. rewrite !errors_of_app, !obs_app, Htr6, Htr5.
  rewrite !errors_of_app, !obs_app, He4, He3, He2, He1, Ho4, Ho3, Ho2, Ho1.
  rewrite He5, He6, Ho5, Ho6. cbn [init trace]. by rewrite !app_nil_r.
Qed.

(** X20: in a world that behaves (no call raises, every candidate has a
    raw score, [k_fold] returns at least two and at most 2^53 subsets of
    features and as many of targets, arrays that are alike, [read_split]
    returns a pair, and the regression returns its dicts) the notebook
    runs to its end, makes one regression for each subset, and formats as
    averaged error the mean of the errors that [get_error] found. *)
Theorem notebook_reports_mean :
  forall lib cands (score : value -> value) F T,
    kfold_world lib cands score F T ->
    (kfold_run lib).2 = inr tt
    /\ exists errs,
         errors_of (trace (kfold_run lib).1) = map VFloat errs
         /\ length errs = length F
         /\ obs averaged_error (trace (kfold_run lib).1)
            = [[VFloat (mean_error errs)]].
Proof. intros lib cands score F T. apply kfold_notebook_ok. Qed.

Lemma tidy_regression_ok cands score F T err : regression_ok (tidy cands score F T err).
Proof.
  split; [|split].
  - intros h c. unfold tidy, database. repeat case_match; eauto.
  - intros h c Hc. unfold tidy. rewrite Hc. simpl. eauto.
  - intros h c Hc. unfold tidy. rewrite Hc. simpl. eauto.
Qed.

Lemma tidy_info cands score F T err a :
  info_of (tidy cands score F T err) a (score a).
Proof.
  intros h. eexists _, _. split; [reflexivity|]. split; [reflexivity|].
  by destruct (score a).
Qed.

(** The world [tidy] with two candidates and the three subsets of the
    example is a world in which the notebook runs to its end. *)
Lemma tidy_world :
  kfold_world (tidy [VObj 1; VObj 2] two_scores three_features three_targets 0.5)
    [VObj 1; VObj 2] (score_or_none two_scores) three_features three_targets.
Proof.
  split; [apply tidy_regression_ok|].
  split; [intros h c Hc; unfold tidy, database; by rewrite Hc|].
  split.
  { intros a Ha.
    repeat (apply elem_of_cons in Ha as [->|Ha];
            [exact (tidy_info _ two_scores _ _ _ _)|]).
    by apply elem_of_nil in Ha. }
  split; [intros h c Hc; unfold tidy; by rewrite Hc|].
  split; [intros h c Hc; unfold tidy; rewrite Hc; simpl; eauto|].
  split; [reflexivity|]. split; [simpl; lia|]. split; [simpl; lia|].
  split; [apply three_features_alike | apply three_targets_alike].
Qed.

Lemma notebook_reports_mean_witness :
  (kfold_run (tidy [VObj 1; VObj 2] two_scores three_features three_targets 0.5)).2
  = inr tt
  /\ exists errs,
       errors_of
         (trace (kfold_run (tidy [VObj 1; VObj 2] two_scores three_features
                              three_targets 0.5)).1) = map VFloat errs
       /\ length errs = length three_features
       /\ obs averaged_error
            (trace (kfold_run (tidy [VObj 1; VObj 2] two_scores three_features
                                 three_targets 0.5)).1)
          = [[VFloat (mean_error errs)]].
Proof.
  apply (notebook_reports_mean
           (tidy [VObj 1; VObj 2] two_scores three_features three_targets 0.5)
           [VObj 1; VObj 2] (score_or_none two_scores) three_features three_targets).
  apply tidy_world.
Defined.

(** ** The order of the cross-validation script *)

Lemma kfold_step_builtin : forall c, builtin c -> kfold_step_of c = None.
Proof. builtin_quiet. Qed.

Lemma kfold_steps : emits kfold_step_of kfold_order KFold_tutorial.notebook.
Proof. emits_with kfold_step_builtin. Qed.

Lemma before_clean (tr before after : list event) c o :
  obs kfold_step_of tr `prefix_of` kfold_order ->
  tr = before ++ (c, o) :: after -> fn c = "os.remove" ->
  obs kfold_step_of before = reported.
Proof.
  intros Hf -> Hc. rewrite obs_app in Hf. unfold obs at 2 in Hf. simpl in Hf.
  unfold kfold_step_of at 2 in Hf. rewrite Hc in Hf. simpl in Hf.
  destruct Hf as [rest Hf]. rewrite <- app_assoc in Hf. simpl in Hf.
  remember (obs kfold_step_of before) as l eqn:El. clear El.
  unfold kfold_order, reported in *. simpl in Hf.
  repeat (destruct l as [|? l]; simpl in Hf;
          [ try discriminate Hf; try reflexivity
          | try discriminate Hf; injection Hf as <- Hf ]).
Qed.

(** X10: in every run of the cross-validation notebook the steps are, in
    order: the database is opened, the data are split by [k_fold], the
    split is written and read back, the errors of the folds are plotted,
    the averaged error is formatted, [os.remove] is called on
    kfoldSave.json and the plot is shown; a run that an exception ends
    shows the first of these steps.  [os.remove] is called only after the
    six steps before it, and after every earlier call has returned.  In a
    world that behaves the notebook runs to its end and takes all eight
    steps. *)
Theorem kfold_script_order :
  forall lib,
    follows (obs kfold_step_of (trace (kfold_run lib).1)) (kfold_run lib).2 kfold_order
    /\ (forall before c o after,
          trace (kfold_run lib).1 = before ++ (c, o) :: after ->
          fn c = "os.remove" ->
          obs kfold_step_of before = reported
          /\ Forall (fun ev => ~ raised ev) before)
    /\ (forall cands score F T,
          kfold_world lib cands score F T ->
          (kfold_run lib).2 = inr tt
          /\ obs kfold_step_of (trace (kfold_run lib).1) = kfold_order).
Proof.
  intros lib.
  assert (Hf := run_from_init kfold_step_of kfold_order KFold_tutorial.notebook
                  (world lib) kfold_steps).
  assert (Hu := uncaught_from_init KFold_tutorial.notebook (world lib)
                  kfold_handler_free).
  assert (Hc := kfold_notebook_ok lib).
  change (run (world lib) KFold_tutorial.notebook init) with (kfold_run lib) in *.
  destruct (kfold_run lib) as [s r]. simpl in *.
  split; [exact Hf|]. split.
  - intros before c o after Ht Hfn. split.
    + eapply before_clean; eauto using follows_prefix.
    + eapply returned_before; eauto.
  - intros cands score F T Hw. destruct (Hc cands score F T Hw) as [Hr _].
    split; [done|]. by eapply follows_completed.
Qed.

(** ** The folds of the notebook *)

(** X14: the folds of the notebook are those of the split that [k_fold]
    returned: when it returns the subsets [F] of features and [T] of
    targets, arrays that are alike, fold i hands the regression all of
    them but the i-th to train on and the i-th to test on, for
    i = 0, 1, ...; the split that is read back from kfoldSave.json plays
    no part.  A run that an exception ends shows the first folds of these;
    in a world that behaves the notebook makes all of them. *)
Theorem folds_of_the_split :
  forall lib F T,
    splits_into lib F T -> alike F -> alike T ->
    follows (obs fold_inputs (trace (kfold_run lib).1)) (kfold_run lib).2
      (flat_map (expected_fold F T) (seq 0 (length F)))
    /\ (forall cands score,
          kfold_world lib cands score F T ->
          (kfold_run lib).2 = inr tt
          /\ obs fold_inputs (trace (kfold_run lib).1)
             = flat_map (expected_fold F T) (seq 0 (length F))).
Proof.
  intros lib F T Hk HaF HaT.
  assert (Hfo : follows (obs fold_inputs (trace (kfold_run lib).1)) (kfold_run lib).2
                  (flat_map (expected_fold F T) (seq 0 (length F)))).
  { apply shows_from_init.
    unfold KFold_tutorial.notebook, mbind, script_bind.
    eapply (shows_bind _ _ _ []); [reflexivity | quiet_for fold_inputs_builtin |].
    intros s1 [] _.
    eapply (shows_bind _ _ _ []); [reflexivity | quiet_for fold_inputs_builtin |].
    intros s2 [features targets] _.
    eapply (shows_bind _ _ _ []); [reflexivity | quiet_for fold_inputs_builtin |].
    intros s3 [fs ts] (-> & -> & Hf & Ht)%(cell_split_result _ _ _ F T); [|done].
    eapply (shows_bind _ _ _ []); [reflexivity | quiet_for fold_inputs_builtin |].
    intros s4 [] Hsave.
    assert (Hst := fun r => confined_run (world lib) [] _ s3 r
                     (cell_save_reads [] (VRef (length (store s2)))
                        (VRef (S (length (store s2)))))).
    rewrite Hsave in Hst. cbn [fst] in Hst.
    rewrite <- Hst in Hf, Ht
      by (first [apply not_elem_of_nil | by eapply lookup_lt_Some]).
    eapply (shows_bind _ _ _ _ []); [by rewrite app_nil_r | |].
    - apply (cell_cv_follows fold_inputs (expected_fold F T) lib _ _ F T s4);
        [|done|done].
      intros i st y. by apply fold_inputs_follow.
    - intros s5 [x y] _. apply shows_emits. emits_with fold_inputs_builtin. }
  split; [exact Hfo|]. intros cands score Hw.
  destruct (kfold_notebook_ok lib cands score F T Hw) as [Hr _].
  split; [done|]. by eapply follows_completed.
Qed.

Lemma tidy_splits cands score F T err : splits_into (tidy cands score F T err) F T.
Proof. intros h c Hc. unfold tidy. by rewrite Hc. Qed.

Lemma folds_of_the_split_witness :
  follows
    (obs fold_inputs
       (trace (kfold_run (tidy [VObj 1; VObj 2] two_scores three_features
                            three_targets 0.5)).1))
    (kfold_run (tidy [VObj 1; VObj 2] two_scores three_features three_targets 0.5)).2
    (flat_map (expected_fold three_features three_targets)
       (seq 0 (length three_features)))
  /\ (forall cands score,
        kfold_world (tidy [VObj 1; VObj 2] two_scores three_features three_targets 0.5)
          cands score three_features three_targets ->
        (kfold_run (tidy [VObj 1; VObj 2] two_scores three_features
                      three_targets 0.5)).2 = inr tt
        /\ obs fold_inputs
             (trace (kfold_run (tidy [VObj 1; VObj 2] two_scores three_features
                                  three_targets 0.5)).1)
           = flat_map (expected_fold three_features three_targets)
               (seq 0 (length three_features))).
Proof.
  apply (folds_of_the_split
           (tidy [VObj 1; VObj 2] two_scores three_features three_targets 0.5)
           three_features three_targets).
  - apply tidy_splits.
  - apply three_features_alike.
  - apply three_targets_alike.
Defined.

(** ** C5: files *)

Lemma artifacts_builtin : forall c, builtin c -> artifacts c = None.
Proof. builtin_quiet. Qed.

Lemma mlneb_artifacts : emits artifacts mlneb_files MLNEB_tutorial.notebook.
Proof. emits_with artifacts_builtin. Qed.

Lemma kfold_artifacts : emits artifacts kfold_files KFold_tutorial.notebook.
Proof. emits_with artifacts_builtin. Qed.


Lemma named_prefix (seen expected : list (list string)) :
  seen `prefix_of` expected ->
  Forall (fun files => Forall (fun f => f ∈ named_files) files) expected ->
  Forall (fun files => Forall (fun f => f ∈ named_files) files) seen.
Proof. intros [rest ->] H. by apply Forall_app in H as [H _]. Qed.


(** ** C2: what the notebooks author *)

Lemma concatenated_builtin : forall c, builtin c -> concatenated c = None.
Proof. builtin_quiet. Qed.

Lemma fold_rest_concatenates_nothing a b c d y :
  emits concatenated []
    (bind (KFold_tutorial.gp_predict a b c d) (fun data =>
       bind (py_getitem data (VStr "result")) (fun result =>
         list_append "y" y result))).
Proof. emits_with concatenated_builtin. Qed.

(** Whatever the subsets are and whatever [np.concatenate] answers, a fold
    hands it the other subsets of features, then those of targets. *)
Lemma fold_concatenated_follow lib rf rt F T i s y :
  store s !! rf = Some (map VArr F) -> store s !! rt = Some (map VArr T) ->
  exists new,
    trace (run (world lib) (KFold_tutorial.fold (VRef rf) (VRef rt) y
                              (VInt (Z.of_nat i))) s).1 = trace s ++ new /\
    follows (obs concatenated new)
      (run (world lib) (KFold_tutorial.fold (VRef rf) (VRef rt) y
                          (VInt (Z.of_nat i))) s).2
      (expected_concatenations (map VArr F) (map VArr T) i).
Proof.
  intros Hf Ht. unfold KFold_tutorial.fold, mbind, script_bind.
  rewrite run_bind, (compose_sets_popped lib rf rt F T s i Hf Ht).
  unfold expected_concatenations. rewrite !delete_map.
  destruct (F !! i) as [Fi|] eqn:EF;
    [|exists []; simpl; rewrite app_nil_r; split; [done|apply prefix_nil]].
  destruct (T !! i) as [Ti|] eqn:ET;
    [|exists []; simpl; rewrite app_nil_r; split; [done|apply prefix_nil]].
  unfold ext, mbind, script_bind, mret, script_ret. cbn [bind run].
  set (c1 := Call "np.concatenate" None [VList (map VArr (delete i F))] _).
  destruct (world lib (trace (popped F T i s)) c1) as [e1|a] eqn:E1.
  { eexists [_]. simpl. split; [done|]. apply prefix_cons, prefix_nil. }
  set (c2 := Call "np.concatenate" None [VList (map VArr (delete i T))] _).
  destruct (world lib (trace (log c1 (inr a) (popped F T i s))) c2) as [e2|b] eqn:E2.
  { eexists [_; _]. simpl. rewrite <- app_assoc. split; [done|]. done. }
  cbv beta iota.
  destruct (fold_rest_concatenates_nothing a b (VArr Fi) (VArr Ti) y (world lib)
              (log c2 (inr b) (log c1 (inr a) (popped F T i s)))) as (new & Hn & Hfo).
  eexists (_ :: _ :: new). split.
  - rewrite Hn. simpl. by rewrite <- !app_assoc.
  - apply follows_nil in Hfo. rewrite !obs_cons, Hfo. simpl.
    match goal with |- follows _ ?r _ => destruct r; simpl; [by exists []|done] end.
Qed.


